(** * Class relationship verifier of the bytecode verifier

    A shallow embedding of [runtime/bcverify/classrelationships.c]:
    the per-class snippet table, the per-class-loader table of pending
    relationships, the validation that runs when a class is loaded, and
    the self-relative encoding of snippets for the shared classes cache. *)

From Stdlib Require Import ZArith Lia.
From Stdlib Require Strings.Byte.
From stdpp Require Import base option list sorting gmap strings.

Local Open Scope Z_scope.

(** ** Port library memory

    Every [j9mem_allocate_memory], [hashTableNew], [hashTableAdd],
    [pool_new] and [pool_newElement] may return [NULL].  The outcomes of
    the coming requests are a script, consumed front to back; once the
    script is used up every further request succeeds. *)

Definition Heap := list bool.

Definition allocate (h : Heap) : bool * Heap :=
  match h with
  | [] => (true, [])
  | ok :: h' => (ok, h')
  end.

(** ** Constants of the verifier

    [BCV_SUCCESS], [BCV_ERR_INTERNAL_ERROR] and
    [BCV_ERR_INSUFFICIENT_MEMORY] are three distinct [IDATA] codes. *)

Inductive BCVCode :=
| BCV_SUCCESS
| BCV_ERR_INTERNAL_ERROR
| BCV_ERR_INSUFFICIENT_MEMORY.

Global Instance BCVCode_eq_dec : EqDecision BCVCode.
Proof. solve_decision. Defined.

(** Modelled from the spec: the two bits of [J9ClassRelationship.flags],
    which the spec calls a bitset of two members; their values are
    declared in a header of the VM. *)
Definition J9RELATIONSHIP_MUST_BE_INTERFACE : Z := 1.
(** Modelled from the spec: second member of the flags bitset. *)
Definition J9RELATIONSHIP_PARENT_CLASS_IS_THROWABLE : Z := 2.

Definition J9RELATIONSHIP_JAVA_LANG_THROWABLE_STRING : string :=
  "java/lang/Throwable".

(** [J9_ARE_ANY_BITS_SET(value, mask)] is [0 != (value & mask)]. *)
Definition J9_ARE_ANY_BITS_SET (value mask : Z) : bool :=
  negb (Z.land value mask =? 0).

(** [J9UTF8_DATA_EQUALS(d1, l1, d2, l2)]: same length and same bytes. *)
Definition J9UTF8_DATA_EQUALS (a b : string) : bool := String.eqb a b.

(** ** The class loader's relationship table

    A [J9ClassRelationship] is keyed by its class name; [root] is the
    linked list of parent nodes from head to tail, each node owning a
    copy of a class name. *)

Record J9ClassRelationship := mkRelationship {
  root : list string;
  flags : Z
}.

Record J9ClassLoader := mkLoader {
  classRelationshipsHashTable : option (gmap string J9ClassRelationship);
  classRelationshipsPool : bool
}.

Definition newClassLoader : J9ClassLoader := mkLoader None false.

Definition findClassRelationship (cl : J9ClassLoader) (className : string)
  : option J9ClassRelationship :=
  match classRelationshipsHashTable cl with
  | Some table => table !! className
  | None => None
  end.

(** [hashTableNew] then [pool_new]; a failed [pool_new] leaves the new
    table in place and the pool [NULL]. *)
Definition allocateClassRelationshipTableAndPool (h : Heap) (cl : J9ClassLoader)
  : Heap * J9ClassLoader * Z :=
  let '(okTable, h1) := allocate h in
  if okTable then
    let '(okPool, h2) := allocate h1 in
    if okPool then (h2, mkLoader (Some ∅) true, 0)
    else (h2, mkLoader (Some ∅) false, 1)
  else (h1, mkLoader None (classRelationshipsPool cl), 1).

(** [pool_newElement] (which gives [NULL] for a [NULL] pool), then the
    copy of the name; [true] when the node was allocated. *)
Definition allocateClassRelationshipNode (h : Heap) (cl : J9ClassLoader)
  : Heap * bool :=
  if classRelationshipsPool cl then
    let '(okElement, h1) := allocate h in
    if okElement then
      let '(okName, h2) := allocate h1 in (h2, okName)
    else (h1, false)
  else (h, false).

(** The walk of [j9bcv_recordClassRelationship] over a non-empty list of
    parent nodes: it stops at the first node that is longer than the new
    name ([addBefore], with the position of [walk]) or equal to it
    ([alreadyPresent]), and falls off the end otherwise. *)
Inductive WalkResult :=
| AlreadyPresent
| AddBefore (position : nat)
| AddLast.

Fixpoint walkParentNodes (walk : list string) (parentClassName : string)
  (position : nat) : WalkResult :=
  match walk with
  | [] => AddLast
  | node :: next =>
      if (String.length parentClassName <? String.length node)%nat
      then AddBefore position
      else if J9UTF8_DATA_EQUALS node parentClassName then AlreadyPresent
      else walkParentNodes next parentClassName (S position)
  end.

(** [J9_LINKED_LIST_ADD_BEFORE(root, walk, node)]. *)
Definition linkedListAddBefore (nodes : list string) (position : nat)
  (node : string) : list string :=
  take position nodes ++ node :: drop position nodes.

(** [J9_LINKED_LIST_ADD_LAST(root, node)]. *)
Definition linkedListAddLast (nodes : list string) (node : string)
  : list string := nodes ++ [node].

Definition setEntry (cl : J9ClassLoader) (className : string)
  (entry : J9ClassRelationship) : J9ClassLoader :=
  match classRelationshipsHashTable cl with
  | Some table =>
      mkLoader (Some (<[className := entry]> table)) (classRelationshipsPool cl)
  | None => cl
  end.

(** The part of [j9bcv_recordClassRelationship] after the entry of the
    child has been found or added. *)
Definition recordParent (h : Heap) (cl : J9ClassLoader)
  (childClassName parentClassName : string) (entry : J9ClassRelationship)
  : Heap * J9ClassLoader * bool :=
  if J9UTF8_DATA_EQUALS J9RELATIONSHIP_JAVA_LANG_THROWABLE_STRING
      parentClassName
  then
    if negb (J9_ARE_ANY_BITS_SET (flags entry)
        J9RELATIONSHIP_PARENT_CLASS_IS_THROWABLE)
    then (h, setEntry cl childClassName
               (mkRelationship (root entry)
                  (Z.lor (flags entry)
                      J9RELATIONSHIP_PARENT_CLASS_IS_THROWABLE)),
          true)
    else (h, cl, true)
  else
    match root entry with
    | [] =>
        let '(h1, okNode) := allocateClassRelationshipNode h cl in
        if okNode
        then (h1, setEntry cl childClassName
                    (mkRelationship (linkedListAddLast (root entry)
                        parentClassName)
                       (flags entry)), true)
        else (h1, cl, false)
    | _ :: _ =>
        match walkParentNodes (root entry) parentClassName 0 with
        | AlreadyPresent => (h, cl, true)
        | AddBefore position =>
            let '(h1, okNode) := allocateClassRelationshipNode h cl in
            if okNode
            then (h1, setEntry cl childClassName
                        (mkRelationship
                           (linkedListAddBefore (root entry) position
                               parentClassName)
                           (flags entry)), true)
            else (h1, cl, false)
        | AddLast =>
            let '(h1, okNode) := allocateClassRelationshipNode h cl in
            if okNode
            then (h1, setEntry cl childClassName
                        (mkRelationship (linkedListAddLast (root entry)
                            parentClassName)
                           (flags entry)), true)
            else (h1, cl, false)
        end
    end.

(** Find the entry of the child or add a fresh one: the copy of the
    name, then [hashTableAdd]. *)
Definition findOrAddChildEntry (h : Heap) (cl : J9ClassLoader)
  (childClassName : string)
  : Heap * J9ClassLoader * option J9ClassRelationship :=
  match findClassRelationship cl childClassName with
  | Some entry => (h, cl, Some entry)
  | None =>
      let '(okName, h1) := allocate h in
      if okName then
        let '(okAdd, h2) := allocate h1 in
        if okAdd
        then (h2, setEntry cl childClassName (mkRelationship [] 0),
              Some (mkRelationship [] 0))
        else (h2, cl, None)
      else (h1, cl, None)
  end.

(** [j9bcv_recordClassRelationship]: the result is [recordResult]; the
    reason code is [BCV_SUCCESS] exactly when it is [TRUE]. *)
Definition j9bcv_recordClassRelationship (h : Heap) (cl : J9ClassLoader)
  (childClassName parentClassName : string) : Heap * J9ClassLoader * bool :=
  let '(h1, cl1, allocateResult) :=
    match classRelationshipsHashTable cl with
    | None => allocateClassRelationshipTableAndPool h cl
    | Some _ => (h, cl, 0)
    end in
  if negb (allocateResult =? 0) then (h1, cl1, false)
  else
    match findOrAddChildEntry h1 cl1 childClassName with
    | (h2, cl2, Some entry) =>
        recordParent h2 cl2 childClassName parentClassName entry
    | (h2, cl2, None) => (h2, cl2, false)
    end.

(** [freeClassRelationshipNodes]: every parent node of the entry is
    unlinked, its name freed and the node given back to the pool; the
    list of the entry is empty afterwards. *)
Definition freeClassRelationshipNodes (relationship : J9ClassRelationship)
  : J9ClassRelationship :=
  mkRelationship [] (flags relationship).

(** [hashTableRemove(table, entry)] for an entry of the table.  The
    table hashes and compares the name of the entry as the name reads
    at the time of the call ([relationshipHashFn],
    [relationshipHashEqualFn]).  It finds the entry, and removes it,
    when the name reads as it did when the entry was added; a name that
    reads otherwise is looked for elsewhere in the table, nothing is
    found and the entry stays where it is. *)
Definition hashTableRemove (table : gmap string J9ClassRelationship)
  (className classNameRead : string) : gmap string J9ClassRelationship :=
  if J9UTF8_DATA_EQUALS classNameRead className
  then delete className table
  else table.

Definition recordReasonCode (recordResult : bool) : BCVCode :=
  if recordResult then BCV_SUCCESS else BCV_ERR_INSUFFICIENT_MEMORY.

(** [j9bcv_freeClassRelationshipTableAndPool]. *)
Definition j9bcv_freeClassRelationshipTableAndPool (cl : J9ClassLoader)
  : J9ClassLoader :=
  match classRelationshipsHashTable cl with
  | Some _ => mkLoader None false
  | None => cl
  end.

(** ** The snippets of one verification pass

    A snippet is a pair of indexes into the class name list of the
    verification data; the snippet table holds each pair once.  The
    table is kept as the list of its entries in the order in which
    [hashTableStartDo] / [hashTableNextDo] deliver them.  Where a new
    entry lands in that order is up to the hash table; it is put last
    here, and what is proved of the loops over the table is proved for
    every order. *)

Record J9ClassRelationshipSnippet := mkSnippet {
  childClassNameIndex : N;
  parentClassNameIndex : N
}.

Global Instance J9ClassRelationshipSnippet_eq_dec :
  EqDecision J9ClassRelationshipSnippet.
Proof. solve_decision. Defined.

Definition relationshipSnippetHashEqualFn
  (left_relationshipSnippetKey right_relationshipSnippetKey :
      J9ClassRelationshipSnippet)
  : bool :=
  (childClassNameIndex left_relationshipSnippetKey
     =? childClassNameIndex right_relationshipSnippetKey)%N
  && (parentClassNameIndex left_relationshipSnippetKey
        =? parentClassNameIndex right_relationshipSnippetKey)%N.

(** [classNameList] stands for [getNameAndLengthFromClassNameList]: the
    name behind an index.  [romClassName] is the name of the class that
    is being verified. *)
Record J9BytecodeVerificationData := mkVerifyData {
  classNameList : N -> string;
  romClassName : string;
  classRelationshipSnippetsHashTable : option (list J9ClassRelationshipSnippet)
}.

Definition setSnippetTable (verifyData : J9BytecodeVerificationData)
  (table : option (list J9ClassRelationshipSnippet))
  : J9BytecodeVerificationData :=
  mkVerifyData (classNameList verifyData) (romClassName verifyData) table.

Definition snippetTableFind (table : list J9ClassRelationshipSnippet)
  (exemplar : J9ClassRelationshipSnippet) : option J9ClassRelationshipSnippet :=
  List.find (fun entry => relationshipSnippetHashEqualFn entry exemplar) table.

(** [j9bcv_recordClassRelationshipSnippet]: the result is
    [(recordResult, *reasonCode)]. *)
Definition j9bcv_recordClassRelationshipSnippet (h : Heap)
  (verifyData : J9BytecodeVerificationData)
  (childClassNameIndex parentClassNameIndex : N)
  : Heap * J9BytecodeVerificationData * (bool * BCVCode) :=
  let exemplar := mkSnippet childClassNameIndex parentClassNameIndex in
  let '(h1, verifyData1, reasonCode) :=
    match classRelationshipSnippetsHashTable verifyData with
    | None =>
        let '(okTable, h1) := allocate h in
        if okTable then (h1, setSnippetTable verifyData (Some []), BCV_SUCCESS)
        else (h1, verifyData, BCV_ERR_INSUFFICIENT_MEMORY)
    | Some _ => (h, verifyData, BCV_SUCCESS)
    end in
  match reasonCode, classRelationshipSnippetsHashTable verifyData1 with
  | BCV_SUCCESS, Some table =>
      match snippetTableFind table exemplar with
      | Some _ => (h1, verifyData1, (false, BCV_SUCCESS))
      | None =>
          let '(okAdd, h2) := allocate h1 in
          if okAdd
          then (h2, setSnippetTable verifyData1 (Some (table ++ [exemplar])),
                (true, BCV_SUCCESS))
          else (h2, verifyData1, (false, BCV_ERR_INSUFFICIENT_MEMORY))
      end
  | _, _ => (h1, verifyData1, (false, reasonCode))
  end.

(** [hashTableGetCount] of the snippet table, 0 without a table. *)
Definition snippetCountOf (verifyData : J9BytecodeVerificationData) : nat :=
  match classRelationshipSnippetsHashTable verifyData with
  | Some table => length table
  | None => O
  end.

Definition snippetNames (verifyData : J9BytecodeVerificationData)
  (snippetEntry : J9ClassRelationshipSnippet) : string * string :=
  (classNameList verifyData (childClassNameIndex snippetEntry),
   classNameList verifyData (parentClassNameIndex snippetEntry)).

(** ** The data buffer

    The buffer that goes to the shared classes cache is a sequence of
    bytes; addresses are offsets from its start.  A load or a store
    that leaves the buffer has no defined result ([None]).  Integers are
    laid out least significant byte first, [UDATA] in eight bytes,
    [J9SRP] ([I_32]) in four, the length of a [J9UTF8] ([U_16]) in two. *)

Global Instance byte_eq_decision : EqDecision Byte.byte :=
  Strings.Byte.byte_eq_dec.

Definition byteOfZ (value : Z) : Byte.byte :=
  default Byte.x00 (Byte.of_N (Z.to_N (value mod 256))).

Definition byteToZ (b : Byte.byte) : Z := Z.of_N (Byte.to_N b).

(** The low [width] bytes of [value]: the cast to an integer type of
    that width. *)
Fixpoint encodeLE (width : nat) (value : Z) : list Byte.byte :=
  match width with
  | O => []
  | S width' => byteOfZ value :: encodeLE width' (value / 256)
  end.

Fixpoint decodeLE (bytes : list Byte.byte) : Z :=
  match bytes with
  | [] => 0
  | b :: bytes' => byteToZ b + 256 * decodeLE bytes'
  end.

Definition loadBytes (buffer : list Byte.byte) (address : Z) (size : nat)
  : option (list Byte.byte) :=
  if (0 <=? address) && (address + Z.of_nat size <=? Z.of_nat (length buffer))
  then Some (take size (drop (Z.to_nat address) buffer))
  else None.

Definition storeBytes (buffer : list Byte.byte) (address : Z)
  (data : list Byte.byte) : option (list Byte.byte) :=
  if (0 <=? address)
     && (address + Z.of_nat (length data) <=? Z.of_nat (length buffer))
  then Some (take (Z.to_nat address) buffer ++ data
               ++ drop (Z.to_nat address + length data) buffer)
  else None.

Definition UDATA (value : Z) : Z := value mod 2 ^ 64.
Definition U_16 (value : Z) : Z := value mod 2 ^ 16.

(** [sizeof(J9SharedClassRelationshipHeader)]: one [UDATA]. *)
Definition headerSize : Z := 8.
(** [sizeof(J9SRP)]. *)
Definition offsetToNextSRP : Z := 4.
(** [sizeof(J9SharedClassRelationshipSnippet)]: two [J9SRP]. *)
Definition snippetSize : Z := 8.

(** [SRP_PTR_SET(srpAddress, value)] for a [value] that is not [NULL]:
    the distance from the field to the target, as an [I_32]. *)
Definition SRP_PTR_SET (buffer : list Byte.byte) (srpAddress value : Z)
  : option (list Byte.byte) :=
  storeBytes buffer srpAddress (encodeLE 4 (value - srpAddress)).

Definition I_32 (unsigned : Z) : Z :=
  if unsigned <? 2 ^ 31 then unsigned else unsigned - 2 ^ 32.

(** [SRP_GET(field, type)]: [NULL] for 0, else the address of the field
    plus its value.  The outer [option] is the load itself. *)
Definition SRP_GET (buffer : list Byte.byte) (srpAddress : Z)
  : option (option Z) :=
  bytes ← loadBytes buffer srpAddress 4;
  let srp := I_32 (decodeLE bytes) in
  Some (if srp =? 0 then None else Some (srpAddress + srp)).

(** [J9UTF8_LENGTH] and [J9UTF8_DATA] of the [J9UTF8] at an address. *)
Definition J9UTF8_LENGTH (buffer : list Byte.byte) (utf8 : Z) : option Z :=
  decodeLE <$> loadBytes buffer utf8 2.

Definition J9UTF8_DATA (buffer : list Byte.byte) (utf8 : Z)
  : option (list Byte.byte) :=
  utf8Length ← J9UTF8_LENGTH buffer utf8;
  loadBytes buffer (utf8 + 2) (Z.to_nat utf8Length).

Definition readClassName (buffer : list Byte.byte) (utf8 : Z) : option string :=
  String.string_of_list_byte <$> J9UTF8_DATA buffer utf8.

(** One snippet of a cached buffer: both [SRP_GET] with their
    assertions, then name and length of both [J9UTF8].  Of the two
    [J9SRP] of a [J9SharedClassRelationshipSnippet] the first is
    [childClassName], the order in which [storeToDataBuffer] sets
    them. *)
Definition readCachedSnippet (buffer : list Byte.byte) (i : Z)
  : option (string * string) :=
  childSRP ← SRP_GET buffer (headerSize + snippetSize * i);
  childClassUTF8 ← childSRP;
  parentSRP ← SRP_GET buffer (headerSize + snippetSize * i + offsetToNextSRP);
  parentClassUTF8 ← parentSRP;
  childClassName ← readClassName buffer childClassUTF8;
  parentClassName ← readClassName buffer parentClassUTF8;
  Some (childClassName, parentClassName).

(** The snippet count in the header of a cached buffer. *)
Definition readSnippetCount (buffer : list Byte.byte) : option Z :=
  decodeLE <$> loadBytes buffer 0 8.

(** All the pairs of a cached buffer, in the order of the snippets. *)
Fixpoint readCachedSnippets (buffer : list Byte.byte) (i : Z) (remaining : nat)
  : option (list (string * string)) :=
  match remaining with
  | O => Some []
  | S remaining' =>
      names ← readCachedSnippet buffer i;
      rest ← readCachedSnippets buffer (i + 1) remaining';
      Some (names :: rest)
  end.

Definition deserialize (buffer : list Byte.byte)
  : option (list (string * string)) :=
  snippetCount ← readSnippetCount buffer;
  readCachedSnippets buffer 0 (Z.to_nat snippetCount).

(** ** Writing the buffer *)

(** [setCurrentAndNextUTF8s]: the length as [U_16], the bytes of the
    name and a 0 byte at [*nextUTF8Address]; the result is the buffer,
    [*utf8Address] and the size of what was written. *)
Definition setCurrentAndNextUTF8s (verifyData : J9BytecodeVerificationData)
  (buffer : list Byte.byte) (nextUTF8Address : Z) (classNameIndex : N)
  : option (list Byte.byte * Z * Z) :=
  let className := classNameList verifyData classNameIndex in
  let classNameLength := Z.of_nat (String.length className) in
  buffer' ← storeBytes buffer nextUTF8Address
              (encodeLE 2 classNameLength
                 ++ String.list_byte_of_string className ++ [Byte.x00]);
  Some (buffer', nextUTF8Address, classNameLength + 1 + 2).

(** What [storeToDataBuffer] threads through its loop: the heap, the
    buffer and [nextUTF8Address]. *)
Record StoreState := mkStoreState {
  storeHeap : Heap;
  storeBuffer : list Byte.byte;
  nextUTF8Address : Z
}.

(** [getUTF8Address]. *)
Definition getUTF8Address (verifyData : J9BytecodeVerificationData)
  (st : StoreState) (classNameIndex : N) : option (StoreState * option Z) :=
  '(buffer', utf8Address, utf8AddressSize) ←
    setCurrentAndNextUTF8s verifyData (storeBuffer st) (nextUTF8Address st)
      classNameIndex;
  Some (mkStoreState (storeHeap st) buffer' (utf8Address + utf8AddressSize),
        Some utf8Address).

(** The scan of [getUTF8AddressFromArray]: [classNamesArray] holds
    [NULL] or a [J9ClassRelationshipClassNameIndex], a class name index
    with the address of its [J9UTF8].  The result is the index where
    the scan stopped and the address found, if any. *)
Fixpoint scanClassNamesArray (classNamesArray : list (option (N * Z)))
  (remaining i : nat) (classNameIndex : N) : option (nat * option Z) :=
  match remaining with
  | O => Some (i, None)
  | S remaining' =>
      match classNamesArray !! i with
      | None => None
      | Some None => Some (i, None)
      | Some (Some (index, address)) =>
          if (classNameIndex =? index)%N then Some (i, Some address)
          else scanClassNamesArray classNamesArray remaining' (S i)
              classNameIndex
      end
  end.

(** [getUTF8AddressFromArray]. *)
Definition getUTF8AddressFromArray (verifyData : J9BytecodeVerificationData)
  (st : StoreState) (classNamesArray : list (option (N * Z)))
  (totalNumberOfIndices : nat) (classNameIndex : N)
  : option (StoreState * list (option (N * Z)) * option Z) :=
  '(i, found) ← scanClassNamesArray classNamesArray totalNumberOfIndices O
                  classNameIndex;
  match found with
  | Some utf8Address => Some (st, classNamesArray, Some utf8Address)
  | None =>
      let '(okEntry, h1) := allocate (storeHeap st) in
      if okEntry then
        '(buffer', utf8Address, utf8AddressSize) ←
          setCurrentAndNextUTF8s verifyData (storeBuffer st) (nextUTF8Address
              st)
            classNameIndex;
        if (i <? length classNamesArray)%nat
        then Some (mkStoreState h1 buffer' (utf8Address + utf8AddressSize),
                   <[i := Some (classNameIndex, utf8Address)]> classNamesArray,
                   Some utf8Address)
        else None
      else Some (mkStoreState h1 (storeBuffer st) (nextUTF8Address st),
                 classNamesArray, None)
  end.

(** [relationshipClassNameHashEqualFn] on two [J9UTF8] of the buffer. *)
Definition relationshipClassNameHashEqualFn (buffer : list Byte.byte)
  (left_classNameUTF8 right_classNameUTF8 : Z) : bool :=
  match J9UTF8_DATA buffer left_classNameUTF8,
        J9UTF8_DATA buffer right_classNameUTF8 with
  | Some leftData, Some rightData => bool_decide (leftData = rightData)
  | _, _ => false
  end.

(** [getUTF8AddressFromHashTable]: an entry of [classNamesHashTable] is
    a [J9ClassRelationshipClassName], the [utf8] that is its key and the
    [address], both in the buffer.  A failed [hashTableAdd] trips the
    assertion. *)
Definition getUTF8AddressFromHashTable (verifyData : J9BytecodeVerificationData)
  (st : StoreState) (classNamesHashTable : list (Z * Z)) (classNameIndex : N)
  : option (StoreState * list (Z * Z) * option Z) :=
  '(buffer', utf8Address, utf8AddressSize) ←
    setCurrentAndNextUTF8s verifyData (storeBuffer st) (nextUTF8Address st)
      classNameIndex;
  match List.find (fun classNameEntry =>
                     relationshipClassNameHashEqualFn buffer'
                       (fst classNameEntry) utf8Address) classNamesHashTable
                           with
  | None =>
      let '(okAdd, h1) := allocate (storeHeap st) in
      if okAdd
      then Some (mkStoreState h1 buffer' (utf8Address + utf8AddressSize),
                 classNamesHashTable ++ [(utf8Address, utf8Address)],
                 Some utf8Address)
      else None
  | Some classNameEntry =>
      buffer'' ← storeBytes buffer' utf8Address
                   (replicate (Z.to_nat utf8AddressSize) Byte.x00);
      Some (mkStoreState (storeHeap st) buffer'' (nextUTF8Address st),
            classNamesHashTable, Some (snd classNameEntry))
  end.

(** [snippetConfig] with the name mapping that goes with it. *)
Inductive ClassNameMapping :=
| J9RELATIONSHIP_SNIPPET_SINGLE
| J9RELATIONSHIP_SNIPPET_USE_ARRAY (classNamesArray : list (option (N * Z)))
| J9RELATIONSHIP_SNIPPET_USE_HASHTABLE (classNamesHashTable : list (Z * Z)).

Definition lookupUTF8Address (verifyData : J9BytecodeVerificationData)
  (st : StoreState) (mapping : ClassNameMapping) (totalNumberOfIndices : nat)
  (classNameIndex : N) : option (StoreState * ClassNameMapping * option Z) :=
  match mapping with
  | J9RELATIONSHIP_SNIPPET_USE_HASHTABLE classNamesHashTable =>
      '(st', table', address) ←
        getUTF8AddressFromHashTable verifyData st classNamesHashTable
            classNameIndex;
      Some (st', J9RELATIONSHIP_SNIPPET_USE_HASHTABLE table', address)
  | J9RELATIONSHIP_SNIPPET_USE_ARRAY classNamesArray =>
      '(st', array', address) ←
        getUTF8AddressFromArray verifyData st classNamesArray
            totalNumberOfIndices
          classNameIndex;
      Some (st', J9RELATIONSHIP_SNIPPET_USE_ARRAY array', address)
  | J9RELATIONSHIP_SNIPPET_SINGLE =>
      '(st', address) ← getUTF8Address verifyData st classNameIndex;
      Some (st', J9RELATIONSHIP_SNIPPET_SINGLE, address)
  end.

(** The loop of [storeToDataBuffer] over the entries of the snippet
    table. *)
Fixpoint storeSnippetEntries (verifyData : J9BytecodeVerificationData)
  (totalNumberOfIndices : nat) (snippetEntries : list
      J9ClassRelationshipSnippet)
  (st : StoreState) (mapping : ClassNameMapping) (srpAddress : Z)
  : option (StoreState * BCVCode) :=
  match snippetEntries with
  | [] => Some (st, BCV_SUCCESS)
  | snippetEntry :: next =>
      '(st1, mapping1, childClassUTF8Address) ←
        lookupUTF8Address verifyData st mapping totalNumberOfIndices
          (childClassNameIndex snippetEntry);
      match childClassUTF8Address with
      | None => Some (st1, BCV_ERR_INSUFFICIENT_MEMORY)
      | Some childAddress =>
          '(st2, mapping2, parentClassUTF8Address) ←
            lookupUTF8Address verifyData st1 mapping1 totalNumberOfIndices
              (parentClassNameIndex snippetEntry);
          match parentClassUTF8Address with
          | None => Some (st2, BCV_ERR_INSUFFICIENT_MEMORY)
          | Some parentAddress =>
              buffer3 ← SRP_PTR_SET (storeBuffer st2) srpAddress childAddress;
              buffer4 ← SRP_PTR_SET buffer3 (srpAddress + offsetToNextSRP)
                          parentAddress;
              storeSnippetEntries verifyData totalNumberOfIndices next
                (mkStoreState (storeHeap st2) buffer4 (nextUTF8Address st2))
                mapping2 (srpAddress + offsetToNextSRP + offsetToNextSRP)
          end
      end
  end.

(** [getTotalUTF8Size]: both lengths are [U_16] locals that hold the
    length of the name plus 1. *)
Fixpoint getTotalUTF8Size (verifyData : J9BytecodeVerificationData)
  (snippetEntries : list J9ClassRelationshipSnippet) (size : Z) : Z :=
  match snippetEntries with
  | [] => size
  | snippetEntry :: next =>
      let childClassNameLength :=
        U_16 (U_16 (Z.of_nat (String.length
                (classNameList verifyData (childClassNameIndex snippetEntry))))
                    + 1) in
      let parentClassNameLength :=
        U_16 (U_16 (Z.of_nat (String.length
                (classNameList verifyData (parentClassNameIndex snippetEntry))))
                    + 1) in
      getTotalUTF8Size verifyData next
        (UDATA (size + (childClassNameLength + 2 + parentClassNameLength + 2)))
  end.

(** Modelled from the spec: the shared classes cache, a key to blob
    store whose operations may fail; [cacheAvailable] is the outcome the
    cache gives to the coming request. *)
Definition storeSharedData (cacheAvailable : bool)
  (cache : gmap string (list Byte.byte)) (key : string) (data : list Byte.byte)
  : option (gmap string (list Byte.byte)) :=
  if cacheAvailable then Some (<[key := data]> cache) else None.

(** Modelled from the spec: [findSharedData] of that cache, given the
    key and the address that the data descriptor of the caller holds.
    It gives the number of elements found for the key, or -1 in the
    case of error, and the address that the descriptor holds
    afterwards: the data when some is found; this cache is taken to
    leave the descriptor as it was otherwise. *)
Definition findSharedData (cacheAvailable : bool)
  (cache : gmap string (list Byte.byte)) (key : string)
  (firstItem : option (list Byte.byte)) : Z * option (list Byte.byte) :=
  if cacheAvailable then
    match cache !! key with
    | Some data => (1, Some data)
    | None => (0, firstItem)
    end
  else (-1, firstItem).

(** [generateClassRelationshipSnippetsKey]: a copy of the class name,
    [NULL] when the allocation fails. *)
Definition generateClassRelationshipSnippetsKey (h : Heap) (className : string)
  : Heap * option string :=
  let '(okKey, h1) := allocate h in
  (h1, if okKey then Some className else None).

(** [j9bcv_fetchClassRelationshipSnippetsFromSharedCache], given
    [sharedClassConfig->findSharedData] and the address that the data
    descriptor of the caller holds.  The result is [foundSnippets],
    [*fetchResult] and the address that the descriptor of the caller
    holds afterwards: the function hands the descriptor to
    [findSharedData] and does not write to it itself
    ([snippetsDataDescriptor = NULL] sets its own parameter). *)
Definition j9bcv_fetchClassRelationshipSnippetsFromSharedCache (h : Heap)
  (verifyData : J9BytecodeVerificationData)
  (sharedClassConfig :
     string -> option (list Byte.byte) -> Z * option (list Byte.byte))
  (snippetsDataDescriptor : option (list Byte.byte))
  : Heap * (bool * BCVCode * option (list Byte.byte)) :=
  let '(h1, key) :=
    generateClassRelationshipSnippetsKey h (romClassName verifyData) in
  match key with
  | Some key =>
      let '(findSharedDataResult, address) :=
        sharedClassConfig key snippetsDataDescriptor in
      if 0 <? findSharedDataResult
      then (h1, (true, BCV_SUCCESS, address))
      else if findSharedDataResult =? -1
      then (h1, (false, BCV_ERR_INTERNAL_ERROR, address))
      else (h1, (false, BCV_SUCCESS, address))
  | None => (h1, (false, BCV_ERR_INTERNAL_ERROR, snippetsDataDescriptor))
  end.

Section SnippetCodec.

(** The count up to which the array is used; its value is declared in
    a header of the VM. *)
Variable J9RELATIONSHIP_SNIPPET_COUNT_THRESHOLD : nat.

(** [storeToDataBuffer].  The outer [option] is [None] when a store
    leaves the buffer, an assertion trips, or [hashTableNew] for the
    class names fails: [snippetConfig] is set to the hash table before
    the table is allocated, so the function leaves through
    [hashClassRelationshipClassNameTableFree], which starts a walk of
    the [NULL] table with [hashTableStartDo]. *)
Definition storeToDataBuffer (verifyData : J9BytecodeVerificationData)
  (h : Heap) (dataBuffer : list Byte.byte)
  (snippetEntries : list J9ClassRelationshipSnippet)
  (dataBufferSnippetStart dataBufferUTF8Start : Z) (snippetCount : nat)
  : option (Heap * list Byte.byte * BCVCode) :=
  let totalNumberOfIndices := (snippetCount * 2)%nat in
  let classNamesArray : list (option (N * Z)) :=
    replicate (J9RELATIONSHIP_SNIPPET_COUNT_THRESHOLD * 2) None in
  let '(h1, mapping) :=
    if negb (snippetCount =? 1)%nat then
      if (J9RELATIONSHIP_SNIPPET_COUNT_THRESHOLD <? snippetCount)%nat then
        let '(okTable, h1) := allocate h in
        (h1, if okTable then Some (J9RELATIONSHIP_SNIPPET_USE_HASHTABLE [])
             else None)
      else (h, Some (J9RELATIONSHIP_SNIPPET_USE_ARRAY classNamesArray))
    else (h, Some J9RELATIONSHIP_SNIPPET_SINGLE) in
  match mapping with
  | None => None
  | Some mapping =>
      '(st, storeResult) ←
        storeSnippetEntries verifyData totalNumberOfIndices snippetEntries
          (mkStoreState h1 dataBuffer dataBufferUTF8Start) mapping
          dataBufferSnippetStart;
      Some (storeHeap st, storeBuffer st, storeResult)
  end.

(** The buffer that [j9bcv_storeClassRelationshipSnippetsToSharedCache]
    allocates, clears and fills for a table with snippets. *)
Definition fillDataBuffer (verifyData : J9BytecodeVerificationData)
  (h : Heap) (snippetEntries : list J9ClassRelationshipSnippet)
  : option (Heap * list Byte.byte * BCVCode) :=
  let snippetCount := length snippetEntries in
  let snippetsSizeTotal := UDATA (Z.of_nat snippetCount * snippetSize) in
  let utf8SizeTotal := getTotalUTF8Size verifyData snippetEntries 0 in
  let dataBufferSize := UDATA (headerSize + snippetsSizeTotal + utf8SizeTotal)
      in
  let '(okBuffer, h1) := allocate h in
  if okBuffer then
    let dataBuffer := replicate (Z.to_nat dataBufferSize) Byte.x00 in
    dataBuffer1 ← storeBytes dataBuffer 0 (encodeLE 8 (Z.of_nat snippetCount));
    storeToDataBuffer verifyData h1 dataBuffer1 snippetEntries headerSize
      (headerSize + snippetsSizeTotal) snippetCount
  else Some (h1, [], BCV_ERR_INSUFFICIENT_MEMORY).

(** [j9bcv_storeClassRelationshipSnippetsToSharedCache]: the result
    is the cache afterwards and [storeResult]. *)
Definition j9bcv_storeClassRelationshipSnippetsToSharedCache (h : Heap)
  (verifyData : J9BytecodeVerificationData) (cacheAvailable : bool)
  (cache : gmap string (list Byte.byte))
  : option (Heap * gmap string (list Byte.byte) * BCVCode) :=
  match classRelationshipSnippetsHashTable verifyData with
  | None | Some [] => Some (h, cache, BCV_SUCCESS)
  | Some snippetEntries =>
      let '(h1, key) :=
        generateClassRelationshipSnippetsKey h (romClassName verifyData) in
      match key with
      | None => Some (h1, cache, BCV_ERR_INTERNAL_ERROR)
      | Some key =>
          '(h2, dataBuffer, storeResult) ←
            fillDataBuffer verifyData h1 snippetEntries;
          match storeResult with
          | BCV_SUCCESS =>
              match storeSharedData cacheAvailable cache key dataBuffer with
              | Some cache' => Some (h2, cache', BCV_SUCCESS)
              | None => Some (h2, cache, BCV_ERR_INTERNAL_ERROR)
              end
          | _ => Some (h2, cache, storeResult)
          end
      end
  end.

End SnippetCodec.

(** ** The classes of the VM

    What the verifier asks of the VM: whether a class is an interface,
    whether a class is the same as or a superclass of another, and the
    class java/lang/Throwable ([J9VMJAVALANGTHROWABLE_OR_NULL], asserted
    not to be [NULL]).  The loaded classes of a class loader change
    from call to call; each operation takes [hashClassTableAt] of the
    class loader as it is at the time of the call.

    The port library of the VM decides what is left of a block that is
    freed: [j9mem_free_memory] gives what the bytes of a freed class
    name read as afterwards, the name itself for a port library that
    leaves the bytes of a freed block in place. *)

Record J9JavaVM := mkJavaVM {
  J9Class : Type;
  J9ROMCLASS_IS_INTERFACE : J9Class -> bool;
  isSameOrSuperClassOf : J9Class -> J9Class -> bool;
  J9VMJAVALANGTHROWABLE_OR_NULL : J9Class;
  j9mem_free_memory : string -> string
}.

Arguments J9ROMCLASS_IS_INTERFACE {_} _.
Arguments isSameOrSuperClassOf {_} _ _.

(** What the trace points of the failing paths carry. *)
Inductive TraceEvent :=
| Trc_RTV_validateClassRelationships_InvalidRelationship
    (parentClassName : string)
| Trc_RTV_processClassRelationshipSnippets_ErrorWhileProcessing
    (childClassName parentClassName : string).

Section LoadedClasses.

Context {vm : J9JavaVM}.

(** The loop of [j9bcv_validateClassRelationships] over the parent
    nodes of the child.  The nodes themselves are not touched by the
    loop, only flags of entries and new entries, so the loop runs over
    the list as it was at the start. *)
Fixpoint validateParentNodes (hashClassTableAt : string -> option (J9Class vm))
  (h : Heap) (table : gmap string J9ClassRelationship)
  (parentClassNodes : list string) (childClass : J9Class vm)
  : Heap * gmap string J9ClassRelationship * option (J9Class vm) :=
  match parentClassNodes with
  | [] => (h, table, None)
  | node :: next =>
      match hashClassTableAt node with
      | None =>
          match table !! node with
          | None =>
              let '(okName, h1) := allocate h in
              if okName then
                let '(okAdd, h2) := allocate h1 in
                if okAdd
                then validateParentNodes hashClassTableAt h2
                       (<[node := mkRelationship []
                           J9RELATIONSHIP_MUST_BE_INTERFACE]> table)
                       next childClass
                else (h2, table, Some childClass)
              else (h1, table, Some childClass)
          | Some parentClassEntry =>
              validateParentNodes hashClassTableAt h
                (<[node := mkRelationship (root parentClassEntry)
                             (Z.lor (flags parentClassEntry)
                                J9RELATIONSHIP_MUST_BE_INTERFACE)]> table)
                next childClass
          end
      | Some parentClass =>
          if J9ROMCLASS_IS_INTERFACE parentClass
          then validateParentNodes hashClassTableAt h table next childClass
          else if isSameOrSuperClassOf parentClass childClass
          then validateParentNodes hashClassTableAt h table next childClass
          else (h, table, Some parentClass)
      end
  end.

(** [j9bcv_validateClassRelationships]: the result is [failedClass].
    After a walk that got through, the nodes of the entry are freed,
    then its name, and then [hashTableRemove] is given the entry, whose
    name is the freed block by then. *)
Definition j9bcv_validateClassRelationships
  (hashClassTableAt : string -> option (J9Class vm))
  (h : Heap) (cl : J9ClassLoader) (childClassName : string)
  (childClass : J9Class vm) : Heap * J9ClassLoader * option (J9Class vm) :=
  match classRelationshipsHashTable cl with
  | None => (h, cl, None)
  | Some table =>
      match table !! childClassName with
      | None => (h, cl, None)
      | Some classRelationshipEntry =>
          if J9_ARE_ANY_BITS_SET (flags classRelationshipEntry)
               J9RELATIONSHIP_MUST_BE_INTERFACE
             && negb (J9ROMCLASS_IS_INTERFACE childClass)
          then (h, cl, Some childClass)
          else if J9_ARE_ANY_BITS_SET (flags classRelationshipEntry)
                    J9RELATIONSHIP_PARENT_CLASS_IS_THROWABLE
                  && negb (isSameOrSuperClassOf (J9VMJAVALANGTHROWABLE_OR_NULL
                      vm) childClass)
          then (h, cl, Some (J9VMJAVALANGTHROWABLE_OR_NULL vm))
          else
            match validateParentNodes hashClassTableAt h table
                    (root classRelationshipEntry) childClass with
            | (h1, table1, None) =>
                let table2 :=
                  alter freeClassRelationshipNodes childClassName table1 in
                let freedClassName := j9mem_free_memory vm childClassName in
                (h1, mkLoader
                       (Some (hashTableRemove table2 childClassName
                                freedClassName))
                       (classRelationshipsPool cl), None)
            | (h1, table1, Some failedClass) =>
                (h1, mkLoader (Some table1) (classRelationshipsPool cl),
                 Some failedClass)
            end
      end
  end.

(** [checkSnippetRelationship]: the result is the heap, the class
    loader, [*reasonCode] and what was traced. *)
Definition checkSnippetRelationship
  (hashClassTableAt : string -> option (J9Class vm))
  (h : Heap) (cl : J9ClassLoader) (childClassName parentClassName : string)
  : Heap * J9ClassLoader * BCVCode * list TraceEvent :=
  match hashClassTableAt parentClassName with
  | None =>
      let '(h1, cl1, recordResult) :=
        j9bcv_recordClassRelationship h cl childClassName parentClassName in
      (h1, cl1, recordReasonCode recordResult, [])
  | Some parentClass =>
      if J9ROMCLASS_IS_INTERFACE parentClass then (h, cl, BCV_SUCCESS, [])
      else
        match hashClassTableAt childClassName with
        | None =>
            let '(h1, cl1, recordResult) :=
              j9bcv_recordClassRelationship h cl childClassName parentClassName
                  in
            (h1, cl1, recordReasonCode recordResult, [])
        | Some childClass =>
            if isSameOrSuperClassOf parentClass childClass
            then (h, cl, BCV_SUCCESS, [])
            else (h, cl, BCV_ERR_INTERNAL_ERROR,
                  [Trc_RTV_validateClassRelationships_InvalidRelationship
                     parentClassName])
        end
  end.

(** The loop shared by both ways of processing, over the names of the
    snippets that are still to come. *)
Fixpoint processSnippetNames (hashClassTableAt : string -> option (J9Class vm))
  (h : Heap) (cl : J9ClassLoader) (snippets : list (string * string))
  : Heap * J9ClassLoader * BCVCode * list TraceEvent :=
  match snippets with
  | [] => (h, cl, BCV_SUCCESS, [])
  | (childClassName, parentClassName) :: next =>
      let '(h1, cl1, reasonCode, trace) :=
        checkSnippetRelationship hashClassTableAt h cl childClassName
          parentClassName in
      match reasonCode with
      | BCV_SUCCESS =>
          let '(h2, cl2, reasonCode2, trace2) :=
            processSnippetNames hashClassTableAt h1 cl1 next in
          (h2, cl2, reasonCode2, trace ++ trace2)
      | _ =>
          (h1, cl1, reasonCode,
           trace ++
               [Trc_RTV_processClassRelationshipSnippets_ErrorWhileProcessing
                       childClassName parentClassName])
      end
  end.

(** [processClassRelationshipSnippetsNoCachedData]. *)
Definition processClassRelationshipSnippetsNoCachedData
  (hashClassTableAt : string -> option (J9Class vm))
  (h : Heap) (cl : J9ClassLoader) (verifyData : J9BytecodeVerificationData)
  (snippetEntries : list J9ClassRelationshipSnippet)
  : Heap * J9ClassLoader * BCVCode * list TraceEvent :=
  processSnippetNames hashClassTableAt h cl
    (snippetNames verifyData <$> snippetEntries).

(** The loop of [processClassRelationshipSnippetsUsingCachedData] from
    snippet [i] on; a snippet is read from the buffer only when the
    loop gets to it. *)
Fixpoint processCachedSnippets (hashClassTableAt : string -> option (J9Class
    vm))
  (h : Heap) (cl : J9ClassLoader) (buffer : list Byte.byte) (i : Z)
  (remaining : nat)
  : option (Heap * J9ClassLoader * BCVCode * list TraceEvent) :=
  match remaining with
  | O => Some (h, cl, BCV_SUCCESS, [])
  | S remaining' =>
      '(childClassName, parentClassName) ← readCachedSnippet buffer i;
      let '(h1, cl1, reasonCode, trace) :=
        checkSnippetRelationship hashClassTableAt h cl childClassName
          parentClassName in
      match reasonCode with
      | BCV_SUCCESS =>
          '(h2, cl2, reasonCode2, trace2) ←
            processCachedSnippets hashClassTableAt h1 cl1 buffer (i + 1)
              remaining';
          Some (h2, cl2, reasonCode2, trace ++ trace2)
      | _ =>
          Some (h1, cl1, reasonCode,
                trace ++
                    [Trc_RTV_processClassRelationshipSnippets_ErrorWhileProcessing
                            childClassName parentClassName])
      end
  end.

(** [processClassRelationshipSnippetsUsingCachedData]. *)
Definition processClassRelationshipSnippetsUsingCachedData
  (hashClassTableAt : string -> option (J9Class vm))
  (h : Heap) (cl : J9ClassLoader) (snippetsDataDescriptorAddress : list
      Byte.byte)
  : option (Heap * J9ClassLoader * BCVCode * list TraceEvent) :=
  snippetCount ← readSnippetCount snippetsDataDescriptorAddress;
  processCachedSnippets hashClassTableAt h cl snippetsDataDescriptorAddress 0
    (Z.to_nat snippetCount).

(** [j9bcv_processClassRelationshipSnippets]: the address of the data
    descriptor is [NULL] or a cached buffer; the snippet table is
    freed after it has been processed. *)
Definition j9bcv_processClassRelationshipSnippets
  (hashClassTableAt : string -> option (J9Class vm))
  (h : Heap) (cl : J9ClassLoader) (verifyData : J9BytecodeVerificationData)
  (snippetsDataDescriptorAddress : option (list Byte.byte))
  : option (Heap * J9ClassLoader * J9BytecodeVerificationData * BCVCode
            * list TraceEvent) :=
  match snippetsDataDescriptorAddress with
  | Some address =>
      '(h1, cl1, processResult, trace) ←
        processClassRelationshipSnippetsUsingCachedData hashClassTableAt h cl
          address;
      Some (h1, cl1, verifyData, processResult, trace)
  | None =>
      match classRelationshipSnippetsHashTable verifyData with
      | None => Some (h, cl, verifyData, BCV_SUCCESS, [])
      | Some snippetEntries =>
          let '(h1, cl1, processResult, trace) :=
            processClassRelationshipSnippetsNoCachedData hashClassTableAt h cl
              verifyData snippetEntries in
          Some (h1, cl1, setSnippetTable verifyData None, processResult, trace)
      end
  end.

End LoadedClasses.

(** * Notions used in the properties *)

(** What the walk and the splice after it make of a list of nodes. *)
Fixpoint insertByLength (nodes : list string) (parentClassName : string)
  : list string :=
  match nodes with
  | [] => [parentClassName]
  | node :: next =>
      if (String.length parentClassName <? String.length node)%nat
      then parentClassName :: node :: next
      else if J9UTF8_DATA_EQUALS node parentClassName then node :: next
      else node :: insertByLength next parentClassName
  end.

Definition lengthLe (a b : string) : Prop :=
  (String.length a <= String.length b)%nat.

Definition orderedByLength (nodes : list string) : Prop :=
  StronglySorted lengthLe nodes.


(** An entry as [hashTableAdd] leaves it in [j9bcv_recordClassRelationship]. *)
Definition emptyRelationship : J9ClassRelationship := mkRelationship [] 0.

(** The entry of the child after a record that returned [TRUE]. *)
Definition recordedEntry (entry : J9ClassRelationship) (parentClassName :
    string)
  : J9ClassRelationship :=
  if J9UTF8_DATA_EQUALS J9RELATIONSHIP_JAVA_LANG_THROWABLE_STRING
      parentClassName
  then mkRelationship (root entry)
         (Z.lor (flags entry) J9RELATIONSHIP_PARENT_CLASS_IS_THROWABLE)
  else mkRelationship (insertByLength (root entry) parentClassName) (flags
      entry).

(** The entry of a parent that was not loaded when a child of it was
    validated. *)
Definition markedInterface (entry : J9ClassRelationship) : J9ClassRelationship
    :=
  mkRelationship (root entry)
    (Z.lor (flags entry) J9RELATIONSHIP_MUST_BE_INTERFACE).

Definition mustBeInterface (entry : J9ClassRelationship) : bool :=
  J9_ARE_ANY_BITS_SET (flags entry) J9RELATIONSHIP_MUST_BE_INTERFACE.

Definition parentIsThrowable (entry : J9ClassRelationship) : bool :=
  J9_ARE_ANY_BITS_SET (flags entry) J9RELATIONSHIP_PARENT_CLASS_IS_THROWABLE.

(** An obligation is pending on an entry: a parent node or one of the
    two flags. *)
Definition pendingObligation (entry : J9ClassRelationship) : Prop :=
  root entry <> [] \/ mustBeInterface entry = true
  \/ parentIsThrowable entry = true.

(** The shape of a list of parent nodes. *)
Definition parentNodesWellFormed (entry : J9ClassRelationship) : Prop :=
  orderedByLength (root entry) /\ NoDup (root entry)
  /\ J9RELATIONSHIP_JAVA_LANG_THROWABLE_STRING ∉ root entry.

Definition forallEntries (P : J9ClassRelationship -> Prop) (cl : J9ClassLoader)
  : Prop :=
  forall className entry, findClassRelationship cl className = Some entry -> P
      entry.

Section Reachability.

Variable vm : J9JavaVM.

(** The class loaders that the operations on the relationship table
    produce from a new class loader, whatever the memory, the loaded
    classes and the arguments are. *)
Inductive reachable : J9ClassLoader -> Prop :=
| reachable_new : reachable newClassLoader
| reachable_record h cl childClassName parentClassName :
    reachable cl ->
    reachable (j9bcv_recordClassRelationship h cl childClassName
                 parentClassName).1.2
| reachable_validate hashClassTableAt h cl childClassName childClass :
    reachable cl ->
    reachable (j9bcv_validateClassRelationships (vm := vm) hashClassTableAt h cl
                 childClassName childClass).1.2
| reachable_free cl :
    reachable cl -> reachable (j9bcv_freeClassRelationshipTableAndPool cl).


(** The walk gets to a node: the checks of both flags pass and no node
    before it makes the validation fail. *)
Definition walkReaches (hashClassTableAt : string -> option (J9Class vm)) (h :
    Heap)
  (table : gmap string J9ClassRelationship) (entry : J9ClassRelationship)
  (childClass : J9Class vm) (before : list string) (node : string)
  (after : list string) (h1 : Heap) (table1 : gmap string J9ClassRelationship)
  : Prop :=
  mustBeInterface entry && negb (J9ROMCLASS_IS_INTERFACE childClass) = false
  /\ parentIsThrowable entry
     && negb (isSameOrSuperClassOf (J9VMJAVALANGTHROWABLE_OR_NULL vm)
         childClass) = false
  /\ root entry = before ++ node :: after
  /\ validateParentNodes
       hashClassTableAt h table before childClass
     = (h1, table1, None).

End Reachability.

Arguments walkReaches {vm} _ _ _ _ _ _ _ _ _ _.

(** ** A small world of classes for the worked examples

    A class carries its name, whether it is an interface, and the names
    of its proper superclasses. *)

Record SampleClass := mkSampleClass {
  sampleName : string;
  sampleIsInterface : bool;
  sampleSuperclasses : list string
}.

Definition sampleIsSameOrSuperClassOf (parentClass childClass : SampleClass)
  : bool :=
  bool_decide (sampleName parentClass
               ∈ sampleName childClass :: sampleSuperclasses childClass).

Definition sampleObject : SampleClass :=
  mkSampleClass "java/lang/Object" false [].
Definition sampleThrowable : SampleClass :=
  mkSampleClass "java/lang/Throwable" false ["java/lang/Object"].
Definition sampleBase : SampleClass :=
  mkSampleClass "Base" false ["java/lang/Object"].
Definition sampleApp : SampleClass :=
  mkSampleClass "App" false ["java/lang/Object"].
Definition sampleDerived : SampleClass :=
  mkSampleClass "Derived" false ["Base"; "java/lang/Object"].
Definition sampleThrowableSubclass : SampleClass :=
  mkSampleClass "Base" false ["java/lang/Throwable"; "java/lang/Object"].
Definition sampleSerializable : SampleClass :=
  mkSampleClass "java/io/Serializable" true ["java/lang/Object"].

(** The loaded classes of a class loader, from a list of classes. *)
Definition sampleLoaded (classes : list SampleClass) (className : string)
  : option SampleClass :=
  List.find (fun class => String.eqb (sampleName class) className) classes.

(** The VM of the worked examples; its port library leaves the bytes of
    a freed block in place. *)
Definition sampleVM : J9JavaVM :=
  mkJavaVM SampleClass sampleIsInterface sampleIsSameOrSuperClassOf
    sampleThrowable (fun className => className).



Definition sampleRecord := j9bcv_recordClassRelationship.
Definition sampleValidate := j9bcv_validateClassRelationships (vm := sampleVM).

(** Class loaders of the worked examples. *)
Definition sampleLoaderAppBase : J9ClassLoader :=
  (sampleRecord [] newClassLoader "App" "Base").1.2.

Definition sampleLoaderTwoParents : J9ClassLoader :=
  (sampleRecord [] sampleLoaderAppBase "App" "java/io/Serializable").1.2.

Definition sampleLoaderBaseMarked : J9ClassLoader :=
  (sampleValidate (sampleLoaded [sampleApp]) [] sampleLoaderAppBase "App"
     sampleApp).1.2.



Definition sampleLoaderThrowable : J9ClassLoader :=
  (sampleRecord [] newClassLoader "Base" "java/lang/Throwable").1.2.

Definition sampleLoaderBothFlags : J9ClassLoader :=
  (sampleValidate (sampleLoaded [sampleApp]) []
     (sampleRecord [] sampleLoaderThrowable "App" "Base").1.2 "App"
     sampleApp).1.2.

Definition sampleLoaderEmptyEntry : J9ClassLoader :=
  (sampleRecord [true; true; true; true; false] newClassLoader "App"
      "Base").1.2.

Definition tableOf (cl : J9ClassLoader) : gmap string J9ClassRelationship :=
  default ∅ (classRelationshipsHashTable cl).

(** A sequence of calls to [j9bcv_recordClassRelationshipSnippet], with
    the result of each call. *)
Fixpoint recordSnippets (h : Heap) (verifyData : J9BytecodeVerificationData)
  (calls : list J9ClassRelationshipSnippet)
  : Heap * J9BytecodeVerificationData * list (bool * BCVCode) :=
  match calls with
  | [] => (h, verifyData, [])
  | call :: next =>
      let '(h1, verifyData1, result) :=
        j9bcv_recordClassRelationshipSnippet h verifyData
          (childClassNameIndex call) (parentClassNameIndex call) in
      let '(h2, verifyData2, results) := recordSnippets h1 verifyData1 next in
      (h2, verifyData2, result :: results)
  end.

(** The calls that came back with [BCV_SUCCESS]. *)
Fixpoint recordedSnippets (calls : list J9ClassRelationshipSnippet)
  (results : list (bool * BCVCode)) : list J9ClassRelationshipSnippet :=
  match calls, results with
  | call :: calls', (_, BCV_SUCCESS) :: results' =>
      call :: recordedSnippets calls' results'
  | _ :: calls', _ :: results' => recordedSnippets calls' results'
  | _, _ => []
  end.

Definition snippetTable (verifyData : J9BytecodeVerificationData)
  : list J9ClassRelationshipSnippet :=
  default [] (classRelationshipSnippetsHashTable verifyData).

Definition sampleNames (classNameIndex : N) : string :=
  if (classNameIndex =? 0)%N then "App"
  else if (classNameIndex =? 1)%N then "Base"
  else if (classNameIndex =? 2)%N then "java/io/Serializable"
  else "Derived".

Definition sampleVerifyData (table : option (list J9ClassRelationshipSnippet))
  : J9BytecodeVerificationData :=
  mkVerifyData sampleNames "Main" table.

(** The two trace points of a snippet that violates its relationship. *)
Definition violationTrace (childClassName parentClassName : string)
  : list TraceEvent :=
  [Trc_RTV_validateClassRelationships_InvalidRelationship parentClassName;
   Trc_RTV_processClassRelationshipSnippets_ErrorWhileProcessing childClassName
     parentClassName].

Definition sampleCheck :=
  checkSnippetRelationship (vm := sampleVM).
Definition sampleProcess :=
  j9bcv_processClassRelationshipSnippets (vm := sampleVM).

(** ** Notions for the data buffer *)

(** The [J9UTF8] of a class name sits at an address, within the part of
    the buffer from [lo] up to [hi]. *)
Definition holdsClassName (buffer : list Byte.byte) (lo hi address : Z)
  (className : string) : Prop :=
  lo <= address
  /\ address + Z.of_nat (String.length className) + 3 <= hi
  /\ J9UTF8_DATA buffer address = Some (String.list_byte_of_string className).

(** Two buffers have the same bytes below [srp] and from [lo] up to
    [next]. *)
Definition sameBytes (buffer buffer' : list Byte.byte) (srp lo next : Z) : Prop
    :=
  length buffer' = length buffer
  /\ forall j : nat,
       Z.of_nat j < srp \/ lo <= Z.of_nat j < next ->
       buffer' !! j = buffer !! j.

(** Snippet [i] of the buffer refers to the [J9UTF8] of two names. *)
Definition snippetStored (buffer : list Byte.byte) (lo hi : Z) (i : Z)
  (names : string * string) : Prop :=
  exists childAddress parentAddress,
    SRP_GET buffer (headerSize + snippetSize * i) = Some (Some childAddress)
    /\ SRP_GET buffer (headerSize + snippetSize * i + offsetToNextSRP)
       = Some (Some parentAddress)
    /\ holdsClassName buffer lo hi childAddress names.1
    /\ holdsClassName buffer lo hi parentAddress names.2.

(** What the name mapping of [storeToDataBuffer] knows is in the
    buffer. *)
Definition mappingHolds (classNames : N -> string) (buffer : list Byte.byte)
  (lo next : Z) (capacity lookups : nat) (mapping : ClassNameMapping) : Prop :=
  match mapping with
  | J9RELATIONSHIP_SNIPPET_SINGLE => True
  | J9RELATIONSHIP_SNIPPET_USE_ARRAY classNamesArray =>
      exists known : list (N * Z),
        classNamesArray
        = (Some <$> known) ++ replicate (capacity - length known) None
        /\ (length known <= lookups)%nat
        /\ forall classNameIndex address,
             (classNameIndex, address) ∈ known ->
             holdsClassName buffer lo next address (classNames classNameIndex)
  | J9RELATIONSHIP_SNIPPET_USE_HASHTABLE classNamesHashTable =>
      forall utf8 address,
        (utf8, address) ∈ classNamesHashTable ->
        utf8 = address
        /\ exists classNameIndex,
             holdsClassName buffer lo next address (classNames classNameIndex)
  end.

(** The array of names has room for every index of the snippets. *)
Definition mappingRoom (mapping : ClassNameMapping) (total capacity : nat)
  : Prop :=
  match mapping with
  | J9RELATIONSHIP_SNIPPET_USE_ARRAY _ => (total <= capacity)%nat
  | _ => True
  end.

(** The bytes that the names of the snippets take when each is written
    once per use: the length, the name and the closing 0. *)
Fixpoint namesSize (verifyData : J9BytecodeVerificationData)
  (snippetEntries : list J9ClassRelationshipSnippet) : Z :=
  match snippetEntries with
  | [] => 0
  | snippetEntry :: next =>
      Z.of_nat (String.length
                  (classNameList verifyData (childClassNameIndex snippetEntry)))
      + 3
      + (Z.of_nat (String.length
                     (classNameList verifyData (parentClassNameIndex
                         snippetEntry)))
         + 3)
      + namesSize verifyData next
  end.

(** Every name of the snippets is shorter than [bound]. *)
Definition namesShorter (verifyData : J9BytecodeVerificationData)
  (bound : Z) (snippetEntries : list J9ClassRelationshipSnippet) : Prop :=
  forall snippetEntry,
    snippetEntry ∈ snippetEntries ->
    Z.of_nat (String.length
                (classNameList verifyData (childClassNameIndex snippetEntry)))
    < bound
    /\ Z.of_nat (String.length
                   (classNameList verifyData (parentClassNameIndex
                       snippetEntry)))
       < bound.

(** What a lookup of the address of a name has done when it gives an
    address. *)
Definition lookupDone (verifyData : J9BytecodeVerificationData) (lo : Z)
  (capacity lookups : nat) (st : StoreState) (classNameIndex : N)
  (st' : StoreState) (mapping' : ClassNameMapping) (address : Z) : Prop :=
  let className := classNameList verifyData classNameIndex in
  (nextUTF8Address st <= nextUTF8Address st'
   /\ nextUTF8Address st'
      <= nextUTF8Address st + Z.of_nat (String.length className) + 3)
  /\ sameBytes (storeBuffer st) (storeBuffer st') (nextUTF8Address st) lo
       (nextUTF8Address st)
  /\ holdsClassName (storeBuffer st') lo (nextUTF8Address st') address className
  /\ mappingHolds (classNameList verifyData) (storeBuffer st') lo
       (nextUTF8Address st') capacity (S lookups) mapping'
  /\ (false ∈ storeHeap st' -> false ∈ storeHeap st).

(** The outcomes of a lookup: an address, or an allocation has failed. *)
Definition lookupOutcome (verifyData : J9BytecodeVerificationData) (lo : Z)
  (total capacity lookups : nat) (st : StoreState) (classNameIndex : N)
  (result : option (StoreState * ClassNameMapping * option Z)) : Prop :=
  match result with
  | Some (st', mapping', Some address) =>
      lookupDone verifyData lo capacity lookups st classNameIndex st' mapping'
        address
      /\ mappingRoom mapping' total capacity
  | _ => false ∈ storeHeap st
  end.

(** The outcomes of the loop of [storeToDataBuffer] over the snippets
    that are left, when [stored] snippets are in the buffer already: every
    snippet is stored, or an allocation has failed. *)
Definition storeOutcome (verifyData : J9BytecodeVerificationData) (lo srp : Z)
  (stored : nat) (snippetEntries : list J9ClassRelationshipSnippet)
  (st : StoreState) (result : option (StoreState * BCVCode)) : Prop :=
  match result with
  | Some (st', BCV_SUCCESS) =>
      sameBytes (storeBuffer st) (storeBuffer st') srp lo (nextUTF8Address st)
      /\ nextUTF8Address st <= nextUTF8Address st'
      /\ (forall (i : nat) snippetEntry,
            snippetEntries !! i = Some snippetEntry ->
            snippetStored (storeBuffer st') lo (nextUTF8Address st')
              (Z.of_nat (stored + i)) (snippetNames verifyData snippetEntry))
      /\ (false ∈ storeHeap st' -> false ∈ storeHeap st)
  | Some (_, BCV_ERR_INTERNAL_ERROR) => False
  | _ => false ∈ storeHeap st
  end.

(** The outcomes of filling the data buffer: a buffer that reads back
    as the names of the snippets, in their order, or an allocation has
    failed. *)
Definition serializeOutcome (verifyData : J9BytecodeVerificationData)
  (snippetEntries : list J9ClassRelationshipSnippet) (h : Heap)
  (result : option (Heap * list Byte.byte * BCVCode)) : Prop :=
  match result with
  | Some (h', dataBuffer, BCV_SUCCESS) =>
      deserialize dataBuffer = Some (snippetNames verifyData <$> snippetEntries)
      /\ (false ∈ h' -> false ∈ h)
  | Some (_, _, BCV_ERR_INTERNAL_ERROR) => False
  | _ => false ∈ h
  end.

(** The size of the buffer for a table of snippets. *)
Definition dataBufferSizeOf (verifyData : J9BytecodeVerificationData)
  (snippetEntries : list J9ClassRelationshipSnippet) : Z :=
  headerSize + snippetSize * Z.of_nat (length snippetEntries)
  + namesSize verifyData snippetEntries.

(** A class name of 65535 bytes, the longest a [J9UTF8] can hold. *)
Definition longestClassName : string :=
  String.string_of_list_byte (replicate (Z.to_nat 65535) Byte.x41).

Definition longNameVerifyData : J9BytecodeVerificationData :=
  mkVerifyData (fun classNameIndex =>
                  if (classNameIndex =? 0)%N then longestClassName else "Base")
    "Main" (Some [mkSnippet 0 1]).

(** Snippets and buffers of the worked examples. *)
Definition sampleSnippets : list J9ClassRelationshipSnippet :=
  [mkSnippet 0 2; mkSnippet 0 1; mkSnippet 3 1].

Definition sampleBuffer (threshold : nat) : list Byte.byte :=
  match fillDataBuffer threshold (sampleVerifyData (Some sampleSnippets)) []
          sampleSnippets with
  | Some (_, dataBuffer, _) => dataBuffer
  | None => []
  end.

Definition sampleClasses : list SampleClass :=
  [sampleApp; sampleBase; sampleSerializable].

(** ** Notions for the relationships that are pending or hold *)

(** The relationship of a child to a parent is pending in the table of
    the class loader: the entry of the child has a node for the parent
    or, for java/lang/Throwable, the flag. *)
Definition relationshipRecorded (cl : J9ClassLoader)
  (childClassName parentClassName : string) : Prop :=
  exists entry,
    findClassRelationship cl childClassName = Some entry
    /\ if J9UTF8_DATA_EQUALS J9RELATIONSHIP_JAVA_LANG_THROWABLE_STRING
            parentClassName
       then parentIsThrowable entry = true
       else parentClassName ∈ root entry.

(** No name in the list is longer than [className]. *)
Definition noneLonger (className : string) (nodes : list string) : Prop :=
  Forall (fun node => (String.length node <= String.length className)%nat)
    nodes.

Section Compatibility.

Context {vm : J9JavaVM}.

(** What [j9bcv_validateClassRelationships] accepts of a loaded parent
    class: an interface, or the same class as or a superclass of the
    child. *)
Definition parentAccepted (parentClass childClass : J9Class vm) : bool :=
  J9ROMCLASS_IS_INTERFACE parentClass
  || isSameOrSuperClassOf parentClass childClass.

(** The relationship holds among the classes that are loaded: the
    parent is loaded and is an interface, or both are loaded and the
    parent is the same as or a superclass of the child. *)
Definition relationshipHolds (hashClassTableAt : string -> option (J9Class vm))
  (childClassName parentClassName : string) : Prop :=
  exists parentClass,
    hashClassTableAt parentClassName = Some parentClass
    /\ (J9ROMCLASS_IS_INTERFACE parentClass = true
        \/ exists childClass,
             hashClassTableAt childClassName = Some childClass
             /\ isSameOrSuperClassOf parentClass childClass = true).

End Compatibility.

(** A class loader whose pool could not be allocated. *)
Definition sampleLoaderNoPool : J9ClassLoader :=
  (sampleRecord [true; false] newClassLoader "App" "Base").1.2.

(** A class loader in which Derived waits for Base. *)
Definition sampleLoaderDerivedBase : J9ClassLoader :=
  (sampleRecord [] newClassLoader "Derived" "Base").1.2.


(** A first lookup of the name at index 1 in an array of four slots,
    with a buffer of 16 bytes whose names start at 8. *)
Definition sampleArrayLookup
  : option (StoreState * list (option (N * Z)) * option Z) :=
  getUTF8AddressFromArray (sampleVerifyData None)
    (mkStoreState [] (replicate 16 Byte.x00) 8) (replicate 4 None) 4 1.

(** The bytes of the buffer from [lo] up to [hi] are 0, as [memset]
    leaves them. *)
Definition clearBytes (buffer : list Byte.byte) (lo hi : Z) : Prop :=
  forall j : nat, lo <= Z.of_nat j < hi -> buffer !! j = Some Byte.x00.

(** A buffer of 24 bytes with the name at index 1 at address 8, and the
    table of names that goes with it. *)
Definition sampleNamedState : StoreState :=
  match getUTF8AddressFromHashTable (sampleVerifyData None)
          (mkStoreState [] (replicate 24 Byte.x00) 8) [] 1 with
  | Some (st, _, _) => st
  | None => mkStoreState [] [] 0
  end.

(** A class loader in which App waits for java/io/Serializable. *)
Definition sampleLoaderAppSerializable : J9ClassLoader :=
  (sampleRecord [] newClassLoader "App" "java/io/Serializable").1.2.

(** The pair of names is one of the snippets that a pass is given: a
    snippet of the snippet table of the verification data, or, with a
    cached buffer, one of the snippets that the header counts. *)
Definition snippetGiven (verifyData : J9BytecodeVerificationData)
  (snippetsDataDescriptorAddress : option (list Byte.byte))
  (childClassName parentClassName : string) : Prop :=
  match snippetsDataDescriptorAddress with
  | None =>
      exists snippetEntry,
        snippetEntry ∈ snippetTable verifyData
        /\ snippetNames verifyData snippetEntry
           = (childClassName, parentClassName)
  | Some buffer =>
      exists snippetCount i,
        readSnippetCount buffer = Some snippetCount
        /\ 0 <= i < snippetCount
        /\ readCachedSnippet buffer i = Some (childClassName, parentClassName)
  end.

(** Closes the goals on where a failed allocation came from. *)
Ltac failed_allocation := repeat split; try done; intros; by auto.
(** * Properties *)

(** ** The walk over the parent nodes *)

Lemma J9UTF8_DATA_EQUALS_spec a b :
  J9UTF8_DATA_EQUALS a b = true <-> a = b.
Proof. unfold J9UTF8_DATA_EQUALS. apply String.eqb_eq. Qed.

Lemma J9UTF8_DATA_EQUALS_false a b :
  J9UTF8_DATA_EQUALS a b = false <-> a <> b.
Proof. unfold J9UTF8_DATA_EQUALS. apply String.eqb_neq. Qed.

Lemma walkParentNodes_splice nodes parentClassName position :
  match walkParentNodes nodes parentClassName position with
  | AlreadyPresent => insertByLength nodes parentClassName = nodes
  | AddBefore i =>
      (position <= i)%nat /\
      insertByLength nodes parentClassName
      = linkedListAddBefore nodes (i - position) parentClassName
  | AddLast =>
      insertByLength nodes parentClassName
      = linkedListAddLast nodes parentClassName
  end.
Proof.
  revert position. induction nodes as [|node next IH]; intros position; simpl.
  - reflexivity.
  - destruct (String.length parentClassName <? String.length node)%nat.
    + split; [lia|]. replace (position - position)%nat with O by lia.
      reflexivity.
    + destruct (J9UTF8_DATA_EQUALS node parentClassName); [reflexivity|].
      specialize (IH (S position)).
      destruct (walkParentNodes next parentClassName (S position)) as [|i|].
      * by rewrite IH.
      * destruct IH as [Hle IH]. split; [lia|]. rewrite IH.
        unfold linkedListAddBefore.
        replace (i - position)%nat with (S (i - S position)) by lia.
        reflexivity.
      * by rewrite IH.
Qed.

Lemma walkParentNodes_present nodes parentClassName position :
  orderedByLength nodes -> parentClassName ∈ nodes ->
  walkParentNodes nodes parentClassName position = AlreadyPresent.
Proof.
  revert position. induction nodes as [|node next IH]; intros position Hs Hin.
  - by apply elem_of_nil in Hin.
  - apply StronglySorted_inv in Hs as [Hs Hall]. simpl.
    destruct (String.length parentClassName <? String.length node)%nat eqn:Hlt.
    + apply Nat.ltb_lt in Hlt. apply elem_of_cons in Hin as [->|Hin]; [lia|].
      rewrite List.Forall_forall in Hall.
      apply list_elem_of_In, Hall in Hin. unfold lengthLe in Hin. lia.
    + destruct (J9UTF8_DATA_EQUALS node parentClassName) eqn:Heq;
        [reflexivity|].
      apply J9UTF8_DATA_EQUALS_false in Heq.
      apply elem_of_cons in Hin as [->|Hin]; [done|]. by apply IH.
Qed.

Lemma elem_of_insertByLength nodes parentClassName x :
  x ∈ insertByLength nodes parentClassName <->
  x = parentClassName \/ x ∈ nodes.
Proof.
  induction nodes as [|node next IH]; simpl.
  - rewrite elem_of_cons, elem_of_nil. tauto.
  - destruct (String.length parentClassName <? String.length node)%nat.
    + rewrite !elem_of_cons. tauto.
    + destruct (J9UTF8_DATA_EQUALS node parentClassName) eqn:Heq.
      * apply J9UTF8_DATA_EQUALS_spec in Heq. subst node.
        rewrite !elem_of_cons. tauto.
      * rewrite !elem_of_cons, IH. tauto.
Qed.

Lemma insertByLength_ordered nodes parentClassName :
  orderedByLength nodes -> orderedByLength (insertByLength nodes
      parentClassName).
Proof.
  unfold orderedByLength.
  induction nodes as [|node next IH]; intros Hs; simpl.
  - repeat constructor.
  - apply StronglySorted_inv in Hs as [Hs Hall].
    destruct (String.length parentClassName <? String.length node)%nat eqn:Hlt.
    + apply Nat.ltb_lt in Hlt. constructor; [by constructor|].
      constructor; [unfold lengthLe; lia|].
      eapply List.Forall_impl; [|exact Hall]. unfold lengthLe. intros; lia.
    + apply Nat.ltb_ge in Hlt.
      destruct (J9UTF8_DATA_EQUALS node parentClassName); [by constructor|].
      constructor; [by apply IH|].
      apply List.Forall_forall. intros x Hx.
      apply list_elem_of_In, elem_of_insertByLength in Hx as [->|Hx].
      * exact Hlt.
      * rewrite List.Forall_forall in Hall. by apply Hall, list_elem_of_In.
Qed.

Lemma insertByLength_NoDup nodes parentClassName :
  orderedByLength nodes -> NoDup nodes ->
  NoDup (insertByLength nodes parentClassName).
Proof.
  unfold orderedByLength.
  induction nodes as [|node next IH]; intros Hs Hnd; simpl.
  - apply NoDup_singleton.
  - apply StronglySorted_inv in Hs as [Hs Hall].
    apply NoDup_cons in Hnd as [Hnotin Hnd].
    destruct (String.length parentClassName <? String.length node)%nat eqn:Hlt.
    + apply Nat.ltb_lt in Hlt. apply NoDup_cons. split; [|by apply NoDup_cons].
      intros Hin. apply elem_of_cons in Hin as [->|Hin]; [lia|].
      rewrite List.Forall_forall in Hall.
      apply list_elem_of_In, Hall in Hin. unfold lengthLe in Hin. lia.
    + destruct (J9UTF8_DATA_EQUALS node parentClassName) eqn:Heq;
        [by apply NoDup_cons|].
      apply J9UTF8_DATA_EQUALS_false in Heq.
      apply NoDup_cons. split; [|by apply IH].
      rewrite elem_of_insertByLength. intros [->|Hin]; done.
Qed.

(** ** Flags *)

Lemma lor_bit_absorb flagsValue bit :
  0 <= bit ->
  Z.testbit flagsValue bit = true -> Z.lor flagsValue (2 ^ bit) = flagsValue.
Proof.
  intros Hbit Hset. apply Z.bits_inj'. intros n Hn.
  rewrite Z.lor_spec, Z.pow2_bits_eqb by lia.
  destruct (Z.eqb_spec bit n) as [->|]; [by rewrite Hset|by rewrite
      orb_false_r].
Qed.

Lemma bits_set_testbit flagsValue bit :
  0 <= bit ->
  J9_ARE_ANY_BITS_SET flagsValue (2 ^ bit) = Z.testbit flagsValue bit.
Proof.
  intros Hbit. unfold J9_ARE_ANY_BITS_SET.
  destruct (Z.testbit flagsValue bit) eqn:Hset.
  - apply negb_true_iff, Z.eqb_neq. intros Hzero.
    assert (Z.testbit (Z.land flagsValue (2 ^ bit)) bit = false) as Hb
      by (rewrite Hzero; apply Z.bits_0).
    rewrite Z.land_spec, Z.pow2_bits_eqb, Z.eqb_refl, Hset in Hb by lia. done.
  - apply negb_false_iff, Z.eqb_eq. apply Z.bits_inj'. intros n Hn.
    rewrite Z.land_spec, Z.pow2_bits_eqb, Z.bits_0 by lia.
    destruct (Z.eqb_spec bit n) as [->|]; [by rewrite Hset|by rewrite
        andb_false_r].
Qed.

Lemma bits_set_lor_same flagsValue bit :
  0 <= bit -> J9_ARE_ANY_BITS_SET (Z.lor flagsValue (2 ^ bit)) (2 ^ bit) = true.
Proof.
  intros Hbit. rewrite bits_set_testbit, Z.lor_spec, Z.pow2_bits_eqb by lia.
  by rewrite Z.eqb_refl, orb_true_r.
Qed.

Lemma bits_set_lor_mono flagsValue mask bit :
  0 <= bit ->
  J9_ARE_ANY_BITS_SET flagsValue (2 ^ bit) = true ->
  J9_ARE_ANY_BITS_SET (Z.lor flagsValue mask) (2 ^ bit) = true.
Proof.
  intros Hbit. rewrite !bits_set_testbit, Z.lor_spec by lia.
  intros ->. reflexivity.
Qed.

Lemma mustBeInterface_marked entry : mustBeInterface (markedInterface entry) =
    true.
Proof. apply (bits_set_lor_same (flags entry) 0). lia. Qed.

Lemma mustBeInterface_marked_mono entry :
  mustBeInterface entry = true -> mustBeInterface (markedInterface entry) =
      true.
Proof. intros _. apply mustBeInterface_marked. Qed.

Lemma parentIsThrowable_recorded entry :
  parentIsThrowable
    (recordedEntry entry J9RELATIONSHIP_JAVA_LANG_THROWABLE_STRING) = true.
Proof. apply (bits_set_lor_same (flags entry) 1). lia. Qed.

Lemma throwable_flag_absorb entry :
  parentIsThrowable entry = true ->
  Z.lor (flags entry) J9RELATIONSHIP_PARENT_CLASS_IS_THROWABLE = flags entry.
Proof.
  unfold parentIsThrowable. intros Hset.
  apply (lor_bit_absorb (flags entry) 1); [lia|].
  by rewrite <- (bits_set_testbit (flags entry) 1) by lia.
Qed.

(** ** Recording a relationship *)

Lemma find_setEntry cl className entry name :
  classRelationshipsHashTable cl <> None ->
  findClassRelationship (setEntry cl className entry) name
  = if decide (className = name) then Some entry
    else findClassRelationship cl name.
Proof.
  unfold findClassRelationship, setEntry.
  destruct (classRelationshipsHashTable cl) as [table|]; [|done]. intros _.
  simpl. apply lookup_insert.
Qed.

Lemma table_setEntry cl className entry :
  classRelationshipsHashTable cl <> None ->
  classRelationshipsHashTable (setEntry cl className entry) <> None.
Proof.
  unfold setEntry. by destruct (classRelationshipsHashTable cl).
Qed.

Lemma recordedEntry_walk entry parentClassName :
  J9UTF8_DATA_EQUALS J9RELATIONSHIP_JAVA_LANG_THROWABLE_STRING parentClassName
  = false ->
  recordedEntry entry parentClassName
  = mkRelationship (insertByLength (root entry) parentClassName) (flags entry).
Proof. unfold recordedEntry. by intros ->. Qed.

Lemma recordParent_true h cl childClassName parentClassName entry h' cl' :
  classRelationshipsHashTable cl <> None ->
  findClassRelationship cl childClassName = Some entry ->
  recordParent h cl childClassName parentClassName entry = (h', cl', true) ->
  findClassRelationship cl' childClassName
  = Some (recordedEntry entry parentClassName)
  /\ forall name, name <> childClassName ->
       findClassRelationship cl' name = findClassRelationship cl name.
Proof.
  intros Htable Hfind. unfold recordParent.
  destruct (J9UTF8_DATA_EQUALS J9RELATIONSHIP_JAVA_LANG_THROWABLE_STRING
              parentClassName) eqn:Hthrowable.
  - unfold recordedEntry. rewrite Hthrowable.
    destruct (J9_ARE_ANY_BITS_SET (flags entry)
                J9RELATIONSHIP_PARENT_CLASS_IS_THROWABLE) eqn:Hset; simpl;
      intros [= <- <-].
    + rewrite throwable_flag_absorb by exact Hset. by destruct entry.
    + split; [|intros name Hne]; rewrite find_setEntry by done;
        [by rewrite decide_True|by rewrite decide_False].
  - rewrite recordedEntry_walk by done.
    pose proof (walkParentNodes_splice (root entry) parentClassName 0) as Hwalk.
    destruct (root entry) as [|node next] eqn:Hroot.
    + destruct (allocateClassRelationshipNode h cl) as [h1 [|]]; [|done].
      intros [= <- <-].
      split; [|intros name Hne]; rewrite find_setEntry by done;
        [by rewrite decide_True|by rewrite decide_False].
    + destruct (walkParentNodes (node :: next) parentClassName 0) as [|i|].
      * intros [= <- <-]. rewrite Hwalk, <- Hroot. by destruct entry.
      * destruct (allocateClassRelationshipNode h cl) as [h1 [|]]; [|done].
        intros [= <- <-]. destruct Hwalk as [_ ->].
        replace (i - 0)%nat with i by lia.
        split; [|intros name Hne]; rewrite find_setEntry by done;
          [by rewrite decide_True|by rewrite decide_False].
      * destruct (allocateClassRelationshipNode h cl) as [h1 [|]]; [|done].
        intros [= <- <-]. rewrite Hwalk.
        split; [|intros name Hne]; rewrite find_setEntry by done;
          [by rewrite decide_True|by rewrite decide_False].
Qed.

Lemma recordParent_false h cl childClassName parentClassName entry h' cl' :
  recordParent h cl childClassName parentClassName entry = (h', cl', false) ->
  cl' = cl.
Proof.
  unfold recordParent.
  repeat match goal with
         | |- context [match ?x with _ => _ end] => destruct x
         end; congruence.
Qed.

Lemma findOrAddChildEntry_spec h cl childClassName h' cl' result :
  classRelationshipsHashTable cl <> None ->
  findOrAddChildEntry h cl childClassName = (h', cl', result) ->
  classRelationshipsHashTable cl' <> None
  /\ (forall name, name <> childClassName ->
        findClassRelationship cl' name = findClassRelationship cl name)
  /\ match result with
     | Some entry =>
         findClassRelationship cl' childClassName = Some entry
         /\ entry = default emptyRelationship
                      (findClassRelationship cl childClassName)
     | None =>
         cl' = cl /\ findClassRelationship cl childClassName = None
     end.
Proof.
  intros Htable. unfold findOrAddChildEntry.
  destruct (findClassRelationship cl childClassName) as [entry|] eqn:Hfind.
  - intros [= <- <- <-]. by rewrite Hfind.
  - destruct (allocate h) as [[|] h1]; [|by intros [= <- <- <-]].
    destruct (allocate h1) as [[|] h2]; [|by intros [= <- <- <-]].
    intros [= <- <- <-]. split; [by apply table_setEntry|].
    split; [intros name Hne|]; rewrite find_setEntry by done;
      [by rewrite decide_False|by rewrite decide_True].
Qed.

Lemma allocateClassRelationshipTableAndPool_spec h cl h' cl' result :
  classRelationshipsHashTable cl = None ->
  allocateClassRelationshipTableAndPool h cl = (h', cl', result) ->
  (forall name, findClassRelationship cl' name = findClassRelationship cl name)
  /\ (result = 0 -> classRelationshipsHashTable cl' <> None).
Proof.
  intros Hnone. unfold allocateClassRelationshipTableAndPool.
  assert (forall name, findClassRelationship cl name = None) as Hfind
    by (intros name; unfold findClassRelationship; by rewrite Hnone).
  destruct (allocate h) as [[|] h1].
  - destruct (allocate h1) as [[|] h2]; intros [= <- <- <-];
      (split; [intros name; by rewrite Hfind|done]).
  - intros [= <- <- <-]. split; [intros name; by rewrite Hfind|done].
Qed.

(** What a record that returned [TRUE] has done to the table. *)
Lemma record_true h cl childClassName parentClassName h' cl' :
  j9bcv_recordClassRelationship h cl childClassName parentClassName
  = (h', cl', true) ->
  findClassRelationship cl' childClassName
  = Some (recordedEntry
            (default emptyRelationship (findClassRelationship cl
                childClassName))
            parentClassName)
  /\ forall name, name <> childClassName ->
       findClassRelationship cl' name = findClassRelationship cl name.
Proof.
  unfold j9bcv_recordClassRelationship.
  destruct (match classRelationshipsHashTable cl with
            | Some _ => (h, cl, 0)
            | None => allocateClassRelationshipTableAndPool h cl
            end) as [[h1 cl1] allocateResult] eqn:Hallocate.
  assert ((forall name, findClassRelationship cl1 name = findClassRelationship
      cl name)
          /\ (allocateResult = 0 -> classRelationshipsHashTable cl1 <> None))
    as [Hsame Htable].
  { destruct (classRelationshipsHashTable cl) as [table|] eqn:Hcl.
    - injection Hallocate as <- <- <-. by rewrite Hcl.
    - by eapply allocateClassRelationshipTableAndPool_spec. }
  destruct (Z.eqb_spec allocateResult 0) as [Hzero|]; simpl; [|done].
  specialize (Htable Hzero).
  destruct (findOrAddChildEntry h1 cl1 childClassName) as [[h2 cl2] [entry|]]
    eqn:Hentry; [|done].
  apply findOrAddChildEntry_spec in Hentry as (Htable2 & Hother & Hfind & ->);
    [|done].
  intros Hrecord. eapply recordParent_true in Hrecord as [Hchild Hrest];
      [|done..].
  rewrite Hchild, Hsame. split; [done|].
  intros name Hne. by rewrite Hrest, Hother, Hsame.
Qed.

(** What a record that returned [FALSE] may have done to the table. *)
Lemma record_false h cl childClassName parentClassName h' cl' :
  j9bcv_recordClassRelationship h cl childClassName parentClassName
  = (h', cl', false) ->
  (forall name, name <> childClassName ->
     findClassRelationship cl' name = findClassRelationship cl name)
  /\ (findClassRelationship cl' childClassName
      = findClassRelationship cl childClassName
      \/ (findClassRelationship cl childClassName = None
          /\ findClassRelationship cl' childClassName = Some
              emptyRelationship)).
Proof.
  unfold j9bcv_recordClassRelationship.
  destruct (match classRelationshipsHashTable cl with
            | Some _ => (h, cl, 0)
            | None => allocateClassRelationshipTableAndPool h cl
            end) as [[h1 cl1] allocateResult] eqn:Hallocate.
  assert ((forall name, findClassRelationship cl1 name = findClassRelationship
      cl name)
          /\ (allocateResult = 0 -> classRelationshipsHashTable cl1 <> None))
    as [Hsame Htable].
  { destruct (classRelationshipsHashTable cl) as [table|] eqn:Hcl.
    - injection Hallocate as <- <- <-. by rewrite Hcl.
    - by eapply allocateClassRelationshipTableAndPool_spec. }
  destruct (Z.eqb_spec allocateResult 0) as [Hzero|]; simpl.
  - specialize (Htable Hzero).
    destruct (findOrAddChildEntry h1 cl1 childClassName) as [[h2 cl2] [entry|]]
      eqn:Hentry.
    + apply findOrAddChildEntry_spec in Hentry as (Htable2 & Hother & Hfind &
        ->);
        [|done].
      intros Hrecord. apply recordParent_false in Hrecord as ->.
      split; [intros name Hne; by rewrite Hother, Hsame|].
      rewrite Hfind, <- Hsame.
      destruct (findClassRelationship cl1 childClassName); simpl; auto.
    + apply findOrAddChildEntry_spec in Hentry as (_ & _ & -> & Hnone); [|done].
      intros [= <- <-]. split; [intros; apply Hsame|]. left. apply Hsame.
  - intros [= <- <-]. split; [intros; apply Hsame|]. left. apply Hsame.
Qed.

(** ** Validating the relationships of a class *)

Lemma markedInterface_idem entry :
  markedInterface (markedInterface entry) = markedInterface entry.
Proof.
  unfold markedInterface. simpl. by rewrite <- Z.lor_assoc, Z.lor_diag.
Qed.

Lemma markedInterface_empty :
  markedInterface emptyRelationship
  = mkRelationship [] J9RELATIONSHIP_MUST_BE_INTERFACE.
Proof. reflexivity. Qed.

Section ValidateProperties.

Variable vm : J9JavaVM.

Implicit Types (hashClassTableAt : string -> option (J9Class vm)).
Implicit Types (childClass parentClass : J9Class vm).


Lemma validateParentNodes_app hashClassTableAt h table before after childClass :
  validateParentNodes hashClassTableAt h table (before ++ after) childClass
  = match validateParentNodes hashClassTableAt h table before childClass with
    | (h1, table1, None) =>
        validateParentNodes hashClassTableAt h1 table1 after childClass
    | failed => failed
    end.
Proof.
  revert h table. induction before as [|node next IH]; intros h table; simpl.
  - reflexivity.
  - destruct (hashClassTableAt node) as [parentClass|].
    + destruct (J9ROMCLASS_IS_INTERFACE parentClass); [apply IH|].
      destruct (isSameOrSuperClassOf parentClass childClass); [apply IH|done].
    + destruct (table !! node) as [parentClassEntry|]; [apply IH|].
      destruct (allocate h) as [[|] h1]; [|done].
      destruct (allocate h1) as [[|] h2]; [apply IH|done].
Qed.

(** The loop leaves an entry as it was or marks it, and it marks only
    entries of nodes that are not loaded. *)
Lemma validateParentNodes_table hashClassTableAt h table nodes childClass
    h' table' failedClass :
  validateParentNodes hashClassTableAt h table nodes childClass
  = (h', table', failedClass) ->
  forall name,
    table' !! name = table !! name
    \/ (name ∈ nodes /\ hashClassTableAt name = None
        /\ table' !! name
           = Some (markedInterface (default emptyRelationship (table !!
               name)))).
Proof.
  revert h table. induction nodes as [|node next IH]; intros h table; simpl.
  - intros [= <- <- <-] name. by left.
  - assert (forall h0 name,
      validateParentNodes hashClassTableAt h0 table next childClass
      = (h', table', failedClass) ->
      table' !! name = table !! name
      \/ (name ∈ node :: next /\ hashClassTableAt name = None
          /\ table' !! name
             = Some (markedInterface (default emptyRelationship (table !!
                 name)))))
      as Hskip.
    { intros h0 name Hrun. destruct (IH _ _ Hrun name) as [|(Hin & Hnl &
        Hmark)];
        [by left|right]. split; [by apply elem_of_cons; right|done]. }
    assert (forall h0 entry name,
      hashClassTableAt node = None ->
      entry = markedInterface (default emptyRelationship (table !! node)) ->
      validateParentNodes hashClassTableAt h0 (<[node := entry]> table) next
        childClass = (h', table', failedClass) ->
      table' !! name = table !! name
      \/ (name ∈ node :: next /\ hashClassTableAt name = None
          /\ table' !! name
             = Some (markedInterface (default emptyRelationship (table !!
                 name)))))
      as Hmarked.
    { intros h0 entry name Hnl -> Hrun.
      destruct (IH _ _ Hrun name) as [Hsame|(Hin & Hnl' & Hmark)].
      - rewrite Hsame, lookup_insert. case_decide as Heq; [subst name|by left].
        right. split; [by apply elem_of_cons; left|done].
      - right. split; [by apply elem_of_cons; right|]. split; [done|].
        rewrite Hmark, lookup_insert. case_decide as Heq; [subst name|done].
        simpl. by rewrite markedInterface_idem. }
    destruct (hashClassTableAt node) as [parentClass|] eqn:Hloaded.
    + destruct (J9ROMCLASS_IS_INTERFACE parentClass); [by eauto|].
      destruct (isSameOrSuperClassOf parentClass childClass); [by eauto|].
      intros [= <- <- <-] name. by left.
    + destruct (table !! node) as [parentClassEntry|] eqn:Hentry.
      * intros Hrun name. eapply Hmarked; [done| |exact Hrun]. done.
      * destruct (allocate h) as [[|] h1];
          [|intros [= <- <- <-] name; by left].
        destruct (allocate h1) as [[|] h2];
          [|intros [= <- <- <-] name; by left].
        intros Hrun name. eapply Hmarked; [done| |exact Hrun]. done.
Qed.

(** An entry that must be an interface stays so through the loop. *)
Lemma validateParentNodes_keeps_mark hashClassTableAt h table nodes childClass
    h' table' failedClass name entry :
  validateParentNodes hashClassTableAt h table nodes childClass
  = (h', table', failedClass) ->
  table !! name = Some entry -> mustBeInterface entry = true ->
  exists entry', table' !! name = Some entry' /\ mustBeInterface entry' = true.
Proof.
  intros Hrun Hentry Hmark.
  destruct (validateParentNodes_table _ _ _ _ _ _ _ _ Hrun name)
    as [Hsame|(_ & _ & Hmarked)].
  - exists entry. by rewrite Hsame.
  - eexists. split; [exact Hmarked|]. apply mustBeInterface_marked.
Qed.

(** [hashTableRemove] touches no name but that of the entry. *)
Lemma lookup_hashTableRemove_ne table className classNameRead name :
  name <> className ->
  hashTableRemove table className classNameRead !! name = table !! name.
Proof.
  intros Hne. unfold hashTableRemove.
  destruct (J9UTF8_DATA_EQUALS classNameRead className); [|done].
  by rewrite lookup_delete_ne.
Qed.

(** The entry goes when its name reads as it did, and stays otherwise. *)
Lemma lookup_hashTableRemove table className classNameRead :
  hashTableRemove table className classNameRead !! className
  = if J9UTF8_DATA_EQUALS classNameRead className then None
    else table !! className.
Proof.
  unfold hashTableRemove.
  destruct (J9UTF8_DATA_EQUALS classNameRead className); [|done].
  apply lookup_delete_eq.
Qed.

(** What a validation that got through the walk leaves of the entry of
    the class: nothing when the freed name reads as before, and the
    entry without its nodes otherwise.  The walk has marked the entry
    only if the class is among its own parent nodes. *)
Lemma validate_released hashClassTableAt h cl childClassName childClass entry
    h' cl' :
  findClassRelationship cl childClassName = Some entry ->
  j9bcv_validateClassRelationships hashClassTableAt h cl childClassName
    childClass = (h', cl', None) ->
  exists walked,
    (walked = entry
     \/ (childClassName ∈ root entry /\ walked = markedInterface entry))
    /\ findClassRelationship cl' childClassName
       = if J9UTF8_DATA_EQUALS (j9mem_free_memory vm childClassName)
              childClassName
         then None
         else Some (freeClassRelationshipNodes walked).
Proof.
  unfold j9bcv_validateClassRelationships, findClassRelationship.
  destruct (classRelationshipsHashTable cl) as [table|] eqn:Htable; [|done].
  intros Hentry. rewrite Hentry.
  destruct (_ && _); [done|]. destruct (_ && _); [done|].
  destruct (validateParentNodes hashClassTableAt h table (root entry)
      childClass)
    as [[h1 table1] [failed|]] eqn:Hrun; [done|]. intros [= <- <-]. simpl.
  rewrite lookup_hashTableRemove, lookup_alter_eq.
  destruct (validateParentNodes_table _ _ _ _ _ _ _ _ Hrun childClassName)
    as [Hsame|(Hin & _ & Hmarked)].
  - exists entry. split; [by left|]. by rewrite Hsame, Hentry.
  - exists (markedInterface entry). split; [by right|].
    by rewrite Hmarked, Hentry.
Qed.

(** What a validation has done to the table. *)
Lemma validate_table hashClassTableAt h cl childClassName childClass h' cl'
    failedClass :
  j9bcv_validateClassRelationships hashClassTableAt h cl childClassName
      childClass
  = (h', cl', failedClass) ->
  (failedClass = None ->
   findClassRelationship cl' childClassName = None
   \/ (j9mem_free_memory vm childClassName <> childClassName
       /\ exists entry walked,
            findClassRelationship cl childClassName = Some entry
            /\ (walked = entry
                \/ (childClassName ∈ root entry
                    /\ walked = markedInterface entry))
            /\ findClassRelationship cl' childClassName
               = Some (freeClassRelationshipNodes walked)))
  /\ forall name, name <> childClassName \/ failedClass <> None ->
       findClassRelationship cl' name = findClassRelationship cl name
       \/ (hashClassTableAt name = None
           /\ findClassRelationship cl' name
              = Some (markedInterface
                        (default emptyRelationship (findClassRelationship cl
                            name)))).
Proof.
  intros Hvalidate. split.
  - intros ->.
    destruct (findClassRelationship cl childClassName) as [entry|] eqn:Hfind.
    + destruct (validate_released _ _ _ _ _ _ _ _ Hfind Hvalidate)
        as (walked & Hwalked & Hleft).
      destruct (J9UTF8_DATA_EQUALS (j9mem_free_memory vm childClassName)
                  childClassName) eqn:Hread; [by left|right].
      apply J9UTF8_DATA_EQUALS_false in Hread. split; [done|].
      by exists entry, walked.
    + left. revert Hvalidate Hfind.
      unfold j9bcv_validateClassRelationships, findClassRelationship.
      destruct (classRelationshipsHashTable cl) as [table|] eqn:Htable.
      * intros Hvalidate Hnone. rewrite Hnone in Hvalidate.
        injection Hvalidate as <- <-. by rewrite Htable.
      * intros [= <- <-] _. by rewrite Htable.
  - revert Hvalidate.
    unfold j9bcv_validateClassRelationships, findClassRelationship.
    destruct (classRelationshipsHashTable cl) as [table|] eqn:Htable.
    2:{ intros [= <- <- <-]. rewrite Htable. by left. }
    destruct (table !! childClassName) as [entry|] eqn:Hentry.
    2:{ intros [= <- <- <-]. rewrite Htable. by left. }
    destruct (_ && _).
    { intros [= <- <- <-]. rewrite Htable. by left. }
    destruct (_ && _).
    { intros [= <- <- <-]. rewrite Htable. by left. }
    destruct (validateParentNodes hashClassTableAt h table (root entry)
        childClass)
      as [[h1 table1] [failed|]] eqn:Hrun; intros [= <- <- <-]; simpl.
    + intros name _.
      destruct (validateParentNodes_table _ _ _ _ _ _ _ _ Hrun name)
        as [Hsame|(_ & Hnl & Hmarked)]; [by left|by right].
    + intros name [Hne|]; [|done].
      rewrite lookup_hashTableRemove_ne, lookup_alter_ne by done.
      destruct (validateParentNodes_table _ _ _ _ _ _ _ _ Hrun name)
        as [Hsame|(_ & Hnl & Hmarked)]; [by left|by right].
Qed.

(** ** Invariants of the relationship table *)

Lemma forallEntries_record (P : J9ClassRelationship -> Prop) h cl
    childClassName parentClassName :
  P emptyRelationship ->
  (forall entry, P entry -> P (recordedEntry entry parentClassName)) ->
  forallEntries P cl ->
  forallEntries P
    (j9bcv_recordClassRelationship h cl childClassName parentClassName).1.2.
Proof.
  intros Hempty Hrecorded Hcl.
  destruct (j9bcv_recordClassRelationship h cl childClassName parentClassName)
    as [[h' cl'] [|]] eqn:Hrecord; simpl; intros name entry Hfind.
  - apply record_true in Hrecord as [Hchild Hother].
    destruct (decide (name = childClassName)) as [->|Hne].
    + rewrite Hchild in Hfind. injection Hfind as <-. apply Hrecorded.
      destruct (findClassRelationship cl childClassName) eqn:Hold; simpl;
        [by eapply Hcl|done].
    + rewrite Hother in Hfind by done. by eapply Hcl.
  - apply record_false in Hrecord as [Hother Hchild].
    destruct (decide (name = childClassName)) as [->|Hne].
    + destruct Hchild as [Hsame|[_ Hnew]].
      * rewrite Hsame in Hfind. by eapply Hcl.
      * rewrite Hnew in Hfind. by injection Hfind as <-.
    + rewrite Hother in Hfind by done. by eapply Hcl.
Qed.

Lemma forallEntries_validate (P : J9ClassRelationship -> Prop) hashClassTableAt
    h cl childClassName childClass :
  P emptyRelationship ->
  (forall entry, P entry -> P (markedInterface entry)) ->
  (forall entry, P entry -> P (freeClassRelationshipNodes entry)) ->
  forallEntries P cl ->
  forallEntries P
    (j9bcv_validateClassRelationships hashClassTableAt h cl childClassName
       childClass).1.2.
Proof.
  intros Hempty Hmarked Hfreed Hcl.
  destruct (j9bcv_validateClassRelationships hashClassTableAt h cl
      childClassName
              childClass) as [[h' cl'] failedClass] eqn:Hvalidate; simpl.
  apply validate_table in Hvalidate as [Hgone Hrest].
  intros name entry Hfind.
  destruct (decide (name = childClassName /\ failedClass = None))
    as [[-> ->]|Hcase].
  - destruct (Hgone eq_refl)
      as [Hnone|(_ & old & walked & Hold & Hwalked & Hkept)].
    + by rewrite Hnone in Hfind.
    + rewrite Hkept in Hfind. injection Hfind as <-. apply Hfreed.
      destruct Hwalked as [->|[_ ->]]; [|apply Hmarked]; by eapply Hcl.
  - assert (name <> childClassName \/ failedClass <> None) as Hname.
    { destruct (decide (name = childClassName)) as [->|]; [|by left].
      right. intros ->. by apply Hcase. }
    destruct (Hrest name Hname) as [Hsame|[_ Hmark]].
    + rewrite Hsame in Hfind. by eapply Hcl.
    + rewrite Hmark in Hfind. injection Hfind as <-. apply Hmarked.
      destruct (findClassRelationship cl name) eqn:Hold; simpl;
        [by eapply Hcl|done].
Qed.

Lemma forallEntries_new P : forallEntries P newClassLoader.
Proof. intros name entry. unfold findClassRelationship. simpl. done. Qed.

Lemma forallEntries_free P cl :
  forallEntries P cl -> forallEntries P (j9bcv_freeClassRelationshipTableAndPool
      cl).
Proof.
  intros Hcl name entry. unfold j9bcv_freeClassRelationshipTableAndPool.
  destruct (classRelationshipsHashTable cl) eqn:Htable; [done|apply Hcl].
Qed.

Lemma parentNodesWellFormed_empty : parentNodesWellFormed emptyRelationship.
Proof.
  split; [constructor|]. split; [constructor|]. simpl. apply not_elem_of_nil.
Qed.

Lemma parentNodesWellFormed_recorded entry parentClassName :
  parentNodesWellFormed entry ->
  parentNodesWellFormed (recordedEntry entry parentClassName).
Proof.
  intros (Hordered & Hnodup & Hthrowable). unfold recordedEntry.
  destruct (J9UTF8_DATA_EQUALS J9RELATIONSHIP_JAVA_LANG_THROWABLE_STRING
              parentClassName) eqn:Heq; [done|].
  apply J9UTF8_DATA_EQUALS_false in Heq.
  split; [by apply insertByLength_ordered|].
  split; [by apply insertByLength_NoDup|]. simpl.
  rewrite elem_of_insertByLength. intros [|]; done.
Qed.

Lemma parentNodesWellFormed_freed entry :
  parentNodesWellFormed (freeClassRelationshipNodes entry).
Proof. apply parentNodesWellFormed_empty. Qed.

Lemma reachable_wellFormed cl :
  reachable vm cl ->
  forallEntries parentNodesWellFormed cl.
Proof.
  induction 1.
  - apply forallEntries_new.
  - apply forallEntries_record;
      auto using parentNodesWellFormed_empty, parentNodesWellFormed_recorded.
  - apply forallEntries_validate;
      auto using parentNodesWellFormed_empty, parentNodesWellFormed_freed.
  - by apply forallEntries_free.
Qed.

End ValidateProperties.

(** ** The claims on the relationship table *)

Section RelationshipTableClaims.

Variable vm : J9JavaVM.

Implicit Types (hashClassTableAt : string -> option (J9Class vm)).
Implicit Types (childClass parentClass : J9Class vm).


Lemma find_Some_table cl className entry :
  findClassRelationship cl className = Some entry ->
  exists table, classRelationshipsHashTable cl = Some table
                /\ table !! className = Some entry.
Proof.
  unfold findClassRelationship.
  destruct (classRelationshipsHashTable cl) as [table|]; [eauto|done].
Qed.

(** Recording a parent that is among the nodes of the child touches
    neither the memory nor the table. *)
Lemma record_present h cl childClassName parentClassName entry :
  findClassRelationship cl childClassName = Some entry ->
  parentNodesWellFormed entry ->
  parentClassName ∈ root entry ->
  j9bcv_recordClassRelationship h cl childClassName parentClassName
  = (h, cl, true).
Proof.
  intros Hfind (Hordered & _ & Hthrowable) Hin.
  destruct (find_Some_table _ _ _ Hfind) as (table & Htable & _).
  unfold j9bcv_recordClassRelationship, findOrAddChildEntry.
  rewrite Htable. simpl. rewrite Hfind. unfold recordParent.
  assert (J9UTF8_DATA_EQUALS J9RELATIONSHIP_JAVA_LANG_THROWABLE_STRING
            parentClassName = false) as ->.
  { apply J9UTF8_DATA_EQUALS_false. intros <-. done. }
  rewrite (walkParentNodes_present _ _ 0 Hordered Hin).
  destruct (root entry); [by apply elem_of_nil in Hin|done].
Qed.

(** C7: in every class loader that the operations produce (so after any
    sequence of successful records for a child), the parent nodes of an
    entry are in non-decreasing order of name length from head to tail
    and no two of them have the same name; recording a parent that is
    already among them returns [TRUE], allocates nothing and leaves the
    class loader as it was. *)
Theorem parents_ordered_without_duplicates cl childClassName entry :
  reachable vm cl ->
  findClassRelationship cl childClassName = Some entry ->
  orderedByLength (root entry) /\ NoDup (root entry)
  /\ forall h parentClassName,
       parentClassName ∈ root entry ->
       j9bcv_recordClassRelationship h cl childClassName parentClassName
       = (h, cl, true).
Proof.
  intros Hreach Hfind.
  pose proof (reachable_wellFormed _ _ Hreach _ _ Hfind) as Hwf.
  split; [apply Hwf|]. split; [apply Hwf|].
  intros h parentClassName Hin. by eapply record_present.
Qed.

(** The record of java/lang/Throwable leaves every list of parent nodes
    as it was. *)
Lemma record_throwable_roots h cl childClassName h' cl' recordResult :
  j9bcv_recordClassRelationship h cl childClassName
    J9RELATIONSHIP_JAVA_LANG_THROWABLE_STRING = (h', cl', recordResult) ->
  forall name entry',
    findClassRelationship cl' name = Some entry' ->
    root entry' = root (default emptyRelationship (findClassRelationship cl
        name)).
Proof.
  intros Hrecord name entry' Hfind. destruct recordResult.
  - apply record_true in Hrecord as [Hchild Hother].
    destruct (decide (name = childClassName)) as [->|Hne].
    + rewrite Hchild in Hfind. by injection Hfind as <-.
    + rewrite Hother in Hfind by done. by rewrite Hfind.
  - apply record_false in Hrecord as [Hother Hchild].
    destruct (decide (name = childClassName)) as [->|Hne].
    + destruct Hchild as [Hsame|[Hold Hnew]].
      * rewrite Hsame in Hfind. by rewrite Hfind.
      * rewrite Hnew in Hfind. injection Hfind as <-. by rewrite Hold.
    + rewrite Hother in Hfind by done. by rewrite Hfind.
Qed.

(** The step of the validation on the flag for java/lang/Throwable. *)
Lemma validate_throwable_fails hashClassTableAt h cl childClassName childClass
    entry :
  findClassRelationship cl childClassName = Some entry ->
  parentIsThrowable entry = true ->
  mustBeInterface entry = false \/ J9ROMCLASS_IS_INTERFACE childClass = true ->
  isSameOrSuperClassOf (J9VMJAVALANGTHROWABLE_OR_NULL vm) childClass = false ->
  j9bcv_validateClassRelationships hashClassTableAt h cl childClassName
      childClass
  = (h, cl, Some (J9VMJAVALANGTHROWABLE_OR_NULL vm)).
Proof.
  intros Hfind Hthrowable Hinterface Hsuper.
  destruct (find_Some_table _ _ _ Hfind) as (table & Htable & Hentry).
  unfold j9bcv_validateClassRelationships.
  rewrite Htable, Hentry. unfold parentIsThrowable, mustBeInterface in *.
  rewrite Hthrowable, Hsuper.
  destruct Hinterface as [->| ->]; simpl; [done|]. by rewrite andb_false_r.
Qed.

(** The validation of a class whose entry has the flag for
    java/lang/Throwable, when java/lang/Throwable is the same as or a
    superclass of the class, goes on to the parent nodes. *)
Lemma validate_throwable_passes hashClassTableAt h cl childClassName childClass
    table entry :
  classRelationshipsHashTable cl = Some table ->
  table !! childClassName = Some entry ->
  mustBeInterface entry = false \/ J9ROMCLASS_IS_INTERFACE childClass = true ->
  isSameOrSuperClassOf (J9VMJAVALANGTHROWABLE_OR_NULL vm) childClass = true ->
  j9bcv_validateClassRelationships hashClassTableAt h cl childClassName
      childClass
  = match validateParentNodes hashClassTableAt h table (root entry)
            childClass with
    | (h1, table1, None) =>
        (h1, mkLoader
               (Some (hashTableRemove
                        (alter freeClassRelationshipNodes childClassName
                           table1)
                        childClassName
                        (j9mem_free_memory vm childClassName)))
               (classRelationshipsPool cl), None)
    | (h1, table1, Some failedClass) =>
        (h1, mkLoader (Some table1) (classRelationshipsPool cl),
         Some failedClass)
    end.
Proof.
  intros Htable Hentry Hinterface Hsuper.
  unfold j9bcv_validateClassRelationships.
  rewrite Htable, Hentry, Hsuper. unfold mustBeInterface in Hinterface.
  rewrite andb_false_r.
  destruct Hinterface as [->| ->]; simpl; [done|]. by rewrite andb_false_r.
Qed.

(** C4, as amended: a record of java/lang/Throwable that returns [TRUE]
    leaves the flag for it set on the entry of the child, and a second
    such record changes nothing; no such record, whatever it returns,
    adds a parent node, and no list of parent nodes of a class loader
    that the operations produce has a node java/lang/Throwable; the
    validation of a child whose entry has the flag set, once the check
    of the flag for interfaces has passed, asks whether
    java/lang/Throwable is the same as or a superclass of the child:
    when it is not, the validation returns java/lang/Throwable and
    leaves memory and class loader as they were, and when it is, the
    validation goes on and its result is that of the walk over the
    parent nodes of the entry. *)
Theorem throwable_is_a_flag hashClassTableAt h cl childClassName childClass :
  (forall h' cl',
     j9bcv_recordClassRelationship h cl childClassName
       J9RELATIONSHIP_JAVA_LANG_THROWABLE_STRING = (h', cl', true) ->
     (exists entry, findClassRelationship cl' childClassName = Some entry
                    /\ parentIsThrowable entry = true)
     /\ j9bcv_recordClassRelationship h' cl' childClassName
          J9RELATIONSHIP_JAVA_LANG_THROWABLE_STRING = (h', cl', true))
  /\ (forall h' cl' recordResult,
        j9bcv_recordClassRelationship h cl childClassName
          J9RELATIONSHIP_JAVA_LANG_THROWABLE_STRING = (h', cl', recordResult) ->
        forall name entry',
          findClassRelationship cl' name = Some entry' ->
          root entry'
          = root (default emptyRelationship (findClassRelationship cl name)))
  /\ (reachable vm cl ->
      forall name entry,
        findClassRelationship cl name = Some entry ->
        J9RELATIONSHIP_JAVA_LANG_THROWABLE_STRING ∉ root entry)
  /\ (forall entry,
        findClassRelationship cl childClassName = Some entry ->
        parentIsThrowable entry = true ->
        mustBeInterface entry = false \/ J9ROMCLASS_IS_INTERFACE childClass =
            true ->
        isSameOrSuperClassOf (J9VMJAVALANGTHROWABLE_OR_NULL vm) childClass =
            false ->
        j9bcv_validateClassRelationships hashClassTableAt h cl childClassName
          childClass = (h, cl, Some (J9VMJAVALANGTHROWABLE_OR_NULL vm)))
  /\ (forall table entry,
        classRelationshipsHashTable cl = Some table ->
        table !! childClassName = Some entry ->
        parentIsThrowable entry = true ->
        mustBeInterface entry = false \/ J9ROMCLASS_IS_INTERFACE childClass =
            true ->
        isSameOrSuperClassOf (J9VMJAVALANGTHROWABLE_OR_NULL vm) childClass =
            true ->
        j9bcv_validateClassRelationships hashClassTableAt h cl childClassName
          childClass
        = match validateParentNodes hashClassTableAt h table (root entry)
                  childClass with
          | (h1, table1, None) =>
              (h1, mkLoader
                     (Some (hashTableRemove
                              (alter freeClassRelationshipNodes childClassName
                                 table1)
                              childClassName
                              (j9mem_free_memory vm childClassName)))
                     (classRelationshipsPool cl), None)
          | (h1, table1, Some failedClass) =>
              (h1, mkLoader (Some table1) (classRelationshipsPool cl),
               Some failedClass)
          end).
Proof.
  split; [|split; [|split; [|split]]].
  - intros h' cl' Hrecord.
    pose proof (record_true _ _ _ _ _ _ Hrecord) as [Hchild _].
    split.
    + eexists. split; [exact Hchild|]. apply parentIsThrowable_recorded.
    + destruct (find_Some_table _ _ _ Hchild) as (table & Htable & _).
      unfold j9bcv_recordClassRelationship, findOrAddChildEntry.
      rewrite Htable. simpl. rewrite Hchild. unfold recordParent.
      change (J9UTF8_DATA_EQUALS J9RELATIONSHIP_JAVA_LANG_THROWABLE_STRING
                J9RELATIONSHIP_JAVA_LANG_THROWABLE_STRING) with true.
      cbv iota.
      pose proof (parentIsThrowable_recorded
                    (default emptyRelationship
                       (findClassRelationship cl childClassName))) as Hset.
      unfold parentIsThrowable in Hset. by rewrite Hset.
  - intros h' cl' recordResult Hrecord. by eapply record_throwable_roots.
  - intros Hreach name entry Hfind.
    apply (reachable_wellFormed _ _ Hreach _ _ Hfind).
  - intros entry. apply validate_throwable_fails.
  - intros table entry Htable Hentry _. by apply validate_throwable_passes.
Qed.





Lemma validate_reaches hashClassTableAt h cl childClassName childClass table
    entry before node after h1 table1 :
  classRelationshipsHashTable cl = Some table ->
  table !! childClassName = Some entry ->
  walkReaches hashClassTableAt h table entry childClass before node after h1
      table1 ->
  j9bcv_validateClassRelationships hashClassTableAt h cl childClassName
      childClass
  = match validateParentNodes hashClassTableAt h1 table1 (node :: after)
      childClass with
    | (h2, table2, None) =>
        (h2, mkLoader
               (Some (hashTableRemove
                        (alter freeClassRelationshipNodes childClassName
                           table2)
                        childClassName
                        (j9mem_free_memory vm childClassName)))
               (classRelationshipsPool cl), None)
    | (h2, table2, Some failedClass) =>
        (h2, mkLoader (Some table2) (classRelationshipsPool cl), Some
            failedClass)
    end.
Proof.
  intros Htable Hentry (Hinterface & Hthrowable & Hroot & Hbefore).
  unfold j9bcv_validateClassRelationships.
  unfold mustBeInterface, parentIsThrowable in *.
  rewrite Htable, Hentry, Hinterface, Hthrowable, Hroot.
  rewrite validateParentNodes_app, Hbefore. reflexivity.
Qed.

(** The validation of a class that is flagged as an interface and is
    none fails on the class itself. *)
Lemma validate_must_be_interface hashClassTableAt h cl childClassName childClass
    entry :
  findClassRelationship cl childClassName = Some entry ->
  mustBeInterface entry = true ->
  J9ROMCLASS_IS_INTERFACE childClass = false ->
  j9bcv_validateClassRelationships hashClassTableAt h cl childClassName
      childClass
  = (h, cl, Some childClass).
Proof.
  intros Hfind Hmark Hclass.
  destruct (find_Some_table _ _ _ Hfind) as (table & Htable & Hentry).
  unfold j9bcv_validateClassRelationships, mustBeInterface in *.
  by rewrite Htable, Hentry, Hmark, Hclass.
Qed.


(** C10: when the walk of a validation gets to a parent that is not
    loaded and has no entry, and the copy of its name or the new entry
    cannot be allocated, the validation returns the class of the child
    as the failed class; a child that is flagged as an interface and is
    none gets the same result. *)
Theorem allocation_failure_returns_child hashClassTableAt h cl childClassName
    childClass table entry before node after h1 table1 :
  (classRelationshipsHashTable cl = Some table ->
   table !! childClassName = Some entry ->
   walkReaches hashClassTableAt h table entry childClass before node after h1
       table1 ->
   hashClassTableAt node = None ->
   table1 !! node = None ->
   (allocate h1).1 = false \/ (allocate (allocate h1).2).1 = false ->
   (j9bcv_validateClassRelationships hashClassTableAt h cl childClassName
       childClass).2
   = Some childClass)
  /\ (forall flagged,
        findClassRelationship cl childClassName = Some flagged ->
        mustBeInterface flagged = true ->
        J9ROMCLASS_IS_INTERFACE childClass = false ->
        (j9bcv_validateClassRelationships hashClassTableAt h cl childClassName
            childClass).2
        = Some childClass).
Proof.
  split.
  - intros Htable Hentry Hreaches Hunloaded Hnone Halloc.
    rewrite (validate_reaches _ _ _ _ _ _ _ _ _ _ _ _ Htable Hentry Hreaches).
    simpl. rewrite Hunloaded, Hnone.
    destruct (allocate h1) as [[|] h1'] eqn:Hfirst; simpl in Halloc; [|done].
    destruct (allocate h1') as [[|] h2'] eqn:Hsecond; simpl in Halloc; [|done].
    by destruct Halloc.
  - intros flagged Hfind Hmark Hclass.
    by rewrite (validate_must_be_interface _ _ _ _ _ _ Hfind Hmark Hclass).
Qed.

End RelationshipTableClaims.

(** ** Worked examples on the relationship table *)

Lemma sampleLoaderTwoParents_reachable :
  reachable sampleVM
    sampleLoaderTwoParents.
Proof.
  unfold sampleLoaderTwoParents, sampleLoaderAppBase, sampleRecord.
  apply reachable_record, reachable_record, reachable_new.
Qed.

Lemma parents_ordered_without_duplicates_witness :
  orderedByLength ["Base"; "java/io/Serializable"]
  /\ NoDup ["Base"; "java/io/Serializable"]
  /\ forall h parentClassName,
       parentClassName ∈ ["Base"; "java/io/Serializable"] ->
       j9bcv_recordClassRelationship h sampleLoaderTwoParents "App"
         parentClassName = (h, sampleLoaderTwoParents, true).
Proof.
  apply (parents_ordered_without_duplicates sampleVM sampleLoaderTwoParents
           "App" (mkRelationship ["Base"; "java/io/Serializable"] 0)).
  - apply sampleLoaderTwoParents_reachable.
  - vm_compute. reflexivity.
Defined.



Lemma allocation_failure_returns_child_witness :
  (sampleValidate (sampleLoaded [sampleApp]) [true; false] sampleLoaderAppBase
     "App" sampleApp).2 = Some sampleApp
  /\ (sampleValidate (sampleLoaded [sampleApp; sampleBase]) []
        sampleLoaderBaseMarked "Base" sampleBase).2 = Some sampleBase.
Proof.
  split.
  - apply (proj1 (allocation_failure_returns_child sampleVM
                    (sampleLoaded [sampleApp]) [true; false] sampleLoaderAppBase
                    "App" sampleApp (tableOf sampleLoaderAppBase)
                    (mkRelationship ["Base"] 0) [] "Base" [] [true; false]
                    (tableOf sampleLoaderAppBase))).
    + vm_compute. reflexivity.
    + vm_compute. reflexivity.
    + repeat split; vm_compute; reflexivity.
    + vm_compute. reflexivity.
    + vm_compute. reflexivity.
    + right. vm_compute. reflexivity.
  - apply (proj2 (allocation_failure_returns_child sampleVM
                    (sampleLoaded [sampleApp; sampleBase]) []
                    sampleLoaderBaseMarked "Base" sampleBase ∅
                    emptyRelationship [] "" [] [] ∅)
             (mkRelationship [] 1)).
    + vm_compute. reflexivity.
    + vm_compute. reflexivity.
    + vm_compute. reflexivity.
Defined.

Lemma sampleLoaderBothFlags_reachable :
  reachable sampleVM
    sampleLoaderBothFlags.
Proof.
  unfold sampleLoaderBothFlags, sampleLoaderThrowable, sampleValidate,
    sampleRecord.
  apply reachable_validate, reachable_record, reachable_record, reachable_new.
Qed.

Lemma throwable_is_a_flag_witness :
  ((exists entry,
      findClassRelationship sampleLoaderThrowable "Base" = Some entry
      /\ parentIsThrowable entry = true)
   /\ j9bcv_recordClassRelationship [] sampleLoaderThrowable "Base"
        J9RELATIONSHIP_JAVA_LANG_THROWABLE_STRING
      = ([], sampleLoaderThrowable, true))
  /\ (forall name entry,
        findClassRelationship sampleLoaderBothFlags name = Some entry ->
        J9RELATIONSHIP_JAVA_LANG_THROWABLE_STRING ∉ root entry)
  /\ sampleValidate (sampleLoaded [sampleBase]) [] sampleLoaderThrowable "Base"
       sampleBase = ([], sampleLoaderThrowable, Some sampleThrowable)
  /\ sampleValidate (sampleLoaded [sampleThrowable]) [] sampleLoaderThrowable
       "Base" sampleThrowableSubclass
     = ([], mkLoader (Some ∅) true, None).
Proof.
  split; [|split; [|split]].
  - apply (proj1 (throwable_is_a_flag sampleVM (sampleLoaded [])
                    [] newClassLoader "Base" sampleBase)).
    vm_compute. reflexivity.
  - apply (proj1 (proj2 (proj2 (throwable_is_a_flag sampleVM (sampleLoaded [])
                    [] sampleLoaderBothFlags "Base" sampleBase)))).
    apply sampleLoaderBothFlags_reachable.
  - apply (proj1 (proj2 (proj2 (proj2 (throwable_is_a_flag sampleVM
                    (sampleLoaded [sampleBase]) [] sampleLoaderThrowable "Base"
                    sampleBase)))) (mkRelationship [] 2)).
    + vm_compute. reflexivity.
    + vm_compute. reflexivity.
    + left. vm_compute. reflexivity.
    + vm_compute. reflexivity.
  - unfold sampleValidate.
    rewrite (proj2 (proj2 (proj2 (proj2 (throwable_is_a_flag sampleVM
                    (sampleLoaded [sampleThrowable]) [] sampleLoaderThrowable
                    "Base" sampleThrowableSubclass))))
               (tableOf sampleLoaderThrowable) (mkRelationship [] 2)).
    + vm_compute. reflexivity.
    + vm_compute. reflexivity.
    + vm_compute. reflexivity.
    + vm_compute. reflexivity.
    + left. vm_compute. reflexivity.
    + vm_compute. reflexivity.
Defined.

(** The claim C4 as it stands fails in two ways: a record of
    java/lang/Throwable that cannot allocate the entry sets no flag, and
    a child that is flagged both ways and is no interface fails on
    itself before java/lang/Throwable is looked at. *)
Lemma throwable_is_a_flag_counterexample :
  ~ (forall hashClassTableAt h cl childClassName childClass entry,
       findClassRelationship cl childClassName = Some entry ->
       parentIsThrowable entry = true ->
       sampleIsSameOrSuperClassOf sampleThrowable childClass = false ->
       (sampleValidate hashClassTableAt h cl childClassName childClass).2
       = Some sampleThrowable)
  /\ ~ (forall h cl childClassName,
          exists entry,
            findClassRelationship
              (j9bcv_recordClassRelationship h cl childClassName
                 J9RELATIONSHIP_JAVA_LANG_THROWABLE_STRING).1.2 childClassName
            = Some entry
            /\ parentIsThrowable entry = true)
  /\ findClassRelationship sampleLoaderBothFlags "Base"
     = Some (mkRelationship [] 3)
  /\ sampleValidate (sampleLoaded [sampleApp; sampleBase]) []
       sampleLoaderBothFlags "Base" sampleBase
     = ([], sampleLoaderBothFlags, Some sampleBase).
Proof.
  split; [|split; [|split; vm_compute; reflexivity]].
  - intros Hclaim.
    specialize (Hclaim (sampleLoaded [sampleApp; sampleBase]) []
                  sampleLoaderBothFlags "Base" sampleBase (mkRelationship []
                      3)).
    vm_compute in Hclaim.
    discriminate (Hclaim eq_refl eq_refl eq_refl).
  - intros Hclaim.
    destruct (Hclaim [false] newClassLoader "Base") as (entry & Hfind & _).
    vm_compute in Hfind. discriminate Hfind.
Qed.



(** As long as records may fail the table can hold an entry with
    nothing pending on it: a record that has added the entry of the
    child and then cannot allocate the parent node leaves the entry in
    the table. *)
Lemma failed_record_leaves_empty_entry :
  ~ (forall cl,
       reachable sampleVM cl ->
       forall className entry,
         findClassRelationship cl className = Some entry ->
         pendingObligation entry)
  /\ j9bcv_recordClassRelationship [true; true; true; true; false]
       newClassLoader "App" "Base"
     = ([], sampleLoaderEmptyEntry, false)
  /\ findClassRelationship sampleLoaderEmptyEntry "App" = Some
      emptyRelationship.
Proof.
  split; [|split; vm_compute; reflexivity].
  intros Hclaim.
  assert (reachable sampleVM
            sampleLoaderEmptyEntry) as Hreach
    by (unfold sampleLoaderEmptyEntry, sampleRecord;
        apply reachable_record, reachable_new).
  destruct (Hclaim _ Hreach "App" emptyRelationship) as [Hroot|[Hflag|Hflag]].
  - vm_compute. reflexivity.
  - by apply Hroot.
  - vm_compute in Hflag. discriminate.
  - vm_compute in Hflag. discriminate.
Qed.

(** ** The snippet table *)

Lemma relationshipSnippetHashEqualFn_spec entry exemplar :
  relationshipSnippetHashEqualFn entry exemplar = true <-> entry = exemplar.
Proof.
  unfold relationshipSnippetHashEqualFn. destruct entry, exemplar. simpl.
  rewrite andb_true_iff, !N.eqb_eq. split; [by intros [-> ->]|].
  by intros [= -> ->].
Qed.

Lemma snippetTableFind_None table exemplar :
  snippetTableFind table exemplar = None <-> exemplar ∉ table.
Proof.
  unfold snippetTableFind. induction table as [|entry table IH]; simpl.
  - split; [intros _; apply not_elem_of_nil|done].
  - destruct (relationshipSnippetHashEqualFn entry exemplar) eqn:Heq.
    + apply relationshipSnippetHashEqualFn_spec in Heq as ->.
      split; [done|]. intros Hnotin. exfalso. apply Hnotin. by left.
    + rewrite IH, not_elem_of_cons. split; [|by intros [_ ?]].
      intros Hnotin. split; [|done]. intros ->.
      assert (relationshipSnippetHashEqualFn entry entry = true) as Hrefl
        by by apply relationshipSnippetHashEqualFn_spec.
      congruence.
Qed.

(** One call: what the table is afterwards and what comes back. *)
Lemma recordSnippet_spec h verifyData child parent :
  let exemplar := mkSnippet child parent in
  let result := j9bcv_recordClassRelationshipSnippet h verifyData child parent
      in
  snippetTable result.1.2
  = (if result.2.1 then snippetTable verifyData ++ [exemplar]
     else snippetTable verifyData)
  /\ (result.2.1 = true <->
      (exemplar ∉ snippetTable verifyData) /\ result.2.2 = BCV_SUCCESS)
  /\ (result.2.2 = BCV_SUCCESS ->
      is_Some (classRelationshipSnippetsHashTable result.1.2)
      /\ exemplar ∈ snippetTable result.1.2)
  /\ (result.2.2 <> BCV_SUCCESS ->
      result.2.2 = BCV_ERR_INSUFFICIENT_MEMORY
      /\ ((allocate h).1 = false \/ (allocate (allocate h).2).1 = false))
  /\ (classRelationshipSnippetsHashTable verifyData = None ->
      (allocate h).1 = true ->
      is_Some (classRelationshipSnippetsHashTable result.1.2)).
Proof.
  unfold j9bcv_recordClassRelationshipSnippet, snippetTable. simpl.
  destruct (classRelationshipSnippetsHashTable verifyData) as [table|]
      eqn:Htable;
    simpl.
  - rewrite Htable.
    destruct (snippetTableFind table (mkSnippet child parent)) eqn:Hfind.
    + simpl. rewrite Htable. simpl.
      assert (mkSnippet child parent ∈ table) as Hin.
      { destruct (decide (mkSnippet child parent ∈ table)) as [|Hnotin];
          [done|].
        apply snippetTableFind_None in Hnotin. congruence. }
      repeat split; try done. by intros [? _].
    + apply snippetTableFind_None in Hfind.
      destruct (allocate h) as [[|] h1] eqn:Halloc; simpl.
      * repeat split; try done. apply elem_of_app. right. by left.
      * rewrite Htable. simpl. repeat split; try done.
        -- by intros [_ ?].
        -- by left.
  - destruct (allocate h) as [[|] h1] eqn:Halloc; simpl.
    + destruct (allocate h1) as [[|] h2] eqn:Halloc2; simpl.
      * repeat split; try done; try apply not_elem_of_nil. by left.
      * repeat split; try done.
        -- by intros [_ ?].
        -- by right.
    + rewrite Htable. simpl. repeat split; try done.
      * by intros [_ ?].
      * by left.
Qed.

Lemma recordSnippet_NoDup h verifyData child parent :
  NoDup (snippetTable verifyData) ->
  NoDup (snippetTable
           (j9bcv_recordClassRelationshipSnippet h verifyData child
               parent).1.2).
Proof.
  intros Hnodup.
  destruct (recordSnippet_spec h verifyData child parent)
    as (Htable & Hnew & _).
  simpl in Htable, Hnew. rewrite Htable.
  destruct ((j9bcv_recordClassRelationshipSnippet h verifyData child
      parent).2.1);
    [|done].
  apply NoDup_app. split; [done|]. split; [|apply NoDup_singleton].
  intros x Hin Hx. apply list_elem_of_singleton in Hx as ->.
  by destruct (proj1 Hnew eq_refl).
Qed.

(** After a sequence of calls the table holds the snippets that were
    there and the ones of the calls that succeeded. *)
Lemma recordSnippets_elements calls h verifyData snippet :
  snippet ∈ snippetTable (recordSnippets h verifyData calls).1.2
  <-> snippet ∈ snippetTable verifyData
      \/ snippet ∈ recordedSnippets calls (recordSnippets h verifyData calls).2.
Proof.
  revert h verifyData. induction calls as [|call next IH]; intros h verifyData;
    simpl.
  - rewrite elem_of_nil. tauto.
  - pose proof (recordSnippet_spec h verifyData (childClassNameIndex call)
                  (parentClassNameIndex call)) as (Htable & Hnew & Hok & _).
    simpl in Htable, Hnew, Hok.
    destruct (j9bcv_recordClassRelationshipSnippet h verifyData
                (childClassNameIndex call) (parentClassNameIndex call))
      as [[h1 verifyData1] [recordResult reasonCode]] eqn:Hcall.
    simpl in Htable, Hnew, Hok.
    specialize (IH h1 verifyData1).
    destruct (recordSnippets h1 verifyData1 next) as [[h2 verifyData2] results]
      eqn:Hnext. simpl in IH |- *.
    assert (mkSnippet (childClassNameIndex call) (parentClassNameIndex call)
            = call) as Hcall_eq by by destruct call.
    rewrite Hcall_eq in *. rewrite IH, Htable.
    destruct reasonCode.
    + destruct (Hok eq_refl) as [_ Hin]. rewrite Htable in Hin.
      rewrite elem_of_cons. destruct recordResult.
      * rewrite elem_of_app, list_elem_of_singleton. tauto.
      * split; [tauto|]. intros [?|[->|?]]; tauto.
    + destruct recordResult; [by destruct (proj1 Hnew eq_refl)|]. tauto.
    + destruct recordResult; [by destruct (proj1 Hnew eq_refl)|]. tauto.
Qed.

Lemma recordSnippets_NoDup calls h verifyData :
  NoDup (snippetTable verifyData) ->
  NoDup (snippetTable (recordSnippets h verifyData calls).1.2).
Proof.
  revert h verifyData. induction calls as [|call next IH]; intros h verifyData
    Hnodup; simpl; [done|].
  pose proof (recordSnippet_NoDup h verifyData (childClassNameIndex call)
                (parentClassNameIndex call) Hnodup) as Hstep.
  destruct (j9bcv_recordClassRelationshipSnippet h verifyData
              (childClassNameIndex call) (parentClassNameIndex call))
    as [[h1 verifyData1] result]. simpl in Hstep.
  specialize (IH h1 verifyData1 Hstep).
  by destruct (recordSnippets h1 verifyData1 next) as [[h2 verifyData2]
      results].
Qed.

(** C8: a call of [j9bcv_recordClassRelationshipSnippet] appends the
    pair when the table does not have it and leaves the table as it was
    otherwise; it returns [TRUE] exactly when the pair was not there
    and the call succeeded; a call that succeeds leaves a table (made
    by the first call) that has the pair; a call fails only with
    [BCV_ERR_INSUFFICIENT_MEMORY] and only when one of its at most two
    allocations fails;
    and after any sequence of calls on fresh verification data the
    count of the table is the number of distinct pairs of the calls
    that succeeded. *)
Theorem snippet_recorded_once h verifyData child parent classNames className
    calls :
  (let exemplar := mkSnippet child parent in
   let result := j9bcv_recordClassRelationshipSnippet h verifyData child parent
       in
   snippetTable result.1.2
   = (if result.2.1 then snippetTable verifyData ++ [exemplar]
      else snippetTable verifyData)
   /\ (result.2.1 = true <->
       (exemplar ∉ snippetTable verifyData) /\ result.2.2 = BCV_SUCCESS)
   /\ (result.2.2 = BCV_SUCCESS ->
       is_Some (classRelationshipSnippetsHashTable result.1.2)
       /\ exemplar ∈ snippetTable result.1.2)
   /\ (result.2.2 <> BCV_SUCCESS ->
       result.2.2 = BCV_ERR_INSUFFICIENT_MEMORY
      /\ ((allocate h).1 = false \/ (allocate (allocate h).2).1 = false))
   /\ (classRelationshipSnippetsHashTable verifyData = None ->
       (allocate h).1 = true ->
       is_Some (classRelationshipSnippetsHashTable result.1.2)))
  /\ (let run := recordSnippets h (mkVerifyData classNames className None) calls
      in
      snippetCountOf run.1.2
      = length (remove_dups (recordedSnippets calls run.2))).
Proof.
  split; [apply recordSnippet_spec|].
  simpl. set (fresh := mkVerifyData classNames className None).
  assert (snippetCountOf (recordSnippets h fresh calls).1.2
          = length (snippetTable (recordSnippets h fresh calls).1.2)) as ->.
  { unfold snippetCountOf, snippetTable.
    by destruct (classRelationshipSnippetsHashTable _). }
  apply Permutation_length, NoDup_Permutation.
  - apply recordSnippets_NoDup. constructor.
  - apply NoDup_remove_dups.
  - intros snippet. rewrite recordSnippets_elements, elem_of_remove_dups.
    unfold snippetTable at 1. simpl. rewrite elem_of_nil. tauto.
Qed.

Lemma snippet_recorded_once_witness :
  snippetTable
    (j9bcv_recordClassRelationshipSnippet [] (sampleVerifyData None) 0 1).1.2
  = [mkSnippet 0 1]
  /\ snippetCountOf
       (recordSnippets [true; true; false]
          (sampleVerifyData None)
          [mkSnippet 0 1; mkSnippet 0 2; mkSnippet 0 1; mkSnippet 0 2;
           mkSnippet 1 2]).1.2
     = 3%nat.
Proof.
  split.
  - apply (proj1 (snippet_recorded_once [] (sampleVerifyData None) 0 1
                    sampleNames "Main" [])).
  - apply (proj2 (snippet_recorded_once [true; true; false]
                    (sampleVerifyData None) 0 1 sampleNames "Main"
                    [mkSnippet 0 1; mkSnippet 0 2; mkSnippet 0 1; mkSnippet 0 2;
                     mkSnippet 1 2])).
Defined.

(** ** Processing the snippets *)

Section ProcessingClaims.

Variable vm : J9JavaVM.

Implicit Types (hashClassTableAt : string -> option (J9Class vm)).
Implicit Types (childClass parentClass : J9Class vm).


(** C3: the check of a snippet whose parent is loaded and is an
    interface leaves the memory and the class loader as they are,
    records nothing and reports [BCV_SUCCESS], whatever
    [isSameOrSuperClassOf] says and whether or not the child is
    loaded. *)
Theorem interface_parent_is_accepted hashClassTableAt h cl childClassName
    parentClassName parentClass :
  hashClassTableAt parentClassName = Some parentClass ->
  J9ROMCLASS_IS_INTERFACE parentClass = true ->
  checkSnippetRelationship hashClassTableAt h cl childClassName parentClassName
  = (h, cl, BCV_SUCCESS, []).
Proof.
  intros Hloaded Hinterface. unfold checkSnippetRelationship.
  by rewrite Hloaded, Hinterface.
Qed.

Lemma check_violation hashClassTableAt h cl childClassName parentClassName
    parentClass childClass :
  hashClassTableAt parentClassName = Some parentClass ->
  J9ROMCLASS_IS_INTERFACE parentClass = false ->
  hashClassTableAt childClassName = Some childClass ->
  isSameOrSuperClassOf parentClass childClass = false ->
  checkSnippetRelationship hashClassTableAt h cl childClassName parentClassName
  = (h, cl, BCV_ERR_INTERNAL_ERROR,
     [Trc_RTV_validateClassRelationships_InvalidRelationship parentClassName]).
Proof.
  intros Hparent Hinterface Hchild Hsuper. unfold checkSnippetRelationship.
  by rewrite Hparent, Hinterface, Hchild, Hsuper.
Qed.

Lemma processNames_app hashClassTableAt h cl before after h1 cl1 trace1 :
  processSnippetNames hashClassTableAt h cl before = (h1, cl1, BCV_SUCCESS,
      trace1) ->
  processSnippetNames hashClassTableAt h cl (before ++ after)
  = let '(h2, cl2, reasonCode, trace2) :=
      processSnippetNames hashClassTableAt h1 cl1 after in
    (h2, cl2, reasonCode, trace1 ++ trace2).
Proof.
  revert h cl trace1. induction before as [|[child parent] before IH];
    intros h cl trace1; simpl.
  - intros [= <- <- <-].
    by destruct (processSnippetNames hashClassTableAt h cl after) as [[[? ?] ?]
        ?].
  - destruct (checkSnippetRelationship hashClassTableAt h cl child parent)
      as [[[h0 cl0] reasonCode] trace0].
    destruct reasonCode; [|done..].
    destruct (processSnippetNames hashClassTableAt h0 cl0 before)
      as [[[h' cl'] reasonCode'] trace'] eqn:Hbefore.
    intros [= -> -> -> <-]. rewrite (IH _ _ _ Hbefore).
    destruct (processSnippetNames hashClassTableAt h1 cl1 after) as [[[? ?] ?]
        ?].
    by rewrite app_assoc.
Qed.

Lemma processCached_app hashClassTableAt buffer before :
  forall h cl i remaining h1 cl1 trace1,
    readCachedSnippets buffer i (length before) = Some before ->
    processSnippetNames hashClassTableAt h cl before = (h1, cl1, BCV_SUCCESS,
        trace1) ->
    processCachedSnippets hashClassTableAt h cl buffer i (length before +
        remaining)
    = '(h2, cl2, reasonCode, trace2) ←
        processCachedSnippets hashClassTableAt h1 cl1 buffer
          (i + Z.of_nat (length before)) remaining;
      Some (h2, cl2, reasonCode, trace1 ++ trace2).
Proof.
  induction before as [|[child parent] before IH];
    intros h cl i remaining h1 cl1 trace1; simpl.
  - intros _ [= <- <- <-]. rewrite Z.add_0_r.
    by destruct (processCachedSnippets hashClassTableAt h cl buffer i remaining)
      as [[[[? ?] ?] ?]|].
  - destruct (readCachedSnippet buffer i) as [[child' parent']|]; [|done].
    simpl.
    destruct (readCachedSnippets buffer (i + 1) (length before)) as [rest|]
      eqn:Hrest; [|done].
    simpl. intros [= -> -> ->].
    destruct (checkSnippetRelationship hashClassTableAt h cl child parent)
      as [[[h0 cl0] reasonCode] trace0].
    destruct reasonCode; [|done..].
    destruct (processSnippetNames hashClassTableAt h0 cl0 before)
      as [[[h' cl'] reasonCode'] trace'] eqn:Hbefore.
    intros [= -> -> -> <-]. rewrite (IH _ _ _ remaining _ _ _ Hrest Hbefore).
    replace (i + 1 + Z.of_nat (length before))
      with (i + Z.pos (Pos.of_succ_nat (length before))) by lia.
    destruct (processCachedSnippets hashClassTableAt h1 cl1 buffer _ remaining)
      as [[[[? ?] ?] ?]|]; [|done].
    simpl. by rewrite app_assoc.
Qed.

(** C6: when every snippet before it has been processed without
    failure and a snippet has both classes loaded, a parent that is no
    interface and is not the same as or a superclass of the child, then
    processing stops there with [BCV_ERR_INTERNAL_ERROR], the memory
    and the class loader as the snippets before it left them, and a
    trace that names the parent; what comes after that snippet in the
    table or in the cached buffer has no part in the result. *)
Theorem first_violation_stops_processing hashClassTableAt h cl verifyData
    before snippetEntry after buffer snippetCount cachedBefore childClassName
    parentClassName parentClass childClass h1 cl1 trace1 :
  hashClassTableAt parentClassName = Some parentClass ->
  J9ROMCLASS_IS_INTERFACE parentClass = false ->
  hashClassTableAt childClassName = Some childClass ->
  isSameOrSuperClassOf parentClass childClass = false ->
  (classRelationshipSnippetsHashTable verifyData
   = Some (before ++ snippetEntry :: after) ->
   snippetNames verifyData snippetEntry = (childClassName, parentClassName) ->
   processSnippetNames hashClassTableAt h cl (snippetNames verifyData <$>
       before)
   = (h1, cl1, BCV_SUCCESS, trace1) ->
   j9bcv_processClassRelationshipSnippets hashClassTableAt h cl verifyData None
   = Some (h1, cl1, setSnippetTable verifyData None, BCV_ERR_INTERNAL_ERROR,
           trace1 ++ violationTrace childClassName parentClassName))
  /\ (readSnippetCount buffer = Some snippetCount ->
      Z.of_nat (length cachedBefore) < snippetCount ->
      readCachedSnippets buffer 0 (length cachedBefore) = Some cachedBefore ->
      readCachedSnippet buffer (Z.of_nat (length cachedBefore))
      = Some (childClassName, parentClassName) ->
      processSnippetNames hashClassTableAt h cl cachedBefore
      = (h1, cl1, BCV_SUCCESS, trace1) ->
      j9bcv_processClassRelationshipSnippets hashClassTableAt h cl verifyData
          (Some buffer)
      = Some (h1, cl1, verifyData, BCV_ERR_INTERNAL_ERROR,
              trace1 ++ violationTrace childClassName parentClassName)).
Proof.
  intros Hparent Hinterface Hchild Hsuper.
  pose proof (check_violation hashClassTableAt h1 cl1 _ _ _ _ Hparent Hinterface
                Hchild Hsuper) as Hcheck.
  split.
  - intros Htable Hnames Hbefore.
    unfold j9bcv_processClassRelationshipSnippets,
      processClassRelationshipSnippetsNoCachedData.
    rewrite Htable, fmap_app, fmap_cons, Hnames.
    rewrite (processNames_app _ _ _ _ _ _ _ _ Hbefore). simpl.
    by rewrite Hcheck.
  - intros Hcount Hless Hread Hsnippet Hbefore.
    unfold j9bcv_processClassRelationshipSnippets,
      processClassRelationshipSnippetsUsingCachedData.
    rewrite Hcount. simpl.
    assert (exists remaining,
              Z.to_nat snippetCount = (length cachedBefore + S remaining)%nat)
      as [remaining ->].
    { exists (Z.to_nat snippetCount - length cachedBefore - 1)%nat. lia. }
    rewrite (processCached_app _ _ _ _ _ _ _ _ _ _ Hread Hbefore).
    rewrite Z.add_0_l. cbn [processCachedSnippets]. rewrite Hsnippet. simpl.
    by rewrite Hcheck.
Qed.

End ProcessingClaims.

Lemma interface_parent_is_accepted_witness :
  sampleCheck (sampleLoaded [sampleSerializable]) [false] newClassLoader "App"
    "java/io/Serializable"
  = ([false], newClassLoader, BCV_SUCCESS, []).
Proof.
  apply (interface_parent_is_accepted sampleVM (sampleLoaded
      [sampleSerializable])
           [false] newClassLoader "App" "java/io/Serializable"
           sampleSerializable).
  - vm_compute. reflexivity.
  - vm_compute. reflexivity.
Defined.

(** ** Loads and stores in the data buffer *)

Lemma byteToZ_byteOfZ value : byteToZ (byteOfZ value) = value mod 256.
Proof.
  unfold byteToZ, byteOfZ.
  assert (0 <= value mod 256 < 256) as Hrange by (apply Z.mod_pos_bound; lia).
  destruct (Byte.of_N (Z.to_N (value mod 256))) as [b|] eqn:Hb; simpl.
  - apply Byte.to_of_N in Hb. rewrite Hb. lia.
  - apply Byte.of_N_None_iff in Hb. lia.
Qed.

Lemma byteToZ_range b : 0 <= byteToZ b < 256.
Proof.
  unfold byteToZ. pose proof (Byte.to_N_bounded b). lia.
Qed.

Lemma length_encodeLE width value : length (encodeLE width value) = width.
Proof.
  revert value. induction width as [|width IH]; intros value; simpl; [done|].
  by rewrite IH.
Qed.

Lemma decodeLE_encodeLE width value :
  decodeLE (encodeLE width value) = value mod 256 ^ Z.of_nat width.
Proof.
  revert value. induction width as [|width IH]; intros value.
  - simpl. by rewrite Z.mod_1_r.
  - cbn [encodeLE decodeLE]. rewrite byteToZ_byteOfZ, IH.
    rewrite Nat2Z.inj_succ, Z.pow_succ_r by lia.
    rewrite (Z.mul_comm 256), Z.rem_mul_r by lia. lia.
Qed.

Lemma decodeLE_encodeLE_small width value :
  0 <= value < 256 ^ Z.of_nat width ->
  decodeLE (encodeLE width value) = value.
Proof. intros Hrange. rewrite decodeLE_encodeLE. by apply Z.mod_small. Qed.

Lemma I_32_encoded value :
  - 2 ^ 31 <= value < 2 ^ 31 -> I_32 (decodeLE (encodeLE 4 value)) = value.
Proof.
  intros Hrange. rewrite decodeLE_encodeLE. unfold I_32.
  change (256 ^ Z.of_nat 4) with (2 ^ 32).
  destruct (Z.ltb_spec (value mod 2 ^ 32) (2 ^ 31)) as [Hlow|Hhigh].
  - destruct (Z.lt_ge_cases value 0) as [Hneg|Hpos].
    + rewrite <- (Z.mod_add value 1 (2 ^ 32)) in Hlow by lia.
      rewrite Z.mod_small in Hlow by lia. lia.
    + apply Z.mod_small. lia.
  - destruct (Z.lt_ge_cases value 0) as [Hneg|Hpos].
    + rewrite <- (Z.mod_add value 1 (2 ^ 32)) by lia.
      rewrite Z.mod_small by lia. lia.
    + rewrite Z.mod_small in Hhigh by lia. lia.
Qed.

Lemma storeBytes_Some buffer address data :
  0 <= address ->
  address + Z.of_nat (length data) <= Z.of_nat (length buffer) ->
  storeBytes buffer address data
  = Some (take (Z.to_nat address) buffer ++ data
            ++ drop (Z.to_nat address + length data) buffer).
Proof.
  intros Hlow Hhigh. unfold storeBytes.
  destruct (Z.leb_spec 0 address); [|lia].
  by destruct (Z.leb_spec (address + Z.of_nat (length data))
                 (Z.of_nat (length buffer))); [|lia].
Qed.

Lemma storeBytes_inv buffer address data buffer' :
  storeBytes buffer address data = Some buffer' ->
  0 <= address
  /\ address + Z.of_nat (length data) <= Z.of_nat (length buffer)
  /\ buffer' = take (Z.to_nat address) buffer ++ data
                 ++ drop (Z.to_nat address + length data) buffer.
Proof.
  unfold storeBytes.
  destruct (Z.leb_spec 0 address); [|done].
  destruct (Z.leb_spec (address + Z.of_nat (length data))
              (Z.of_nat (length buffer))); [|done].
  simpl. by intros [= <-].
Qed.

Lemma storeBytes_length buffer address data buffer' :
  storeBytes buffer address data = Some buffer' ->
  length buffer' = length buffer.
Proof.
  intros (Hlow & Hhigh & ->)%storeBytes_inv.
  rewrite !length_app, length_take, length_drop. lia.
Qed.

(** The bytes of the buffer after a store. *)
Lemma storeBytes_lookup buffer address data buffer' (j : nat) :
  storeBytes buffer address data = Some buffer' ->
  buffer' !! j
  = if decide (Z.to_nat address <= j < Z.to_nat address + length data)%nat
    then data !! (j - Z.to_nat address)%nat
    else buffer !! j.
Proof.
  intros (Hlow & Hhigh & ->)%storeBytes_inv.
  assert (length (take (Z.to_nat address) buffer) = Z.to_nat address) as Htake
    by (rewrite length_take; lia).
  case_decide as Hrange.
  - rewrite lookup_app_r by lia. rewrite Htake.
    rewrite lookup_app_l by lia. done.
  - destruct (decide (j < Z.to_nat address)%nat) as [Hbelow|Habove].
    + rewrite lookup_app_l by lia. by rewrite lookup_take_lt.
    + rewrite lookup_app_r by lia. rewrite Htake.
      rewrite lookup_app_r by lia. rewrite lookup_drop. f_equal. lia.
Qed.

Lemma loadBytes_inv buffer address size bytes :
  loadBytes buffer address size = Some bytes ->
  0 <= address
  /\ address + Z.of_nat size <= Z.of_nat (length buffer)
  /\ bytes = take size (drop (Z.to_nat address) buffer).
Proof.
  unfold loadBytes.
  destruct (Z.leb_spec 0 address); [|done].
  destruct (Z.leb_spec (address + Z.of_nat size) (Z.of_nat (length buffer)));
    [|done].
  simpl. by intros [= <-].
Qed.

(** A load sees only the bytes of its range. *)
Lemma loadBytes_ext buffer buffer' address size :
  length buffer' = length buffer ->
  (forall j : nat,
     (Z.to_nat address <= j < Z.to_nat address + size)%nat ->
     buffer' !! j = buffer !! j) ->
  loadBytes buffer' address size = loadBytes buffer address size.
Proof.
  intros Hlength Hsame. unfold loadBytes. rewrite Hlength.
  destruct (_ && _); [|done]. f_equal. apply list_eq. intros i.
  rewrite !lookup_take, !lookup_drop. case_decide; [|done].
  apply Hsame. lia.
Qed.

(** A load inside what a store has just written. *)
Lemma loadBytes_stored buffer address data buffer' offset size :
  storeBytes buffer address data = Some buffer' ->
  (offset + size <= length data)%nat ->
  loadBytes buffer' (address + Z.of_nat offset) size
  = Some (take size (drop offset data)).
Proof.
  intros Hstore Hinside.
  pose proof (storeBytes_length _ _ _ _ Hstore) as Hlength.
  pose proof (storeBytes_inv _ _ _ _ Hstore) as (Hlow & Hhigh & _).
  unfold loadBytes. rewrite Hlength.
  destruct (Z.leb_spec 0 (address + Z.of_nat offset)); [|lia].
  destruct (Z.leb_spec (address + Z.of_nat offset + Z.of_nat size)
              (Z.of_nat (length buffer))); [|lia].
  simpl. f_equal. apply list_eq. intros i.
  rewrite !lookup_take, !lookup_drop. case_decide; [|done].
  rewrite (storeBytes_lookup _ _ _ _ _ Hstore).
  rewrite decide_True by lia. f_equal. lia.
Qed.

(** A load that stays clear of what a store has written. *)
Lemma loadBytes_frame buffer address data buffer' address' size :
  storeBytes buffer address data = Some buffer' ->
  0 <= address' ->
  address' + Z.of_nat size <= address
  \/ address + Z.of_nat (length data) <= address' ->
  loadBytes buffer' address' size = loadBytes buffer address' size.
Proof.
  intros Hstore Hlow Hclear.
  pose proof (storeBytes_inv _ _ _ _ Hstore) as (Hlow' & Hhigh & _).
  apply loadBytes_ext; [by eapply storeBytes_length|].
  intros j Hj. rewrite (storeBytes_lookup _ _ _ _ _ Hstore).
  rewrite decide_False by lia. done.
Qed.

(** ** Class names and self-relative pointers in the buffer *)

Lemma length_list_byte_of_string (s : string) :
  length (String.list_byte_of_string s) = String.length s.
Proof.
  unfold String.list_byte_of_string. rewrite length_map.
  induction s as [|c s IH]; simpl; [done|]. by rewrite IH.
Qed.

Lemma list_byte_of_string_inj (s t : string) :
  String.list_byte_of_string s = String.list_byte_of_string t -> s = t.
Proof.
  intros Heq.
  rewrite <- (String.string_of_list_byte_of_string s),
    <- (String.string_of_list_byte_of_string t).
  by rewrite Heq.
Qed.

Lemma holdsClassName_read buffer lo hi address className :
  holdsClassName buffer lo hi address className ->
  readClassName buffer address = Some className.
Proof.
  intros (_ & _ & Hdata). unfold readClassName. rewrite Hdata. simpl.
  by rewrite String.string_of_list_byte_of_string.
Qed.

Lemma J9UTF8_DATA_inv buffer address data :
  J9UTF8_DATA buffer address = Some data ->
  exists utf8Length,
    loadBytes buffer address 2 = Some (encodeLE 2 utf8Length)
    /\ decodeLE (encodeLE 2 utf8Length) = Z.of_nat (length data)
    /\ loadBytes buffer (address + 2) (length data) = Some data.
Proof.
  unfold J9UTF8_DATA, J9UTF8_LENGTH.
  destruct (loadBytes buffer address 2) as [lengthBytes|] eqn:Hlength; [|done].
  cbn -[encodeLE decodeLE loadBytes]. intros Hdata.
  pose proof (loadBytes_inv _ _ _ _ Hlength) as (Hlow & Hhigh & Hbytes).
  pose proof (loadBytes_inv _ _ _ _ Hdata) as (Hlow' & Hhigh' & Hdata').
  assert (length data = Z.to_nat (decodeLE lengthBytes)) as Hsize.
  { rewrite Hdata', length_take, length_drop. lia. }
  assert (length lengthBytes = 2%nat) as Htwo.
  { rewrite Hbytes, length_take, length_drop. lia. }
  assert (0 <= decodeLE lengthBytes) as Hpos.
  { destruct lengthBytes as [|b0 [|b1 [|]]]; try done. simpl.
    pose proof (byteToZ_range b0). pose proof (byteToZ_range b1). lia. }
  exists (decodeLE lengthBytes).
  assert (encodeLE 2 (decodeLE lengthBytes) = lengthBytes) as Hcode.
  { destruct lengthBytes as [|b0 [|b1 [|]]]; try done. simpl.
    pose proof (byteToZ_range b0) as H0. pose proof (byteToZ_range b1) as H1.
    assert (forall b, byteOfZ (byteToZ b) = b) as Hbyte.
    { intros b. unfold byteOfZ, byteToZ.
      pose proof (Byte.to_N_bounded b).
      rewrite Z.mod_small by lia. rewrite N2Z.id, Byte.of_to_N. done. }
    f_equal.
    - rewrite <- (Hbyte b0) at 2. unfold byteOfZ. do 3 f_equal.
      rewrite Z.add_0_r. rewrite (Z.mul_comm 256), Z.mod_add by lia.
      rewrite (Z.mod_small (byteToZ b0)) by lia. done.
    - f_equal. rewrite <- (Hbyte b1) at 2. f_equal.
      rewrite Z.add_0_r, Z.add_comm, Z.mul_comm, Z.div_add_l by lia.
      rewrite Z.div_small by lia. lia. }
  rewrite Hcode. split; [done|]. split; [lia|]. by rewrite Hsize.
Qed.

Lemma J9UTF8_DATA_intro buffer address utf8Length data :
  loadBytes buffer address 2 = Some (encodeLE 2 utf8Length) ->
  decodeLE (encodeLE 2 utf8Length) = Z.of_nat (length data) ->
  loadBytes buffer (address + 2) (length data) = Some data ->
  J9UTF8_DATA buffer address = Some data.
Proof.
  intros Hlength Hdecode Hdata. unfold J9UTF8_DATA, J9UTF8_LENGTH.
  rewrite Hlength. cbn -[encodeLE decodeLE loadBytes].
  rewrite Hdecode, Nat2Z.id. done.
Qed.

(** The [J9UTF8] of a name stays where it is when the bytes from [lo]
    up to [next] stay. *)
Lemma holdsClassName_sameBytes buffer buffer' srp lo next hi hi' address
    className :
  0 <= lo -> hi <= next -> hi <= hi' ->
  sameBytes buffer buffer' srp lo next ->
  holdsClassName buffer lo hi address className ->
  holdsClassName buffer' lo hi' address className.
Proof.
  intros Hlo Hnext Hhi [Hlength Hsame] (Hlow & Hhigh & Hdata).
  split; [done|]. split; [lia|].
  apply J9UTF8_DATA_inv in Hdata as (utf8Length & Hload & Hdecode & Hbytes).
  rewrite length_list_byte_of_string in *.
  eapply J9UTF8_DATA_intro.
  - rewrite <- Hload. apply loadBytes_ext; [done|].
    intros j Hj. apply Hsame. lia.
  - by rewrite length_list_byte_of_string.
  - rewrite length_list_byte_of_string, <- Hbytes.
    apply loadBytes_ext; [done|]. intros j Hj. apply Hsame. lia.
Qed.

Lemma sameBytes_refl buffer srp lo next : sameBytes buffer buffer srp lo next.
Proof. by split. Qed.

Lemma sameBytes_trans buffer1 buffer2 buffer3 srp lo next srp' next' :
  srp <= srp' -> next <= next' ->
  sameBytes buffer1 buffer2 srp lo next ->
  sameBytes buffer2 buffer3 srp' lo next' ->
  sameBytes buffer1 buffer3 srp lo next.
Proof.
  intros Hsrp Hnext [Hlength1 Hsame1] [Hlength2 Hsame2].
  split; [congruence|]. intros j Hj.
  rewrite Hsame2 by lia. by apply Hsame1.
Qed.

(** A store at or above [next], clear of the snippets, keeps the bytes
    below. *)
Lemma storeBytes_sameBytes buffer address data buffer' srp lo next :
  storeBytes buffer address data = Some buffer' ->
  srp <= address -> next <= address ->
  sameBytes buffer buffer' srp lo next.
Proof.
  intros Hstore Hsrp Hnext.
  split; [by eapply storeBytes_length|].
  intros j Hj. rewrite (storeBytes_lookup _ _ _ _ _ Hstore).
  pose proof (storeBytes_inv _ _ _ _ Hstore) as (Hlow & _).
  rewrite decide_False by lia. done.
Qed.

(** What [setCurrentAndNextUTF8s] writes. *)
Lemma setCurrentAndNextUTF8s_spec verifyData buffer nextUTF8Address
    classNameIndex lo :
  let className := classNameList verifyData classNameIndex in
  let classNameLength := Z.of_nat (String.length className) in
  0 <= lo <= nextUTF8Address ->
  nextUTF8Address + classNameLength + 3 <= Z.of_nat (length buffer) ->
  classNameLength < 2 ^ 16 ->
  exists buffer',
    setCurrentAndNextUTF8s verifyData buffer nextUTF8Address classNameIndex
    = Some (buffer', nextUTF8Address, classNameLength + 1 + 2)
    /\ storeBytes buffer nextUTF8Address
         (encodeLE 2 classNameLength
            ++ String.list_byte_of_string className ++ [Byte.x00])
       = Some buffer'
    /\ holdsClassName buffer' lo (nextUTF8Address + classNameLength + 3)
         nextUTF8Address className.
Proof.
  intros className classNameLength Hlo Hroom Hshort.
  unfold setCurrentAndNextUTF8s. fold className. fold classNameLength.
  set (data := encodeLE 2 classNameLength
                 ++ String.list_byte_of_string className ++ [Byte.x00]).
  assert (length data = (2 + String.length className + 1)%nat) as Hdata.
  { unfold data. rewrite !length_app, length_encodeLE,
      length_list_byte_of_string. simpl. lia. }
  assert (is_Some (storeBytes buffer nextUTF8Address data)) as [buffer' Hstore].
  { rewrite storeBytes_Some; [done|lia|]. rewrite Hdata.
    unfold classNameLength in *. lia. }
  exists buffer'. rewrite Hstore. simpl. split; [done|]. split; [done|].
  split; [lia|]. split; [lia|].
  eapply J9UTF8_DATA_intro.
  - replace nextUTF8Address with (nextUTF8Address + Z.of_nat 0) at 1 by lia.
    rewrite (loadBytes_stored _ _ _ _ 0 2 Hstore) by lia.
    unfold data. simpl. reflexivity.
  - rewrite length_list_byte_of_string. apply decodeLE_encodeLE_small.
    change (256 ^ Z.of_nat 2) with (2 ^ 16). unfold classNameLength in *. lia.
  - rewrite length_list_byte_of_string.
    change 2 with (Z.of_nat 2) at 1.
    rewrite (loadBytes_stored _ _ _ _ 2 (String.length className) Hstore) by
        lia.
    f_equal. unfold data. simpl.
    rewrite drop_0, take_app_length'; [done|].
    symmetry. apply length_list_byte_of_string.
Qed.

(** A self-relative pointer reads back as the address it was set to. *)
Lemma SRP_GET_SET buffer srpAddress value buffer' :
  SRP_PTR_SET buffer srpAddress value = Some buffer' ->
  0 < value - srpAddress < 2 ^ 31 ->
  SRP_GET buffer' srpAddress = Some (Some value).
Proof.
  unfold SRP_PTR_SET, SRP_GET. intros Hstore Hrange.
  replace srpAddress with (srpAddress + Z.of_nat 0) at 1 by lia.
  rewrite (loadBytes_stored _ _ _ _ 0 4 Hstore) by (simpl; lia).
  rewrite drop_0, take_ge by (simpl; lia). cbn -[encodeLE decodeLE I_32].
  rewrite I_32_encoded by lia.
  destruct (Z.eqb_spec (value - srpAddress) 0); [lia|]. do 2 f_equal. lia.
Qed.

Lemma SRP_GET_sameBytes buffer buffer' srp lo next srpAddress :
  0 <= srpAddress -> srpAddress + 4 <= srp ->
  sameBytes buffer buffer' srp lo next ->
  SRP_GET buffer' srpAddress = SRP_GET buffer srpAddress.
Proof.
  intros Hlow Hhigh [Hlength Hsame]. unfold SRP_GET.
  rewrite (loadBytes_ext buffer buffer'); [done|done|].
  intros j Hj. apply Hsame. lia.
Qed.

Lemma snippetStored_sameBytes buffer buffer' srp lo next hi hi' i names :
  0 <= i -> headerSize + snippetSize * i + snippetSize <= srp ->
  0 <= lo -> hi <= next -> hi <= hi' ->
  sameBytes buffer buffer' srp lo next ->
  snippetStored buffer lo hi i names ->
  snippetStored buffer' lo hi' i names.
Proof.
  unfold headerSize, snippetSize, offsetToNextSRP.
  intros Hi Hsrp Hlo Hnext Hhi Hsame
    (childAddress & parentAddress & Hchild & Hparent & HchildName &
        HparentName).
  exists childAddress, parentAddress.
  unfold headerSize, snippetSize, offsetToNextSRP.
  rewrite !(SRP_GET_sameBytes buffer buffer' srp lo next) by (done || lia).
  split; [done|]. split; [done|].
  split; by apply (holdsClassName_sameBytes buffer buffer' srp lo next hi hi').
Qed.

Lemma snippetStored_read buffer lo hi i names :
  snippetStored buffer lo hi i names -> readCachedSnippet buffer i = Some names.
Proof.
  intros (childAddress & parentAddress & Hchild & Hparent & HchildName
          & HparentName).
  unfold readCachedSnippet. rewrite Hchild. simpl. rewrite Hparent. simpl.
  rewrite (holdsClassName_read _ _ _ _ _ HchildName). simpl.
  rewrite (holdsClassName_read _ _ _ _ _ HparentName). simpl.
  by destruct names.
Qed.

(** ** The three ways to look up the address of a name *)

Lemma allocate_failed h ok h1 :
  allocate h = (ok, h1) ->
  (ok = false -> false ∈ h) /\ (false ∈ h1 -> false ∈ h).
Proof.
  destruct h as [|first h]; simpl; intros [= <- <-].
  - split; [done|]. by intros ?%elem_of_nil.
  - split; [intros ->; by left|intros ?; by right].
Qed.

Lemma mappingHolds_mono classNames buffer buffer' srp lo next next' capacity
    lookups lookups' mapping :
  0 <= lo -> next <= next' -> (lookups <= lookups')%nat ->
  sameBytes buffer buffer' srp lo next ->
  mappingHolds classNames buffer lo next capacity lookups mapping ->
  mappingHolds classNames buffer' lo next' capacity lookups' mapping.
Proof.
  intros Hlo Hnext Hlookups Hsame. destruct mapping as [|array|table]; simpl.
  - done.
  - intros (known & Harray & Hlength & Hknown). exists known.
    split; [done|]. split; [lia|]. intros classNameIndex address Hin.
    eapply (holdsClassName_sameBytes buffer buffer' srp lo next next next');
      [done|lia|done|done|]. by apply Hknown.
  - intros Htable utf8 address Hin.
    destruct (Htable utf8 address Hin) as [-> [classNameIndex Hholds]].
    split; [done|]. exists classNameIndex.
    by eapply (holdsClassName_sameBytes buffer buffer' srp lo next next next');
      [done|lia|done|done|].
Qed.

Lemma getUTF8Address_outcome verifyData st classNameIndex lo total capacity
    lookups :
  0 <= lo <= nextUTF8Address st ->
  nextUTF8Address st
  + Z.of_nat (String.length (classNameList verifyData classNameIndex)) + 3
  <= Z.of_nat (length (storeBuffer st)) ->
  Z.of_nat (String.length (classNameList verifyData classNameIndex)) < 2 ^ 16 ->
  lookupOutcome verifyData lo total capacity lookups st classNameIndex
    (lookupUTF8Address verifyData st J9RELATIONSHIP_SNIPPET_SINGLE total
       classNameIndex).
Proof.
  intros Hlo Hroom Hshort. simpl. unfold getUTF8Address.
  destruct (setCurrentAndNextUTF8s_spec verifyData (storeBuffer st)
              (nextUTF8Address st) classNameIndex lo Hlo Hroom Hshort)
    as (buffer' & -> & Hstore & Hholds).
  simpl. split; [|done]. unfold lookupDone. simpl.
  split; [lia|]. split; [by eapply storeBytes_sameBytes; [done|lia..]|].
  split; [|done].
  replace (nextUTF8Address st
           + (Z.of_nat (String.length (classNameList verifyData classNameIndex))
              + 1 + 2))
    with (nextUTF8Address st
          + Z.of_nat (String.length (classNameList verifyData classNameIndex)) +
              3)
    by lia.
  done.
Qed.

Lemma scanClassNamesArray_known (known : list (N * Z)) capacity classNameIndex :
  (length known < capacity)%nat ->
  forall remaining i,
    (i <= length known)%nat -> (length known < i + remaining)%nat ->
    (exists j address,
       scanClassNamesArray
         ((Some <$> known) ++ replicate (capacity - length known) None)
         remaining i classNameIndex = Some (j, Some address)
       /\ (classNameIndex, address) ∈ known)
    \/ scanClassNamesArray
         ((Some <$> known) ++ replicate (capacity - length known) None)
         remaining i classNameIndex = Some (length known, None).
Proof.
  intros Hcapacity. induction remaining as [|remaining IH]; intros i Hi Hfuel;
    [lia|].
  simpl. destruct (decide (i < length known)%nat) as [Hin|Hend].
  - rewrite lookup_app_l by (rewrite length_fmap; lia).
    rewrite list_lookup_fmap.
    destruct (known !! i) as [[index address]|] eqn:Hentry;
      [|apply lookup_ge_None in Hentry; lia].
    simpl. destruct (N.eqb_spec classNameIndex index) as [->|Hne].
    + left. exists i, address. split; [done|].
      by eapply list_elem_of_lookup_2.
    + apply IH; lia.
  - assert (i = length known) as -> by lia.
    rewrite lookup_app_r by (rewrite length_fmap; lia).
    rewrite length_fmap, Nat.sub_diag.
    rewrite lookup_replicate_2 by lia. by right.
Qed.

Lemma insert_known (known : list (N * Z)) capacity entry :
  (length known < capacity)%nat ->
  <[length known := Some entry]>
    ((Some <$> known) ++ replicate (capacity - length known) None)
  = (Some <$> (known ++ [entry]))
      ++ replicate (capacity - length (known ++ [entry])) None.
Proof.
  intros Hcapacity.
  rewrite insert_app_r_alt by (rewrite length_fmap; lia).
  rewrite length_fmap, Nat.sub_diag, fmap_app, <- app_assoc. f_equal.
  rewrite length_app. simpl.
  replace (capacity - length known)%nat
    with (S (capacity - (length known + 1)))%nat by lia.
  reflexivity.
Qed.

Lemma getUTF8AddressFromArray_outcome verifyData st classNamesArray
    classNameIndex lo total capacity lookups :
  0 <= lo <= nextUTF8Address st ->
  nextUTF8Address st
  + Z.of_nat (String.length (classNameList verifyData classNameIndex)) + 3
  <= Z.of_nat (length (storeBuffer st)) ->
  Z.of_nat (String.length (classNameList verifyData classNameIndex)) < 2 ^ 16 ->
  (lookups < total)%nat -> (total <= capacity)%nat ->
  mappingHolds (classNameList verifyData) (storeBuffer st) lo
    (nextUTF8Address st) capacity lookups
    (J9RELATIONSHIP_SNIPPET_USE_ARRAY classNamesArray) ->
  lookupOutcome verifyData lo total capacity lookups st classNameIndex
    (lookupUTF8Address verifyData st
       (J9RELATIONSHIP_SNIPPET_USE_ARRAY classNamesArray) total classNameIndex).
Proof.
  intros Hlo Hroom Hshort Hlookups Htotal (known & -> & Hlength & Hknown).
  simpl. unfold getUTF8AddressFromArray.
  destruct (scanClassNamesArray_known known capacity classNameIndex
              ltac:(lia) total O ltac:(lia) ltac:(lia))
    as [(j & address & -> & Hin)| ->]; simpl.
  - split; [|done]. unfold lookupDone.
    split; [lia|]. split; [apply sameBytes_refl|].
    split; [by apply Hknown|]. split; [|done].
    exists known. split; [done|]. split; [lia|done].
  - destruct (allocate (storeHeap st)) as [[|] h1] eqn:Halloc.
    2:{ simpl. by apply (proj1 (allocate_failed _ _ _ Halloc)). }
    destruct (setCurrentAndNextUTF8s_spec verifyData (storeBuffer st)
                (nextUTF8Address st) classNameIndex lo Hlo Hroom Hshort)
      as (buffer' & -> & Hstore & Hholds).
    simpl. rewrite length_app, length_fmap, length_replicate.
    destruct (Nat.ltb_spec (length known)
                (length known + (capacity - length known))); [|lia].
    simpl. split; [|done]. unfold lookupDone. simpl.
    assert (sameBytes (storeBuffer st) buffer' (nextUTF8Address st) lo
              (nextUTF8Address st)) as Hsame
      by (eapply storeBytes_sameBytes; [done|lia..]).
    replace (nextUTF8Address st
             + (Z.of_nat (String.length (classNameList verifyData
                 classNameIndex))
                + 1 + 2))
      with (nextUTF8Address st
            + Z.of_nat (String.length (classNameList verifyData classNameIndex))
            + 3) by lia.
    split; [lia|]. split; [done|]. split; [done|].
    split; [|by apply (proj2 (allocate_failed _ _ _ Halloc))].
    exists (known ++ [(classNameIndex, nextUTF8Address st)]).
    split; [by apply insert_known; lia|].
    split; [rewrite length_app; simpl; lia|].
    intros index address [Hin|Hnew%list_elem_of_singleton]%elem_of_app.
    + eapply (holdsClassName_sameBytes (storeBuffer st) buffer'
                (nextUTF8Address st) lo (nextUTF8Address st)
                (nextUTF8Address st)); [lia|lia|lia|done|]. by apply Hknown.
    + by injection Hnew as -> ->.
Qed.

Lemma relationshipClassNameHashEqualFn_holds buffer lo hi lo' hi' left right
    leftName rightName :
  holdsClassName buffer lo hi left leftName ->
  holdsClassName buffer lo' hi' right rightName ->
  relationshipClassNameHashEqualFn buffer left right = true ->
  leftName = rightName.
Proof.
  intros (_ & _ & Hleft) (_ & _ & Hright). unfold
      relationshipClassNameHashEqualFn.
  rewrite Hleft, Hright. intros Heq%bool_decide_eq_true.
  by apply list_byte_of_string_inj.
Qed.

Lemma getUTF8AddressFromHashTable_outcome verifyData st classNamesHashTable
    classNameIndex lo total capacity lookups :
  0 <= lo <= nextUTF8Address st ->
  nextUTF8Address st
  + Z.of_nat (String.length (classNameList verifyData classNameIndex)) + 3
  <= Z.of_nat (length (storeBuffer st)) ->
  Z.of_nat (String.length (classNameList verifyData classNameIndex)) < 2 ^ 16 ->
  mappingHolds (classNameList verifyData) (storeBuffer st) lo
    (nextUTF8Address st) capacity lookups
    (J9RELATIONSHIP_SNIPPET_USE_HASHTABLE classNamesHashTable) ->
  lookupOutcome verifyData lo total capacity lookups st classNameIndex
    (lookupUTF8Address verifyData st
       (J9RELATIONSHIP_SNIPPET_USE_HASHTABLE classNamesHashTable) total
       classNameIndex).
Proof.
  intros Hlo Hroom Hshort Htable.
  simpl. unfold getUTF8AddressFromHashTable.
  destruct (setCurrentAndNextUTF8s_spec verifyData (storeBuffer st)
              (nextUTF8Address st) classNameIndex lo Hlo Hroom Hshort)
    as (buffer' & -> & Hstore & Hholds).
  cbn [mbind option_bind].
  set (className := classNameList verifyData classNameIndex) in *.
  set (size := Z.of_nat (String.length className) + 1 + 2).
  assert (sameBytes (storeBuffer st) buffer' (nextUTF8Address st) lo
            (nextUTF8Address st)) as Hsame
    by (eapply storeBytes_sameBytes; [done|lia..]).
  pose proof (storeBytes_length _ _ _ _ Hstore) as Hlength.
  destruct (List.find _ classNamesHashTable) as [[utf8 address]|] eqn:Hfind.
  - apply List.find_some in Hfind as [Hin Hequal]. simpl in Hequal.
    apply list_elem_of_In in Hin.
    destruct (Htable utf8 address Hin) as [-> [index Hentry]].
    assert (holdsClassName buffer' lo (nextUTF8Address st) address
              (classNameList verifyData index)) as Hentry'.
    { eapply (holdsClassName_sameBytes (storeBuffer st) buffer'
                (nextUTF8Address st) lo (nextUTF8Address st)
                (nextUTF8Address st)); [lia|lia|lia|done|done]. }
    pose proof (relationshipClassNameHashEqualFn_holds _ _ _ _ _ _ _ _ _
                  Hentry' Hholds Hequal) as Hname.
    assert (is_Some (storeBytes buffer' (nextUTF8Address st)
                       (replicate (Z.to_nat size) Byte.x00)))
      as [buffer'' Hclear].
    { rewrite storeBytes_Some; [done|lia|].
      rewrite length_replicate, Hlength. unfold size. lia. }
    rewrite Hclear. simpl. split; [|done]. unfold lookupDone. simpl.
    assert (sameBytes buffer' buffer'' (nextUTF8Address st) lo
              (nextUTF8Address st)) as Hsame'
      by (eapply storeBytes_sameBytes; [done|lia..]).
    assert (sameBytes (storeBuffer st) buffer'' (nextUTF8Address st) lo
              (nextUTF8Address st)) as Hboth
      by (eapply sameBytes_trans; [| |exact Hsame|exact Hsame']; lia).
    split; [lia|]. split; [done|]. split.
    + fold className. rewrite <- Hname.
      eapply (holdsClassName_sameBytes (storeBuffer st) buffer''
                (nextUTF8Address st) lo (nextUTF8Address st)
                (nextUTF8Address st)); [lia|lia|lia|done|done].
    + split; [|done].
      eapply (mappingHolds_mono _ (storeBuffer st) buffer'' (nextUTF8Address st)
                lo (nextUTF8Address st) (nextUTF8Address st) capacity lookups
                (S lookups) (J9RELATIONSHIP_SNIPPET_USE_HASHTABLE _));
        [lia|lia|lia|done|done].
  - destruct (allocate (storeHeap st)) as [[|] h1] eqn:Halloc.
    2:{ simpl. by apply (proj1 (allocate_failed _ _ _ Halloc)). }
    simpl. split; [|done]. unfold lookupDone. simpl. fold className.
    replace (nextUTF8Address st + size)
      with (nextUTF8Address st + Z.of_nat (String.length className) + 3)
      by (unfold size; lia).
    split; [lia|]. split; [done|]. split; [done|].
    split; [|by apply (proj2 (allocate_failed _ _ _ Halloc))].
    intros utf8 address [Hin|Hnew%list_elem_of_singleton]%elem_of_app.
    + destruct (Htable utf8 address Hin) as [-> [index Hentry]].
      split; [done|]. exists index.
      eapply (holdsClassName_sameBytes (storeBuffer st) buffer'
                (nextUTF8Address st) lo (nextUTF8Address st)
                (nextUTF8Address st)); [lia|lia|lia|done|done].
    + injection Hnew as -> ->. split; [done|]. by exists classNameIndex.
Qed.

(** Whatever the way, a lookup gives the address of a [J9UTF8] of the
    name and keeps what is below [nextUTF8Address], or an allocation
    has failed. *)
Lemma lookupUTF8Address_outcome verifyData st mapping classNameIndex lo total
    capacity lookups :
  0 <= lo <= nextUTF8Address st ->
  nextUTF8Address st
  + Z.of_nat (String.length (classNameList verifyData classNameIndex)) + 3
  <= Z.of_nat (length (storeBuffer st)) ->
  Z.of_nat (String.length (classNameList verifyData classNameIndex)) < 2 ^ 16 ->
  (lookups < total)%nat -> mappingRoom mapping total capacity ->
  mappingHolds (classNameList verifyData) (storeBuffer st) lo
    (nextUTF8Address st) capacity lookups mapping ->
  lookupOutcome verifyData lo total capacity lookups st classNameIndex
    (lookupUTF8Address verifyData st mapping total classNameIndex).
Proof.
  intros Hlo Hroom Hshort Hlookups Hcapacity Hmapping.
  destruct mapping as [|classNamesArray|classNamesHashTable].
  - by apply getUTF8Address_outcome.
  - by apply getUTF8AddressFromArray_outcome.
  - by apply getUTF8AddressFromHashTable_outcome.
Qed.

(** ** The loop of [storeToDataBuffer] *)

Lemma namesSize_nonneg verifyData snippetEntries :
  0 <= namesSize verifyData snippetEntries.
Proof. induction snippetEntries; simpl; lia. Qed.

Lemma sameBytes_weaken buffer buffer' srp srp' lo next next' :
  srp <= srp' -> next <= next' ->
  sameBytes buffer buffer' srp' lo next' ->
  sameBytes buffer buffer' srp lo next.
Proof.
  intros Hsrp Hnext [Hlength Hsame]. split; [done|].
  intros j Hj. apply Hsame. lia.
Qed.

Lemma sameBytes_below buffer buffer' srp lo next next' :
  srp <= next' -> next <= next' ->
  sameBytes buffer buffer' next' lo next' ->
  sameBytes buffer buffer' srp lo next.
Proof. intros Hsrp Hnext. by apply sameBytes_weaken. Qed.

(** A store among the snippets keeps the names and the snippets before
    it. *)
Lemma storeBytes_sameBytes_snippet buffer address data buffer' srp lo next :
  storeBytes buffer address data = Some buffer' ->
  srp <= address -> address + Z.of_nat (length data) <= lo ->
  sameBytes buffer buffer' srp lo next.
Proof.
  intros Hstore Hsrp Hlo.
  split; [by eapply storeBytes_length|].
  intros j Hj. rewrite (storeBytes_lookup _ _ _ _ _ Hstore).
  pose proof (storeBytes_inv _ _ _ _ Hstore) as (Hlow & _).
  rewrite decide_False by lia. done.
Qed.

Lemma SRP_PTR_SET_Some buffer srpAddress value :
  0 <= srpAddress -> srpAddress + 4 <= Z.of_nat (length buffer) ->
  exists buffer',
    SRP_PTR_SET buffer srpAddress value = Some buffer'
    /\ storeBytes buffer srpAddress (encodeLE 4 (value - srpAddress))
       = Some buffer'.
Proof.
  intros Hlow Hhigh. unfold SRP_PTR_SET.
  rewrite storeBytes_Some by (rewrite ?length_encodeLE; lia). eauto.
Qed.

(** One pass of the loop after both lookups: the two pointers of the
    snippet are set and read back as the addresses of the names. *)
Lemma snippet_pointers_stored buffer lo next srpAddress childAddress
    parentAddress names :
  0 <= srpAddress -> srpAddress + 8 <= lo -> lo <= next ->
  next <= Z.of_nat (length buffer) -> Z.of_nat (length buffer) < 2 ^ 31 ->
  holdsClassName buffer lo next childAddress names.1 ->
  holdsClassName buffer lo next parentAddress names.2 ->
  exists buffer3 buffer4,
    SRP_PTR_SET buffer srpAddress childAddress = Some buffer3
    /\ SRP_PTR_SET buffer3 (srpAddress + offsetToNextSRP) parentAddress
       = Some buffer4
    /\ sameBytes buffer buffer4 srpAddress lo next
    /\ SRP_GET buffer4 srpAddress = Some (Some childAddress)
    /\ SRP_GET buffer4 (srpAddress + offsetToNextSRP) = Some (Some
        parentAddress)
    /\ holdsClassName buffer4 lo next childAddress names.1
    /\ holdsClassName buffer4 lo next parentAddress names.2.
Proof.
  unfold offsetToNextSRP.
  intros Hsrp Hlo Hnext Hlength Hsmall Hchild Hparent.
  destruct (SRP_PTR_SET_Some buffer srpAddress childAddress)
    as (buffer3 & Hset3 & Hstore3); [lia..|].
  pose proof (storeBytes_length _ _ _ _ Hstore3) as Hlength3.
  destruct (SRP_PTR_SET_Some buffer3 (srpAddress + 4) parentAddress)
    as (buffer4 & Hset4 & Hstore4); [lia..|].
  assert (sameBytes buffer buffer3 srpAddress lo next) as Hsame3.
  { eapply storeBytes_sameBytes_snippet; [done|lia|].
    rewrite length_encodeLE. lia. }
  assert (sameBytes buffer3 buffer4 (srpAddress + 4) lo next) as Hsame4.
  { eapply storeBytes_sameBytes_snippet; [done|lia|].
    rewrite length_encodeLE. lia. }
  assert (sameBytes buffer buffer4 srpAddress lo next) as Hsame.
  { eapply sameBytes_trans; [| |exact Hsame3|exact Hsame4]; lia. }
  exists buffer3, buffer4. split; [done|]. split; [done|]. split; [done|].
  pose proof Hchild as (HchildLow & HchildHigh & _).
  pose proof Hparent as (HparentLow & HparentHigh & _).
  split; [|split; [|split]].
  - rewrite (SRP_GET_sameBytes buffer3 buffer4 (srpAddress + 4) lo next)
      by (done || lia).
    apply (SRP_GET_SET buffer); [done|lia].
  - apply (SRP_GET_SET buffer3); [done|lia].
  - by apply (holdsClassName_sameBytes buffer buffer4 srpAddress lo next next
                next); [lia|lia|lia|done|].
  - by apply (holdsClassName_sameBytes buffer buffer4 srpAddress lo next next
                next); [lia|lia|lia|done|].
Qed.

Lemma storeSnippetEntries_outcome verifyData total capacity lo :
  forall snippetEntries st mapping (stored : nat) srpAddress,
    srpAddress = headerSize + snippetSize * Z.of_nat stored ->
    srpAddress + snippetSize * Z.of_nat (length snippetEntries) <= lo ->
    lo <= nextUTF8Address st ->
    nextUTF8Address st + namesSize verifyData snippetEntries
    <= Z.of_nat (length (storeBuffer st)) ->
    Z.of_nat (length (storeBuffer st)) < 2 ^ 31 ->
    namesShorter verifyData (2 ^ 16) snippetEntries ->
    (2 * (stored + length snippetEntries) <= total)%nat ->
    mappingRoom mapping total capacity ->
    mappingHolds (classNameList verifyData) (storeBuffer st) lo
      (nextUTF8Address st) capacity (2 * stored) mapping ->
    storeOutcome verifyData lo srpAddress stored snippetEntries st
      (storeSnippetEntries verifyData total snippetEntries st mapping
          srpAddress).
Proof.
  unfold headerSize, snippetSize.
  induction snippetEntries as [|snippetEntry next IH];
    intros st mapping stored srpAddress Hsrp Hlo Hnext Hroom Hsmall Hshort
        Htotal
      Hcapacity Hmapping.
  { simpl. split; [apply sameBytes_refl|]. split; [lia|]. split; [|done].
    intros i entry Hentry. by rewrite lookup_nil in Hentry. }
  cbn [storeSnippetEntries length namesSize] in *.
  pose proof (namesSize_nonneg verifyData next) as Hrest.
  destruct (Hshort snippetEntry ltac:(by left)) as [HchildShort HparentShort].
  set (childName := classNameList verifyData (childClassNameIndex snippetEntry))
    in *.
  set (parentName := classNameList verifyData (parentClassNameIndex
      snippetEntry))
    in *.
  (* the child *)
  pose proof (lookupUTF8Address_outcome verifyData st mapping
                (childClassNameIndex snippetEntry) lo total capacity (2 *
                    stored)
                ltac:(lia) ltac:(fold childName; lia) HchildShort ltac:(lia)
                Hcapacity Hmapping) as Hchild.
  destruct (lookupUTF8Address verifyData st mapping total
              (childClassNameIndex snippetEntry))
    as [[[st1 mapping1] [childAddress|]]|]; simpl in Hchild |- *; [|done..].
  destruct Hchild as [(Hnext1 & Hsame1 & HchildHolds & Hmapping1 & Hheap1)
                        Hcapacity1].
  fold childName in Hnext1, HchildHolds.
  pose proof (proj1 Hsame1) as Hlength1.
  (* the parent *)
  pose proof (lookupUTF8Address_outcome verifyData st1 mapping1
                (parentClassNameIndex snippetEntry) lo total capacity
                (S (2 * stored)) ltac:(lia) ltac:(fold parentName; lia)
                HparentShort ltac:(lia) Hcapacity1 Hmapping1) as Hparent.
  destruct (lookupUTF8Address verifyData st1 mapping1 total
              (parentClassNameIndex snippetEntry))
    as [[[st2 mapping2] [parentAddress|]]|]; simpl in Hparent |- *;
    [|by apply Hheap1..].
  destruct Hparent as [(Hnext2 & Hsame2 & HparentHolds & Hmapping2 & Hheap2)
                         Hcapacity2].
  fold parentName in Hnext2, HparentHolds.
  pose proof (proj1 Hsame2) as Hlength2.
  assert (holdsClassName (storeBuffer st2) lo (nextUTF8Address st2) childAddress
            childName) as HchildHolds2.
  { by apply (holdsClassName_sameBytes (storeBuffer st1) (storeBuffer st2)
                (nextUTF8Address st1) lo (nextUTF8Address st1)
                (nextUTF8Address st1)); [lia|lia|lia|done|]. }
  (* the two pointers *)
  destruct (snippet_pointers_stored (storeBuffer st2) lo (nextUTF8Address st2)
              srpAddress childAddress parentAddress (childName, parentName))
    as (buffer3 & buffer4 & -> & Hset4 & Hsame4 & HgetChild & HgetParent
        & HchildHolds4 & HparentHolds4); [lia..|done|done|].
  cbn [mbind option_bind]. rewrite Hset4. cbn [mbind option_bind].
  pose proof (proj1 Hsame4) as Hlength4.
  (* the snippets that are left *)
  specialize (IH (mkStoreState (storeHeap st2) buffer4 (nextUTF8Address st2))
                mapping2 (S stored)
                (srpAddress + offsetToNextSRP + offsetToNextSRP)).
  cbn [storeHeap storeBuffer nextUTF8Address] in IH.
  unfold offsetToNextSRP in *.
  assert (mappingHolds (classNameList verifyData) buffer4 lo
            (nextUTF8Address st2) capacity (2 * S stored) mapping2) as
                Hmapping4.
  { apply (mappingHolds_mono _ (storeBuffer st2) buffer4 srpAddress lo
             (nextUTF8Address st2) (nextUTF8Address st2) capacity
             (S (S (2 * stored)))); [lia|lia|lia|done|done]. }
  specialize (IH ltac:(lia) ltac:(lia) ltac:(lia) ltac:(lia) ltac:(lia)
                ltac:(intros entry Hin; apply Hshort; by right) ltac:(lia)
                Hcapacity2 Hmapping4).
  destruct (storeSnippetEntries verifyData total next _ mapping2 _)
    as [[st' [| |]]|]; simpl in IH |- *.
  - destruct IH as (Hsame' & Hnext' & Hstored & Hheap').
    cbn [storeHeap storeBuffer nextUTF8Address] in *.
    assert (sameBytes (storeBuffer st) (storeBuffer st2) srpAddress lo
              (nextUTF8Address st)) as Hsame02.
    { eapply sameBytes_trans;
        [| |apply (sameBytes_below _ _ srpAddress lo (nextUTF8Address st)
                     (nextUTF8Address st)); [| |exact Hsame1]
         |apply (sameBytes_below _ _ srpAddress lo (nextUTF8Address st)
                   (nextUTF8Address st1)); [| |exact Hsame2]]; lia. }
    assert (sameBytes (storeBuffer st) buffer4 srpAddress lo
              (nextUTF8Address st)) as Hsame04.
    { eapply sameBytes_trans;
        [| |exact Hsame02
         |apply (sameBytes_weaken _ _ srpAddress srpAddress lo
                   (nextUTF8Address st) (nextUTF8Address st2));
          [| |exact Hsame4]]; lia. }
    split.
    { eapply sameBytes_trans;
        [| |exact Hsame04
         |apply (sameBytes_weaken _ _ srpAddress (srpAddress + 4 + 4) lo
                   (nextUTF8Address st) (nextUTF8Address st2));
          [| |exact Hsame']]; lia. }
    split; [lia|]. split; [|by auto].
    intros [|i] entry Hentry.
    + injection Hentry as <-.
      apply (snippetStored_sameBytes buffer4 (storeBuffer st')
               (srpAddress + 4 + 4) lo (nextUTF8Address st2)
               (nextUTF8Address st2)); [lia|unfold headerSize, snippetSize; lia
                                        |lia|lia|lia|done|].
      exists childAddress, parentAddress.
      unfold headerSize, snippetSize, offsetToNextSRP.
      replace (8 + 8 * Z.of_nat (stored + 0)) with srpAddress by lia.
      done.
    + replace (stored + S i)%nat with (S stored + i)%nat by lia.
      by apply Hstored.
  - done.
  - by auto.
  - by auto.
Qed.

(** ** The buffer reads back as the snippets *)

Lemma getTotalUTF8Size_namesSize verifyData snippetEntries size :
  namesShorter verifyData 65535 snippetEntries ->
  0 <= size -> size + namesSize verifyData snippetEntries < 2 ^ 64 ->
  getTotalUTF8Size verifyData snippetEntries size
  = size + namesSize verifyData snippetEntries.
Proof.
  revert size. induction snippetEntries as [|snippetEntry next IH];
    intros size Hshort Hsize Hsmall; simpl in *; [lia|].
  pose proof (namesSize_nonneg verifyData next) as Hrest.
  destruct (Hshort snippetEntry ltac:(by left)) as [Hchild Hparent].
  unfold U_16, UDATA.
  rewrite !(Z.mod_small (Z.of_nat _) (2 ^ 16)) by lia.
  rewrite !(Z.mod_small (Z.of_nat _ + 1) (2 ^ 16)) by lia.
  rewrite (Z.mod_small _ (2 ^ 64)) by lia.
  rewrite IH; [lia| |lia|lia].
  intros entry Hin. apply Hshort. by right.
Qed.

Lemma readCachedSnippets_stored verifyData buffer lo hi snippetEntries :
  forall stored : nat,
    (forall (i : nat) snippetEntry,
       snippetEntries !! i = Some snippetEntry ->
       snippetStored buffer lo hi (Z.of_nat (stored + i))
         (snippetNames verifyData snippetEntry)) ->
    readCachedSnippets buffer (Z.of_nat stored) (length snippetEntries)
    = Some (snippetNames verifyData <$> snippetEntries).
Proof.
  induction snippetEntries as [|snippetEntry next IH]; intros stored Hstored;
    [done|].
  cbn [readCachedSnippets length].
  pose proof (Hstored O snippetEntry eq_refl) as Hfirst.
  rewrite Nat.add_0_r in Hfirst.
  rewrite (snippetStored_read _ _ _ _ _ Hfirst). cbn [mbind option_bind].
  replace (Z.of_nat stored + 1) with (Z.of_nat (S stored)) by lia.
  rewrite IH; [done|]. intros i entry Hentry.
  replace (S stored + i)%nat with (stored + S i)%nat by lia. by apply Hstored.
Qed.

(** The buffer that is filled for a table of snippets whose names are
    shorter than 65535 bytes, when it stays below 2^31 bytes, reads
    back as the pairs of names of the snippets in the order of the
    table, whichever of the three name mappings the count selects;
    and it is filled unless an allocation fails. *)
Theorem serialized_snippets_read_back threshold verifyData h snippetEntries :
  namesShorter verifyData 65535 snippetEntries ->
  dataBufferSizeOf verifyData snippetEntries < 2 ^ 31 ->
  serializeOutcome verifyData snippetEntries h
    (fillDataBuffer threshold verifyData h snippetEntries).
Proof.
  unfold dataBufferSizeOf, headerSize, snippetSize. intros Hshort Hsmall.
  pose proof (namesSize_nonneg verifyData snippetEntries) as Hnames.
  unfold fillDataBuffer, headerSize, snippetSize.
  set (count := length snippetEntries) in *.
  rewrite getTotalUTF8Size_namesSize by (done || lia).
  unfold UDATA. rewrite (Z.mod_small (Z.of_nat count * 8)) by lia.
  rewrite Z.add_0_l.
  rewrite (Z.mod_small (8 + Z.of_nat count * 8 + _)) by lia.
  set (size := 8 + Z.of_nat count * 8 + namesSize verifyData snippetEntries).
  destruct (allocate h) as [[|] h1] eqn:Hbuffer.
  2:{ simpl. by apply (proj1 (allocate_failed _ _ _ Hbuffer)). }
  pose proof (proj2 (allocate_failed _ _ _ Hbuffer)) as Hheap1.
  assert (is_Some (storeBytes (replicate (Z.to_nat size) Byte.x00) 0
                     (encodeLE 8 (Z.of_nat count)))) as [dataBuffer1 Hheader].
  { rewrite storeBytes_Some; [done|lia|].
    rewrite length_encodeLE, length_replicate. lia. }
  rewrite Hheader. cbn [mbind option_bind].
  pose proof (storeBytes_length _ _ _ _ Hheader) as Hlength1.
  rewrite length_replicate in Hlength1.
  unfold storeToDataBuffer.
  (* the name mapping that the count selects *)
  set (selected := if negb (count =? 1)%nat then _ else _).
  assert (match selected with
          | (h2, Some mapping) =>
              (false ∈ h2 -> false ∈ h1)
              /\ mappingRoom mapping (count * 2) (threshold * 2)
              /\ mappingHolds (classNameList verifyData) dataBuffer1
                   (8 + Z.of_nat count * 8) (8 + Z.of_nat count * 8)
                   (threshold * 2) (2 * 0) mapping
          | (h2, None) => false ∈ h1
          end) as Hselected.
  { unfold selected. destruct (count =? 1)%nat; simpl; [done|].
    destruct (Nat.ltb_spec threshold count).
    - destruct (allocate h1) as [[|] h2] eqn:Htable.
      + split; [apply (proj2 (allocate_failed _ _ _ Htable))|].
        split; [done|]. intros utf8 address Hin. by apply elem_of_nil in Hin.
      + by apply (proj1 (allocate_failed _ _ _ Htable)).
    - split; [done|]. split; [simpl; lia|].
      exists []. split; [by rewrite Nat.sub_0_r|]. split; [simpl; lia|].
      intros index address Hin. by apply elem_of_nil in Hin. }
  destruct selected as [h2 [mapping|]]; [|simpl; by auto].
  destruct Hselected as (Hheap2 & Hcapacity & Hmapping).
  pose proof (storeSnippetEntries_outcome verifyData (count * 2) (threshold * 2)
                (8 + Z.of_nat count * 8) snippetEntries
                (mkStoreState h2 dataBuffer1 (8 + Z.of_nat count * 8)) mapping
                0 8) as Hloop.
  cbn [storeHeap storeBuffer nextUTF8Address] in Hloop.
  unfold headerSize, snippetSize in Hloop. fold count in Hloop.
  specialize (Hloop ltac:(lia) ltac:(lia) ltac:(lia) ltac:(lia) ltac:(lia)).
  specialize (Hloop ltac:(intros entry Hin;
                          destruct (Hshort entry Hin); split; lia)
                ltac:(lia) Hcapacity Hmapping).
  destruct (storeSnippetEntries _ _ _ _ _ _) as [[st' [| |]]|];
    simpl in Hloop |- *; [|done|by auto|by auto].
  destruct Hloop as (Hsame & Hnext & Hstored & Hheap').
  split; [|by auto].
  unfold deserialize, readSnippetCount.
  assert (loadBytes (storeBuffer st') 0 8
          = Some (encodeLE 8 (Z.of_nat count))) as ->.
  { rewrite (loadBytes_ext dataBuffer1 (storeBuffer st'));
      [|apply Hsame|intros j Hj; apply Hsame; lia].
    change 0 with (0 + Z.of_nat 0) at 1.
    rewrite (loadBytes_stored _ _ _ _ 0 8 Hheader) by (simpl; lia).
    by rewrite drop_0, take_ge by (simpl; lia). }
  cbn [fmap option_fmap option_map mbind option_bind].
  rewrite decodeLE_encodeLE_small
    by (change (256 ^ Z.of_nat 8) with (2 ^ 64); lia).
  rewrite Nat2Z.id. change 0 with (Z.of_nat 0).
  by eapply readCachedSnippets_stored.
Qed.

Lemma serialized_snippets_read_back_witness :
  deserialize (sampleBuffer 2)
  = Some (snippetNames (sampleVerifyData (Some sampleSnippets))
            <$> sampleSnippets).
Proof.
  pose proof (serialized_snippets_read_back 2
                (sampleVerifyData (Some sampleSnippets)) [] sampleSnippets)
    as Houtcome.
  unfold sampleBuffer.
  destruct (fillDataBuffer 2 (sampleVerifyData (Some sampleSnippets)) []
              sampleSnippets) as [[[h' dataBuffer] [| |]]|];
    simpl in Houtcome.
  - apply Houtcome.
    + intros entry Hin.
      repeat (apply elem_of_cons in Hin as [->|Hin]; [vm_compute; done|]).
      by apply elem_of_nil in Hin.
    + vm_compute. reflexivity.
  - exfalso. apply Houtcome.
    + intros entry Hin.
      repeat (apply elem_of_cons in Hin as [->|Hin]; [vm_compute; done|]).
      by apply elem_of_nil in Hin.
    + vm_compute. reflexivity.
  - exfalso. eapply not_elem_of_nil, Houtcome.
    + intros entry Hin.
      repeat (apply elem_of_cons in Hin as [->|Hin]; [vm_compute; done|]).
      by apply elem_of_nil in Hin.
    + vm_compute. reflexivity.
  - exfalso. eapply not_elem_of_nil, Houtcome.
    + intros entry Hin.
      repeat (apply elem_of_cons in Hin as [->|Hin]; [vm_compute; done|]).
      by apply elem_of_nil in Hin.
    + vm_compute. reflexivity.
Defined.

(** X12: when no allocation fails, the buffer for a table of snippets
    whose names are shorter than 65535 bytes, of less than 2^31 bytes,
    is filled with [BCV_SUCCESS], and it reads back as the pairs of
    names of the snippets in the order of the table, whichever of the
    three name mappings the count selects. *)
Lemma serialized_snippets_filled threshold verifyData h snippetEntries :
  namesShorter verifyData 65535 snippetEntries ->
  dataBufferSizeOf verifyData snippetEntries < 2 ^ 31 ->
  false ∉ h ->
  exists h' dataBuffer,
    fillDataBuffer threshold verifyData h snippetEntries
    = Some (h', dataBuffer, BCV_SUCCESS)
    /\ deserialize dataBuffer
       = Some (snippetNames verifyData <$> snippetEntries).
Proof.
  intros Hshort Hsmall Hheap.
  pose proof (serialized_snippets_read_back threshold verifyData h
                snippetEntries Hshort Hsmall) as Houtcome.
  destruct (fillDataBuffer threshold verifyData h snippetEntries)
    as [[[h' dataBuffer] [| |]]|]; simpl in Houtcome; try done.
  exists h', dataBuffer. by destruct Houtcome.
Qed.

(** X13: the threshold, and so the name mapping that is used, does not
    show in what is read back: two buffers filled for the same table of
    snippets with different thresholds, and with different memory, read
    back as the same pairs of names. *)
Lemma name_mapping_unobservable threshold threshold' verifyData h h'
    snippetEntries h1 h1' dataBuffer dataBuffer' :
  namesShorter verifyData 65535 snippetEntries ->
  dataBufferSizeOf verifyData snippetEntries < 2 ^ 31 ->
  fillDataBuffer threshold verifyData h snippetEntries
  = Some (h1, dataBuffer, BCV_SUCCESS) ->
  fillDataBuffer threshold' verifyData h' snippetEntries
  = Some (h1', dataBuffer', BCV_SUCCESS) ->
  deserialize dataBuffer = deserialize dataBuffer'.
Proof.
  intros Hshort Hsmall Hfill Hfill'.
  pose proof (serialized_snippets_read_back threshold verifyData h
                snippetEntries Hshort Hsmall) as Houtcome.
  pose proof (serialized_snippets_read_back threshold' verifyData h'
                snippetEntries Hshort Hsmall) as Houtcome'.
  rewrite Hfill in Houtcome. rewrite Hfill' in Houtcome'. simpl in *.
  destruct Houtcome as [-> _]. by destruct Houtcome' as [-> _].
Qed.

(** Processing a cached buffer is processing the names it reads back
    as. *)
Lemma processCached_deserialized {vm : J9JavaVM}
    (hashClassTableAt : string -> option (J9Class vm)) buffer :
  forall remaining i h cl names,
    readCachedSnippets buffer i remaining = Some names ->
    processCachedSnippets hashClassTableAt h cl buffer i remaining
    = Some (processSnippetNames hashClassTableAt h cl names).
Proof.
  induction remaining as [|remaining IH]; intros i h cl names; simpl.
  - by intros [= <-].
  - destruct (readCachedSnippet buffer i) as [[child parent]|]; [|done].
    simpl.
    destruct (readCachedSnippets buffer (i + 1) remaining) as [rest|] eqn:Hrest;
      [|done].
    simpl. intros [= <-]. simpl.
    destruct (checkSnippetRelationship hashClassTableAt h cl child parent)
      as [[[h1 cl1] reasonCode] trace].
    destruct reasonCode; [|done..].
    rewrite (IH _ _ _ _ Hrest).
    by destruct (processSnippetNames hashClassTableAt h1 cl1 rest)
      as [[[? ?] ?] ?].
Qed.

(** C2: one snippet whose child has a name of 65535 bytes.  The
    [U_16] that holds the length plus 1 in [getTotalUTF8Size] wraps to
    0, the buffer gets 25 bytes where 65561 are to be written, and the
    store of the name leaves the buffer: there is no buffer to read the
    pair back from. *)
Theorem longest_class_name_leaves_buffer threshold :
  Z.of_nat (String.length longestClassName) = 65535
  /\ getTotalUTF8Size longNameVerifyData [mkSnippet 0 1] 0 = 9
  /\ namesSize longNameVerifyData [mkSnippet 0 1] = 65545
  /\ fillDataBuffer threshold longNameVerifyData [] [mkSnippet 0 1] = None.
Proof.
  split; [vm_compute; reflexivity|]. split; [vm_compute; reflexivity|].
  split; [vm_compute; reflexivity|].
  unfold fillDataBuffer, storeToDataBuffer.
  cbn [length Nat.eqb negb allocate]. vm_compute. reflexivity.
Qed.

(** ** The shared classes cache *)

(** X23: what the fetch tells its caller.  It finds snippets exactly
    when the key is allocated and [findSharedData] reports elements; it
    leaves [BCV_ERR_INTERNAL_ERROR] in the fetch result exactly when the
    key cannot be allocated or [findSharedData] reports -1, and
    [BCV_SUCCESS] otherwise, so after a miss as well.  The data
    descriptor of the caller is written by [findSharedData] only: the
    fetch does not clear it when nothing is found, so that, with a cache
    that leaves the descriptor alone on a miss, processing afterwards
    takes the snippet table if the descriptor held no address before
    the fetch, and reads the buffer it held otherwise. *)
Theorem fetch_leaves_the_descriptor_to_the_cache (vm : J9JavaVM)
    (hashClassTableAt : string -> option (J9Class vm)) h verifyData
    sharedClassConfig snippetsDataDescriptor h' cl :
  let found :=
    sharedClassConfig (romClassName verifyData) snippetsDataDescriptor in
  let fetched :=
    (j9bcv_fetchClassRelationshipSnippetsFromSharedCache h verifyData
       sharedClassConfig snippetsDataDescriptor).2 in
  (fetched.1.1 = true <-> (allocate h).1 = true /\ 0 < found.1)
  /\ (fetched.1.2 = BCV_ERR_INTERNAL_ERROR
      <-> (allocate h).1 = false \/ found.1 = -1)
  /\ (fetched.1.2 = BCV_SUCCESS <-> (allocate h).1 = true /\ found.1 <> -1)
  /\ fetched.2 = (if (allocate h).1 then found.2 else snippetsDataDescriptor)
  /\ (fetched.1.1 = false ->
      found.2 = snippetsDataDescriptor ->
      j9bcv_processClassRelationshipSnippets hashClassTableAt h' cl verifyData
        fetched.2
      = match snippetsDataDescriptor with
        | Some buffer =>
            '(h1, cl1, processResult, trace) ←
              processClassRelationshipSnippetsUsingCachedData hashClassTableAt
                h' cl buffer;
            Some (h1, cl1, verifyData, processResult, trace)
        | None =>
            match classRelationshipSnippetsHashTable verifyData with
            | None => Some (h', cl, verifyData, BCV_SUCCESS, [])
            | Some snippetEntries =>
                let '(h1, cl1, processResult, trace) :=
                  processClassRelationshipSnippetsNoCachedData
                    hashClassTableAt h' cl verifyData snippetEntries in
                Some (h1, cl1, setSnippetTable verifyData None, processResult,
                      trace)
            end
        end).
Proof.
  intros found fetched.
  assert (fetched
          = if (allocate h).1
            then (if 0 <? found.1 then (true, BCV_SUCCESS, found.2)
                  else if found.1 =? -1
                       then (false, BCV_ERR_INTERNAL_ERROR, found.2)
                       else (false, BCV_SUCCESS, found.2))
            else (false, BCV_ERR_INTERNAL_ERROR, snippetsDataDescriptor))
    as Hfetched.
  { subst fetched found.
    unfold j9bcv_fetchClassRelationshipSnippetsFromSharedCache,
      generateClassRelationshipSnippetsKey.
    destruct (allocate h) as [[|] h0]; simpl; [|done].
    destruct (sharedClassConfig (romClassName verifyData)
                snippetsDataDescriptor) as [result address]. simpl.
    destruct (0 <? result); [done|]. by destruct (result =? -1). }
  assert (fetched.2
          = if (allocate h).1 then found.2 else snippetsDataDescriptor)
    as Haddress.
  { rewrite Hfetched. destruct (allocate h).1; [|done].
    destruct (0 <? found.1); [done|]. by destruct (found.1 =? -1). }
  split; [|split; [|split; [|split; [done|]]]].
  - rewrite Hfetched. destruct (allocate h).1; simpl.
    + destruct (Z.ltb_spec 0 found.1); simpl.
      * split; [done|]. done.
      * destruct (found.1 =? -1); simpl; (split; [done|lia]).
    + split; [done|]. by intros [? _].
  - rewrite Hfetched. destruct (allocate h).1; simpl.
    + destruct (Z.ltb_spec 0 found.1); simpl.
      * split; [done|]. intros [?|?]; [done|lia].
      * destruct (Z.eqb_spec found.1 (-1)); simpl.
        -- split; [by right|done].
        -- split; [done|]. by intros [?|?].
    + split; [by left|done].
  - rewrite Hfetched. destruct (allocate h).1; simpl.
    + destruct (Z.ltb_spec 0 found.1); simpl.
      * split; [|done]. intros _. split; [done|lia].
      * destruct (Z.eqb_spec found.1 (-1)); simpl.
        -- split; [done|]. by intros [_ ?].
        -- split; [|done]. by intros _.
    + split; [done|]. by intros [? _].
  - intros _ Hleft. rewrite Haddress, Hleft.
    destruct (allocate h).1; reflexivity.
Qed.

Lemma fetch_leaves_the_descriptor_to_the_cache_witness :
  (j9bcv_fetchClassRelationshipSnippetsFromSharedCache []
     (sampleVerifyData (Some sampleSnippets)) (findSharedData true ∅)
     (Some (sampleBuffer 2))).2
  = (false, BCV_SUCCESS, Some (sampleBuffer 2))
  /\ sampleProcess (sampleLoaded sampleClasses) [] newClassLoader
       (sampleVerifyData (Some sampleSnippets)) (Some (sampleBuffer 2))
     = Some ([], newClassLoader, sampleVerifyData (Some sampleSnippets),
             BCV_ERR_INTERNAL_ERROR, violationTrace "App" "Base").
Proof.
  split; [vm_compute; reflexivity|].
  unfold sampleProcess.
  etransitivity;
    [etransitivity;
       [|apply (proj2 (proj2 (proj2 (proj2
                  (fetch_leaves_the_descriptor_to_the_cache sampleVM
                     (sampleLoaded sampleClasses) []
                     (sampleVerifyData (Some sampleSnippets))
                     (findSharedData true ∅) (Some (sampleBuffer 2)) []
                     newClassLoader)))));
        vm_compute; reflexivity]|];
    vm_compute; reflexivity.
Defined.

(** ** Worked example of the processing *)

Lemma first_violation_stops_processing_witness :
  sampleProcess (sampleLoaded sampleClasses) [] newClassLoader
    (sampleVerifyData (Some sampleSnippets)) None
  = Some ([], newClassLoader, sampleVerifyData None, BCV_ERR_INTERNAL_ERROR,
          violationTrace "App" "Base")
  /\ sampleProcess (sampleLoaded sampleClasses) [] newClassLoader
       (sampleVerifyData None) (Some (sampleBuffer 2))
     = Some ([], newClassLoader, sampleVerifyData None, BCV_ERR_INTERNAL_ERROR,
             violationTrace "App" "Base").
Proof.
  assert (sampleLoaded sampleClasses "Base" = Some sampleBase) as Hparent
    by (vm_compute; reflexivity).
  assert (sampleLoaded sampleClasses "App" = Some sampleApp) as Hchild
    by (vm_compute; reflexivity).
  split.
  - apply (proj1 (first_violation_stops_processing sampleVM (sampleLoaded
      sampleClasses) []
                    newClassLoader (sampleVerifyData (Some sampleSnippets))
                    [mkSnippet 0 2] (mkSnippet 0 1) [mkSnippet 3 1]
                    (sampleBuffer 2) 3 [("App", "java/io/Serializable")]
                    "App" "Base" sampleBase sampleApp [] newClassLoader []
                    Hparent eq_refl Hchild eq_refl)).
    + reflexivity.
    + reflexivity.
    + vm_compute. reflexivity.
  - apply (proj2 (first_violation_stops_processing sampleVM (sampleLoaded
      sampleClasses) []
                    newClassLoader (sampleVerifyData None)
                    [mkSnippet 0 2] (mkSnippet 0 1) [mkSnippet 3 1]
                    (sampleBuffer 2) 3 [("App", "java/io/Serializable")]
                    "App" "Base" sampleBase sampleApp [] newClassLoader []
                    Hparent eq_refl Hchild eq_refl)).
    + vm_compute. reflexivity.
    + vm_compute. reflexivity.
    + vm_compute. reflexivity.
    + vm_compute. reflexivity.
    + vm_compute. reflexivity.
Defined.

(** * Further properties of the relationship table *)

(** ** Where a new parent node goes *)

Lemma insertByLength_split nodes parentClassName :
  exists shorter longer,
    nodes = shorter ++ longer
    /\ noneLonger parentClassName shorter
    /\ (insertByLength nodes parentClassName
        = shorter ++ parentClassName :: longer
        \/ insertByLength nodes parentClassName = nodes).
Proof.
  induction nodes
    as [|node next (shorter & longer & Hsplit & Hshort & Hinsert)]; simpl.
  - exists [], []. split; [done|]. split; [by constructor|by left].
  - destruct (Nat.ltb_spec (String.length parentClassName)
                (String.length node)).
    + exists [], (node :: next).
      split; [done|]. split; [by constructor|by left].
    + destruct (J9UTF8_DATA_EQUALS node parentClassName).
      * exists [], (node :: next).
        split; [done|]. split; [by constructor|by right].
      * exists (node :: shorter), longer. split; [by rewrite Hsplit|].
        split; [by constructor|].
        destruct Hinsert as [Hinsert|Hinsert]; rewrite Hinsert;
          [by left|by right].
Qed.

Lemma walkParentNodes_AlreadyPresent nodes parentClassName position :
  walkParentNodes nodes parentClassName position = AlreadyPresent ->
  parentClassName ∈ nodes.
Proof.
  revert position. induction nodes as [|node next IH]; intros position; simpl;
    [done|].
  destruct (_ <? _)%nat; [done|].
  destruct (J9UTF8_DATA_EQUALS node parentClassName) eqn:Hequal.
  - intros _. apply J9UTF8_DATA_EQUALS_spec in Hequal as ->.
    by apply elem_of_cons; left.
  - intros Hwalk. apply elem_of_cons; right. by eapply IH.
Qed.

(** X1: a record that returns [TRUE] for a parent other than
    java/lang/Throwable leaves an entry for the child that has a node
    for the parent; the flags of the entry are as before, the nodes that
    were there keep their order, the new node comes after nodes that are
    not longer than it, and the entries of all other classes are as
    before. *)
Theorem recorded_parent_is_found h cl childClassName parentClassName h' cl' :
  parentClassName <> J9RELATIONSHIP_JAVA_LANG_THROWABLE_STRING ->
  j9bcv_recordClassRelationship h cl childClassName parentClassName
  = (h', cl', true) ->
  exists recorded,
    findClassRelationship cl' childClassName = Some recorded
    /\ parentClassName ∈ root recorded
    /\ flags recorded
       = flags (default emptyRelationship
                  (findClassRelationship cl childClassName))
    /\ (exists shorter longer,
          root (default emptyRelationship
                  (findClassRelationship cl childClassName))
          = shorter ++ longer
          /\ noneLonger parentClassName shorter
          /\ (root recorded = shorter ++ parentClassName :: longer
              \/ root recorded = shorter ++ longer))
    /\ forall name,
         name <> childClassName ->
         findClassRelationship cl' name = findClassRelationship cl name.
Proof.
  intros Hthrowable Hrecord.
  apply record_true in Hrecord as [Hchild Hother].
  rewrite recordedEntry_walk in Hchild
    by (apply J9UTF8_DATA_EQUALS_false; congruence).
  eexists. split; [exact Hchild|]. simpl.
  split; [apply elem_of_insertByLength; by left|]. split; [done|].
  split; [|done].
  destruct (insertByLength_split
              (root (default emptyRelationship
                       (findClassRelationship cl childClassName)))
              parentClassName)
    as (shorter & longer & Hsplit & Hshort & Hinsert).
  exists shorter, longer. split; [done|]. split; [done|].
  destruct Hinsert as [Hinsert|Hinsert]; rewrite Hinsert; [by left|right].
  done.
Qed.

Lemma recorded_parent_is_found_witness :
  exists recorded,
    findClassRelationship sampleLoaderTwoParents "App" = Some recorded
    /\ "java/io/Serializable" ∈ root recorded
    /\ "Base" ∈ root recorded.
Proof.
  destruct (recorded_parent_is_found [] sampleLoaderAppBase "App"
              "java/io/Serializable" [] sampleLoaderTwoParents)
    as (recorded & Hfind & Hin & _ & (shorter & longer & Hold & _ & Hnew) & _).
  - discriminate.
  - vm_compute. reflexivity.
  - exists recorded. split; [exact Hfind|]. split; [exact Hin|].
    assert ("Base" ∈ shorter ++ longer) as Hbase.
    { rewrite <- Hold. vm_compute. by apply list_elem_of_singleton. }
    destruct Hnew as [->| ->]; [|exact Hbase].
    apply elem_of_app in Hbase as [Hbase|Hbase]; apply elem_of_app;
      [by left|right]. by apply elem_of_cons; right.
Defined.

(** ** Why a record fails, and what it leaves *)

Lemma allocateClassRelationshipNode_cause h cl h' ok :
  allocateClassRelationshipNode h cl = (h', ok) ->
  (ok = false -> false ∈ h \/ classRelationshipsPool cl = false)
  /\ (false ∈ h' -> false ∈ h).
Proof.
  unfold allocateClassRelationshipNode.
  destruct (classRelationshipsPool cl); [|intros [= <- <-]; by auto].
  destruct (allocate h) as [[|] h1] eqn:Hfirst.
  - destruct (allocate h1) as [okName h2] eqn:Hsecond. intros [= <- <-].
    pose proof (allocate_failed _ _ _ Hfirst) as [_ Hh1].
    pose proof (allocate_failed _ _ _ Hsecond) as [Hfail Hh2].
    split; [intros Hok; left|]; failed_allocation.
  - intros [= <- <-].
    pose proof (allocate_failed _ _ _ Hfirst) as [Hfail Hh1].
    split; [left|]; failed_allocation.
Qed.

Lemma pool_setEntry cl className entry :
  classRelationshipsPool (setEntry cl className entry)
  = classRelationshipsPool cl.
Proof. unfold setEntry. by destruct (classRelationshipsHashTable cl). Qed.

Lemma recordParent_cause h cl childClassName parentClassName entry h' cl' ok :
  recordParent h cl childClassName parentClassName entry = (h', cl', ok) ->
  (ok = false -> false ∈ h \/ classRelationshipsPool cl = false)
  /\ (false ∈ h' -> false ∈ h)
  /\ classRelationshipsPool cl' = classRelationshipsPool cl.
Proof.
  assert (forall nodes,
    (let '(h1, okNode) := allocateClassRelationshipNode h cl in
     if okNode
     then (h1, setEntry cl childClassName
                 (mkRelationship nodes (flags entry)), true)
     else (h1, cl, false)) = (h', cl', ok) ->
    (ok = false -> false ∈ h \/ classRelationshipsPool cl = false)
    /\ (false ∈ h' -> false ∈ h)
    /\ classRelationshipsPool cl' = classRelationshipsPool cl) as Hnode.
  { intros nodes.
    destruct (allocateClassRelationshipNode h cl) as [h1 okNode] eqn:Hallocate.
    apply allocateClassRelationshipNode_cause in Hallocate as [Hfail Hh1].
    destruct okNode; intros [= <- <- <-]; rewrite ?pool_setEntry;
      failed_allocation. }
  unfold recordParent.
  destruct (J9UTF8_DATA_EQUALS _ _).
  - destruct (negb _); intros [= <- <- <-]; rewrite ?pool_setEntry;
      failed_allocation.
  - destruct (root entry) as [|node next]; [apply Hnode|].
    destruct (walkParentNodes _ _ _); [|apply Hnode..].
    intros [= <- <- <-]. failed_allocation.
Qed.

Lemma findOrAddChildEntry_cause h cl childClassName h' cl' result :
  findOrAddChildEntry h cl childClassName = (h', cl', result) ->
  (result = None -> false ∈ h) /\ (false ∈ h' -> false ∈ h)
  /\ classRelationshipsPool cl' = classRelationshipsPool cl.
Proof.
  unfold findOrAddChildEntry.
  destruct (findClassRelationship cl childClassName) as [entry|].
  - intros [= <- <- <-]. failed_allocation.
  - destruct (allocate h) as [[|] h1] eqn:Hfirst.
    + pose proof (allocate_failed _ _ _ Hfirst) as [_ Hh1].
      destruct (allocate h1) as [[|] h2] eqn:Hsecond; intros [= <- <- <-];
        pose proof (allocate_failed _ _ _ Hsecond) as [Hfail Hh2];
        rewrite ?pool_setEntry; failed_allocation.
    + pose proof (allocate_failed _ _ _ Hfirst) as [Hfail Hh1].
      intros [= <- <- <-]. failed_allocation.
Qed.

(** A record fails only when an allocation fails, or when the class
    loader has a table but no pool. *)
Lemma record_cause h cl childClassName parentClassName h' cl' ok :
  j9bcv_recordClassRelationship h cl childClassName parentClassName
  = (h', cl', ok) ->
  (ok = false ->
   false ∈ h
   \/ (classRelationshipsHashTable cl <> None
       /\ classRelationshipsPool cl = false))
  /\ (false ∈ h' -> false ∈ h).
Proof.
  assert (forall h0 cl0,
    (false ∈ h0 -> false ∈ h) ->
    match findOrAddChildEntry h0 cl0 childClassName with
    | (h2, cl2, Some entry) =>
        recordParent h2 cl2 childClassName parentClassName entry
    | (h2, cl2, None) => (h2, cl2, false)
    end = (h', cl', ok) ->
    (ok = false -> false ∈ h \/ classRelationshipsPool cl0 = false)
    /\ (false ∈ h' -> false ∈ h)) as Hrest.
  { intros h0 cl0 Hh0.
    destruct (findOrAddChildEntry h0 cl0 childClassName)
      as [[h2 cl2] [entry|]] eqn:Hentry;
      apply findOrAddChildEntry_cause in Hentry as (Hnone & Hh2 & Hpool).
    - intros Hrecord.
      apply recordParent_cause in Hrecord as (Hfail & Hh' & _).
      split; [|by auto]. intros Hok.
      destruct (Hfail Hok) as [|Hnull]; [left; by auto|right].
      by rewrite <- Hpool.
    - intros [= <- <- <-]. split; [left|]; failed_allocation. }
  unfold j9bcv_recordClassRelationship.
  destruct (classRelationshipsHashTable cl) as [table|] eqn:Htable.
  - simpl. intros Hrun. apply Hrest in Hrun as [Hfail Hh']; [|done].
    split; [|done]. intros Hok.
    destruct (Hfail Hok); [by left|by right].
  - unfold allocateClassRelationshipTableAndPool.
    destruct (allocate h) as [[|] h1] eqn:Hfirst;
      pose proof (allocate_failed _ _ _ Hfirst) as [Hfail1 Hh1].
    + destruct (allocate h1) as [[|] h2] eqn:Hsecond;
        pose proof (allocate_failed _ _ _ Hsecond) as [Hfail2 Hh2]; simpl.
      * intros Hrun. apply Hrest in Hrun as [Hfail Hh']; [|by auto].
        split; [|done]. intros Hok. by destruct (Hfail Hok); [left|].
      * intros [= <- <- <-]. split; [left|]; failed_allocation.
    + simpl. intros [= <- <- <-]. split; [left|]; failed_allocation.
Qed.

(** X2: a record that returns [FALSE] has met a failed allocation, or a
    class loader that has a table but no pool; it leaves every entry
    that was in the table as it was, and what it may add is an entry
    for the child without nodes and without flags. *)
Theorem failed_record_keeps_relationships h cl childClassName parentClassName
    h' cl' :
  j9bcv_recordClassRelationship h cl childClassName parentClassName
  = (h', cl', false) ->
  (false ∈ h
   \/ (classRelationshipsHashTable cl <> None
       /\ classRelationshipsPool cl = false))
  /\ (forall name entry,
        findClassRelationship cl name = Some entry ->
        findClassRelationship cl' name = Some entry)
  /\ (forall name entry,
        findClassRelationship cl' name = Some entry ->
        findClassRelationship cl name = Some entry
        \/ (name = childClassName /\ entry = emptyRelationship
            /\ findClassRelationship cl childClassName = None)).
Proof.
  intros Hrecord.
  split; [by apply (proj1 (record_cause _ _ _ _ _ _ _ Hrecord))|].
  apply record_false in Hrecord as [Hother Hchild].
  split; intros name entry Hfind.
  - destruct (decide (name = childClassName)) as [->|Hne];
      [|by rewrite Hother].
    destruct Hchild as [Hsame|[Hnone _]]; [by rewrite Hsame|].
    by rewrite Hnone in Hfind.
  - destruct (decide (name = childClassName)) as [->|Hne];
      [|left; by rewrite <- Hother].
    destruct Hchild as [Hsame|[Hnone Hnew]]; [left; by rewrite <- Hsame|].
    right. rewrite Hnew in Hfind. by injection Hfind as <-.
Qed.

Lemma failed_record_keeps_relationships_witness :
  findClassRelationship
    (j9bcv_recordClassRelationship [false] sampleLoaderAppBase "App"
       "java/io/Serializable").1.2 "App"
  = Some (mkRelationship ["Base"] 0).
Proof.
  apply (proj1 (proj2 (failed_record_keeps_relationships [false]
                         sampleLoaderAppBase "App" "java/io/Serializable" []
                         sampleLoaderAppBase
                         ltac:(vm_compute; reflexivity)))).
  vm_compute. reflexivity.
Defined.

(** ** A class loader without a pool *)

Lemma recordParent_without_pool h cl childClassName parentClassName entry :
  classRelationshipsPool cl = false ->
  parentClassName <> J9RELATIONSHIP_JAVA_LANG_THROWABLE_STRING ->
  parentClassName ∉ root entry ->
  recordParent h cl childClassName parentClassName entry = (h, cl, false).
Proof.
  intros Hpool Hthrowable Hnew. unfold recordParent.
  assert (J9UTF8_DATA_EQUALS J9RELATIONSHIP_JAVA_LANG_THROWABLE_STRING
            parentClassName = false) as ->
    by (apply J9UTF8_DATA_EQUALS_false; congruence).
  unfold allocateClassRelationshipNode. rewrite Hpool.
  destruct (root entry) as [|node next] eqn:Hroot; [done|].
  destruct (walkParentNodes (node :: next) parentClassName 0) eqn:Hwalk;
    [|done..].
  by apply walkParentNodes_AlreadyPresent in Hwalk.
Qed.

(** X3: in a class loader that has the table but not the pool (what a
    failed [pool_new] leaves behind, since only the table is looked at
    before the two are allocated), no record of a new parent other than
    java/lang/Throwable returns [TRUE], whatever memory there is, and
    the pool stays [NULL]; once the table and the pool have been freed
    the same record returns [TRUE] when memory is granted. *)
Theorem pool_failure_is_permanent h cl childClassName parentClassName table :
  classRelationshipsHashTable cl = Some table ->
  classRelationshipsPool cl = false ->
  parentClassName <> J9RELATIONSHIP_JAVA_LANG_THROWABLE_STRING ->
  (forall entry,
     table !! childClassName = Some entry -> parentClassName ∉ root entry) ->
  (j9bcv_recordClassRelationship h cl childClassName parentClassName).2 = false
  /\ classRelationshipsPool
       (j9bcv_recordClassRelationship h cl childClassName
          parentClassName).1.2 = false
  /\ (j9bcv_recordClassRelationship []
        (j9bcv_freeClassRelationshipTableAndPool cl) childClassName
        parentClassName).2 = true.
Proof.
  intros Htable Hpool Hthrowable Hnew.
  assert (J9UTF8_DATA_EQUALS J9RELATIONSHIP_JAVA_LANG_THROWABLE_STRING
            parentClassName = false) as Hequal
    by (apply J9UTF8_DATA_EQUALS_false; congruence).
  split; [|split].
  - unfold j9bcv_recordClassRelationship. rewrite Htable. simpl.
    destruct (findOrAddChildEntry h cl childClassName)
      as [[h2 cl2] [entry|]] eqn:Hentry; [|done].
    pose proof (findOrAddChildEntry_cause _ _ _ _ _ _ Hentry)
      as (_ & _ & Hpool2).
    apply findOrAddChildEntry_spec in Hentry as (_ & _ & _ & ->);
      [|by rewrite Htable].
    rewrite recordParent_without_pool; [done|by rewrite Hpool2|done|].
    unfold findClassRelationship. rewrite Htable.
    destruct (table !! childClassName) as [entry|] eqn:Hentry; simpl;
      [by apply Hnew|]. apply not_elem_of_nil.
  - destruct (j9bcv_recordClassRelationship h cl childClassName
                parentClassName) as [[h' cl'] ok] eqn:Hrecord.
    simpl. revert Hrecord. unfold j9bcv_recordClassRelationship.
    rewrite Htable. simpl.
    destruct (findOrAddChildEntry h cl childClassName)
      as [[h2 cl2] [entry|]] eqn:Hentry;
      apply findOrAddChildEntry_cause in Hentry as (_ & _ & Hpool2).
    + intros Hrecord. apply recordParent_cause in Hrecord as (_ & _ & ->).
      by rewrite Hpool2.
    + intros [= <- <- <-]. by rewrite Hpool2.
  - unfold j9bcv_freeClassRelationshipTableAndPool. rewrite Htable.
    unfold j9bcv_recordClassRelationship, findOrAddChildEntry,
      findClassRelationship. cbn -[J9UTF8_DATA_EQUALS recordParent].
    rewrite lookup_empty. cbn -[J9UTF8_DATA_EQUALS recordParent].
    unfold recordParent. rewrite Hequal. reflexivity.
Qed.

Lemma pool_failure_is_permanent_witness :
  sampleLoaderNoPool = mkLoader (Some ∅) false
  /\ (j9bcv_recordClassRelationship [] sampleLoaderNoPool "App" "Base").2
     = false.
Proof.
  split; [vm_compute; reflexivity|].
  apply (pool_failure_is_permanent [] sampleLoaderNoPool "App" "Base" ∅).
  - vm_compute. reflexivity.
  - vm_compute. reflexivity.
  - discriminate.
  - intros entry Hentry. by rewrite lookup_empty in Hentry.
Defined.

(** * Further properties of the validation *)

Section ValidationProperties.

Variable vm : J9JavaVM.

Implicit Types (hashClassTableAt : string -> option (J9Class vm)).
Implicit Types (childClass parentClass : J9Class vm).

(** A loop that got through its nodes has accepted every loaded parent
    and has marked every parent that is not loaded. *)
Lemma validateParentNodes_passed hashClassTableAt h table nodes childClass
    h' table' :
  validateParentNodes hashClassTableAt h table nodes childClass
  = (h', table', None) ->
  (forall node parentClass,
     node ∈ nodes -> hashClassTableAt node = Some parentClass ->
     parentAccepted parentClass childClass = true)
  /\ (forall node,
        node ∈ nodes -> hashClassTableAt node = None ->
        exists marked,
          table' !! node = Some marked /\ mustBeInterface marked = true).
Proof.
  revert h table. induction nodes as [|node next IH]; intros h table; simpl.
  - intros _. split; [intros node parentClass Hin|intros node Hin];
      by apply elem_of_nil in Hin.
  - destruct (hashClassTableAt node) as [parentClass|] eqn:Hloaded.
    + assert (parentAccepted parentClass childClass = true ->
              validateParentNodes hashClassTableAt h table next childClass
              = (h', table', None) ->
              (forall node0 parentClass0,
                 node0 ∈ node :: next ->
                 hashClassTableAt node0 = Some parentClass0 ->
                 parentAccepted parentClass0 childClass = true)
              /\ (forall node0,
                    node0 ∈ node :: next -> hashClassTableAt node0 = None ->
                    exists marked,
                      table' !! node0 = Some marked
                      /\ mustBeInterface marked = true)) as Hnext.
      { intros Hthis Hrun. destruct (IH _ _ Hrun) as [Haccepted Hmarked].
        split.
        - intros node0 parentClass0 Hin Hloaded0.
          apply elem_of_cons in Hin as [->|Hin]; [|by eapply Haccepted].
          rewrite Hloaded in Hloaded0. by injection Hloaded0 as <-.
        - intros node0 Hin Hnl.
          apply elem_of_cons in Hin as [->|Hin]; [congruence|by apply Hmarked].
      }
      unfold parentAccepted in Hnext.
      destruct (J9ROMCLASS_IS_INTERFACE parentClass); [by apply Hnext|].
      destruct (isSameOrSuperClassOf parentClass childClass); [|done].
      by apply Hnext.
    + assert (forall h0 entry,
                mustBeInterface entry = true ->
                validateParentNodes hashClassTableAt h0
                  (<[node := entry]> table) next childClass
                = (h', table', None) ->
                (forall node0 parentClass0,
                   node0 ∈ node :: next ->
                   hashClassTableAt node0 = Some parentClass0 ->
                   parentAccepted parentClass0 childClass = true)
                /\ (forall node0,
                      node0 ∈ node :: next -> hashClassTableAt node0 = None ->
                      exists marked,
                        table' !! node0 = Some marked
                        /\ mustBeInterface marked = true)) as Hnext.
      { intros h0 entry Hmark Hrun.
        destruct (IH _ _ Hrun) as [Haccepted Hmarked]. split.
        - intros node0 parentClass0 Hin Hloaded0.
          apply elem_of_cons in Hin as [->|Hin]; [congruence|].
          by eapply Haccepted.
        - intros node0 Hin Hnl.
          apply elem_of_cons in Hin as [->|Hin]; [|by apply Hmarked].
          eapply (validateParentNodes_keeps_mark vm _ _ _ _ _ _ _ _ node entry
                    Hrun); [apply lookup_insert_eq|done]. }
      destruct (table !! node) as [parentClassEntry|].
      * apply Hnext. apply (mustBeInterface_marked parentClassEntry).
      * destruct (allocate h) as [[|] h1]; [|done].
        destruct (allocate h1) as [[|] h2]; [|done].
        apply Hnext. reflexivity.
Qed.

(** What a validation that returned [NULL] for a class with an entry
    has gone through. *)
Lemma validate_passed hashClassTableAt h cl childClassName childClass entry
    h' cl' :
  findClassRelationship cl childClassName = Some entry ->
  j9bcv_validateClassRelationships hashClassTableAt h cl childClassName
    childClass = (h', cl', None) ->
  exists table table1,
    classRelationshipsHashTable cl = Some table
    /\ (mustBeInterface entry = true ->
        J9ROMCLASS_IS_INTERFACE childClass = true)
    /\ (parentIsThrowable entry = true ->
        isSameOrSuperClassOf (J9VMJAVALANGTHROWABLE_OR_NULL vm) childClass
        = true)
    /\ validateParentNodes hashClassTableAt h table (root entry) childClass
       = (h', table1, None)
    /\ cl' = mkLoader
               (Some (hashTableRemove
                        (alter freeClassRelationshipNodes childClassName
                           table1)
                        childClassName
                        (j9mem_free_memory vm childClassName)))
               (classRelationshipsPool cl).
Proof.
  intros Hfind.
  destruct (find_Some_table _ _ _ Hfind) as (table & Htable & Hentry).
  unfold j9bcv_validateClassRelationships. rewrite Htable, Hentry.
  fold (mustBeInterface entry). fold (parentIsThrowable entry).
  destruct (mustBeInterface entry && negb (J9ROMCLASS_IS_INTERFACE childClass))
    eqn:Hinterface; [done|].
  destruct (parentIsThrowable entry && negb _) eqn:Hthrowable; [done|].
  destruct (validateParentNodes hashClassTableAt h table (root entry)
              childClass) as [[h1 table1] [failed|]] eqn:Hrun; [done|].
  intros [= <- <-]. exists table, table1. split; [done|].
  split; [intros Hset; rewrite Hset in Hinterface; simpl in Hinterface;
          by apply negb_false_iff|].
  split; [intros Hset; rewrite Hset in Hthrowable; simpl in Hthrowable;
          by apply negb_false_iff|done].
Qed.






(** X7: when a record has returned [TRUE] and the validation of the
    child that follows returns [NULL], the relationship holds: for
    java/lang/Throwable as the parent, java/lang/Throwable is the same
    as or a superclass of the child; for another parent, the parent is
    not loaded or it is an interface or the same as or a superclass of
    the child. *)
Theorem recorded_relationship_is_validated hashClassTableAt h cl childClassName
    parentClassName h1 cl1 h2 childClass :
  j9bcv_recordClassRelationship h cl childClassName parentClassName
  = (h1, cl1, true) ->
  (j9bcv_validateClassRelationships hashClassTableAt h2 cl1 childClassName
     childClass).2 = None ->
  if J9UTF8_DATA_EQUALS J9RELATIONSHIP_JAVA_LANG_THROWABLE_STRING
       parentClassName
  then isSameOrSuperClassOf (J9VMJAVALANGTHROWABLE_OR_NULL vm) childClass = true
  else forall parentClass,
         hashClassTableAt parentClassName = Some parentClass ->
         parentAccepted parentClass childClass = true.
Proof.
  intros Hrecord Hvalidate.
  apply record_true in Hrecord as [Hfind _].
  destruct (j9bcv_validateClassRelationships hashClassTableAt h2 cl1
              childClassName childClass) as [[h' cl'] failed] eqn:Hrun.
  simpl in Hvalidate. subst failed.
  destruct (validate_passed _ _ _ _ _ _ _ _ Hfind Hrun)
    as (table & table1 & _ & _ & Hthrowable & Hnodes & _).
  apply validateParentNodes_passed in Hnodes as [Haccepted _].
  unfold recordedEntry in Hthrowable, Haccepted.
  destruct (J9UTF8_DATA_EQUALS J9RELATIONSHIP_JAVA_LANG_THROWABLE_STRING
              parentClassName) eqn:Hequal.
  - apply Hthrowable. unfold parentIsThrowable. simpl.
    apply (bits_set_lor_same _ 1). lia.
  - intros parentClass Hloaded. apply (Haccepted parentClassName); [|done].
    simpl. apply elem_of_insertByLength. by left.
Qed.

End ValidationProperties.




Lemma recorded_relationship_is_validated_witness :
  (sampleValidate (sampleLoaded [sampleDerived; sampleBase]) []
     sampleLoaderDerivedBase "Derived" sampleDerived).2 = None
  /\ parentAccepted (vm := sampleVM) sampleBase sampleDerived = true.
Proof.
  split; [vm_compute; reflexivity|].
  apply (recorded_relationship_is_validated sampleVM
           (sampleLoaded [sampleDerived; sampleBase]) [] newClassLoader
           "Derived" "Base" [] sampleLoaderDerivedBase [] sampleDerived
           ltac:(vm_compute; reflexivity) ltac:(vm_compute; reflexivity)
           sampleBase).
  vm_compute. reflexivity.
Defined.

(** * Further properties of the processing of snippets *)

Lemma record_true_recorded h cl childClassName parentClassName h' cl' :
  j9bcv_recordClassRelationship h cl childClassName parentClassName
  = (h', cl', true) ->
  relationshipRecorded cl' childClassName parentClassName.
Proof.
  intros Hrecord. apply record_true in Hrecord as [Hfind _].
  eexists. split; [exact Hfind|]. unfold recordedEntry.
  destruct (J9UTF8_DATA_EQUALS J9RELATIONSHIP_JAVA_LANG_THROWABLE_STRING
              parentClassName); cbn [root flags].
  - unfold parentIsThrowable. cbn [flags]. apply (bits_set_lor_same _ 1). lia.
  - apply elem_of_insertByLength. by left.
Qed.

(** A relationship that is pending stays so through every record. *)
Lemma record_keeps_recorded h cl childClassName parentClassName child parent :
  relationshipRecorded cl child parent ->
  relationshipRecorded
    (j9bcv_recordClassRelationship h cl childClassName parentClassName).1.2
    child parent.
Proof.
  intros (entry & Hfind & Hpending).
  destruct (j9bcv_recordClassRelationship h cl childClassName parentClassName)
    as [[h' cl'] [|]] eqn:Hrecord; simpl.
  - apply record_true in Hrecord as [Hchild Hother].
    destruct (decide (child = childClassName)) as [->|Hne].
    2:{ exists entry. by rewrite Hother. }
    rewrite Hfind in Hchild. simpl in Hchild.
    eexists. split; [exact Hchild|]. unfold recordedEntry.
    destruct (J9UTF8_DATA_EQUALS J9RELATIONSHIP_JAVA_LANG_THROWABLE_STRING
                parentClassName);
      destruct (J9UTF8_DATA_EQUALS J9RELATIONSHIP_JAVA_LANG_THROWABLE_STRING
                  parent); cbn [root flags].
    + unfold parentIsThrowable. cbn [flags].
      by apply (bits_set_lor_mono _ _ 1).
    + exact Hpending.
    + exact Hpending.
    + apply elem_of_insertByLength. by right.
  - apply record_false in Hrecord as [Hother Hchild].
    exists entry. split; [|done].
    destruct (decide (child = childClassName)) as [->|Hne];
      [|by rewrite Hother].
    destruct Hchild as [Hsame|[Hnone _]]; [by rewrite Hsame|].
    by rewrite Hnone in Hfind.
Qed.

(** Recording snippets leaves the class name list alone. *)
Lemma recordSnippets_classNameList calls h verifyData :
  classNameList (recordSnippets h verifyData calls).1.2
  = classNameList verifyData.
Proof.
  revert h verifyData. induction calls as [|call next IH];
    intros h verifyData; simpl; [done|].
  assert (classNameList
            (j9bcv_recordClassRelationshipSnippet h verifyData
               (childClassNameIndex call) (parentClassNameIndex call)).1.2
          = classNameList verifyData) as Hstep.
  { unfold j9bcv_recordClassRelationshipSnippet.
    destruct (classRelationshipSnippetsHashTable verifyData) as [table|]
      eqn:Htable.
    - rewrite Htable. destruct (snippetTableFind table _); [done|].
      by destruct (allocate h) as [[|] h1].
    - destruct (allocate h) as [[|] h1]; [|done]. simpl.
      by destruct (allocate h1) as [[|] h2]. }
  destruct (j9bcv_recordClassRelationshipSnippet h verifyData
              (childClassNameIndex call) (parentClassNameIndex call))
    as [[h1 verifyData1] result].
  simpl in Hstep. specialize (IH h1 verifyData1).
  destruct (recordSnippets h1 verifyData1 next) as [[h2 verifyData2] results].
  simpl in *. by rewrite IH.
Qed.

Section ProcessingProperties.

Variable vm : J9JavaVM.

Implicit Types (hashClassTableAt : string -> option (J9Class vm)).
Implicit Types (childClass parentClass : J9Class vm).

(** X8: what [checkSnippetRelationship] makes of a pair.  When the
    relationship holds among the loaded classes it returns
    [BCV_SUCCESS] and touches nothing; it returns
    [BCV_ERR_INTERNAL_ERROR] exactly when both classes are loaded and
    the parent is neither an interface nor the same as or a superclass
    of the child, and touches nothing then either; whenever it returns
    [BCV_ERR_INSUFFICIENT_MEMORY] one of the classes is not loaded and
    the record has failed; and whenever it returns [BCV_SUCCESS] the
    relationship holds or is pending in the table afterwards. *)
Theorem check_snippet_outcomes hashClassTableAt h cl childClassName
    parentClassName :
  let checked :=
    checkSnippetRelationship hashClassTableAt h cl childClassName
      parentClassName in
  let recorded :=
    j9bcv_recordClassRelationship h cl childClassName parentClassName in
  (relationshipHolds hashClassTableAt childClassName parentClassName ->
   checked = (h, cl, BCV_SUCCESS, []))
  /\ (checked.1.2 = BCV_ERR_INTERNAL_ERROR <->
      exists parentClass childClass,
        hashClassTableAt parentClassName = Some parentClass
        /\ hashClassTableAt childClassName = Some childClass
        /\ parentAccepted parentClass childClass = false)
  /\ (checked.1.2 = BCV_ERR_INTERNAL_ERROR -> checked.1.1 = (h, cl))
  /\ (checked.1.2 = BCV_ERR_INSUFFICIENT_MEMORY ->
      recorded.2 = false /\ checked.1.1 = recorded.1
      /\ (hashClassTableAt parentClassName = None
          \/ hashClassTableAt childClassName = None))
  /\ (checked.1.2 = BCV_SUCCESS ->
      relationshipHolds hashClassTableAt childClassName parentClassName
      \/ (recorded.2 = true /\ checked.1.1 = recorded.1
          /\ relationshipRecorded checked.1.1.2 childClassName
               parentClassName)).
Proof.
  unfold checkSnippetRelationship, relationshipHolds, parentAccepted.
  assert (let recorded :=
            j9bcv_recordClassRelationship h cl childClassName parentClassName in
          recorded.2 = true ->
          relationshipRecorded recorded.1.2 childClassName parentClassName)
    as Hpending.
  { destruct (j9bcv_recordClassRelationship h cl childClassName
                parentClassName) as [[h1 cl1] ok] eqn:Hrecord.
    simpl. intros ->. by eapply record_true_recorded. }
  destruct (hashClassTableAt parentClassName) as [parentClass|] eqn:Hparent.
  - destruct (J9ROMCLASS_IS_INTERFACE parentClass) eqn:Hinterface; simpl.
    { split; [done|]. split; [|split; [done|split; [done|]]].
      - split; [done|]. intros (? & ? & [= <-] & _ & Hnot).
        by rewrite Hinterface in Hnot.
      - intros _. left. by eauto. }
    destruct (hashClassTableAt childClassName) as [childClass|] eqn:Hchild.
    + destruct (isSameOrSuperClassOf parentClass childClass) eqn:Hsuper; simpl.
      * split; [done|]. split; [|split; [done|split; [done|]]].
        -- split; [done|]. intros (? & ? & [= <-] & [= <-] & Hnot).
           by rewrite Hinterface, Hsuper in Hnot.
        -- intros _. left. by eauto 10.
      * split.
        { intros (? & [= <-] & [Hyes|(? & [= <-] & Hyes)]); congruence. }
        split; [|done].
        split; [intros _|done]. exists parentClass, childClass.
        by rewrite Hinterface, Hsuper.
    + simpl in Hpending.
      destruct (j9bcv_recordClassRelationship h cl childClassName
                  parentClassName) as [[h1 cl1] [|]]; simpl in *.
      * split.
        { intros (? & [= <-] & [Hyes|(? & ? & _)]); congruence. }
        split; [split; [done|by intros (? & ? & _ & ? & _)]|].
        split; [done|]. split; [done|]. intros _. right. by auto.
      * split.
        { intros (? & [= <-] & [Hyes|(? & ? & _)]); congruence. }
        split; [split; [done|by intros (? & ? & _ & ? & _)]|].
        split; [done|]. split; [by auto|done].
  - simpl in Hpending.
    destruct (j9bcv_recordClassRelationship h cl childClassName
                parentClassName) as [[h1 cl1] [|]]; simpl in *.
    + split; [by intros (? & ? & _)|].
      split; [split; [done|by intros (? & ? & ? & _)]|].
      split; [done|]. split; [done|]. intros _. right. by auto.
    + split; [by intros (? & ? & _)|].
      split; [split; [done|by intros (? & ? & ? & _)]|].
      split; [done|]. split; [by auto|done].
Qed.

(** A check that returns [BCV_SUCCESS] has traced nothing, and the
    relationship holds or is pending afterwards. *)
Lemma checkSnippetRelationship_success hashClassTableAt h cl childClassName
    parentClassName h1 cl1 trace :
  checkSnippetRelationship hashClassTableAt h cl childClassName parentClassName
  = (h1, cl1, BCV_SUCCESS, trace) ->
  trace = []
  /\ (relationshipHolds hashClassTableAt childClassName parentClassName
      \/ relationshipRecorded cl1 childClassName parentClassName).
Proof.
  unfold checkSnippetRelationship, relationshipHolds.
  assert (forall ok,
            j9bcv_recordClassRelationship h cl childClassName parentClassName
            = (h1, cl1, ok) ->
            recordReasonCode ok = BCV_SUCCESS ->
            relationshipRecorded cl1 childClassName parentClassName)
    as Hpending.
  { intros [|] Hrecord; [|done]. intros _. by eapply record_true_recorded. }
  destruct (hashClassTableAt parentClassName) as [parentClass|] eqn:Hparent.
  - destruct (J9ROMCLASS_IS_INTERFACE parentClass) eqn:Hinterface.
    { intros [= <- <- <-]. split; [done|]. left. by eauto. }
    destruct (hashClassTableAt childClassName) as [childClass|] eqn:Hchild.
    + destruct (isSameOrSuperClassOf parentClass childClass) eqn:Hsuper;
        [|done].
      intros [= <- <- <-]. split; [done|]. left. by eauto 10.
    + destruct (j9bcv_recordClassRelationship h cl childClassName
                  parentClassName) as [[h2 cl2] ok].
      intros [= <- <- Hcode <-]. split; [done|]. right.
      by eapply Hpending.
  - destruct (j9bcv_recordClassRelationship h cl childClassName
                parentClassName) as [[h2 cl2] ok].
    intros [= <- <- Hcode <-]. split; [done|]. right. by eapply Hpending.
Qed.

Lemma check_keeps_recorded hashClassTableAt h cl childClassName parentClassName
    child parent :
  relationshipRecorded cl child parent ->
  relationshipRecorded
    (checkSnippetRelationship hashClassTableAt h cl childClassName
       parentClassName).1.1.2 child parent.
Proof.
  intros Hpending. unfold checkSnippetRelationship.
  pose proof (record_keeps_recorded h cl childClassName parentClassName _ _
                Hpending) as Hrecord.
  destruct (j9bcv_recordClassRelationship h cl childClassName parentClassName)
    as [[h1 cl1] ok].
  destruct (hashClassTableAt parentClassName) as [parentClass|]; [|done].
  destruct (J9ROMCLASS_IS_INTERFACE parentClass); [done|].
  destruct (hashClassTableAt childClassName) as [childClass|]; [|done].
  by destruct (isSameOrSuperClassOf parentClass childClass).
Qed.

(** The loop over the names of the snippets, when it returns
    [BCV_SUCCESS]. *)
Lemma processSnippetNames_success hashClassTableAt snippets :
  forall h cl h' cl' trace,
    processSnippetNames hashClassTableAt h cl snippets
    = (h', cl', BCV_SUCCESS, trace) ->
    trace = []
    /\ (forall child parent,
          relationshipRecorded cl child parent ->
          relationshipRecorded cl' child parent)
    /\ forall child parent,
         (child, parent) ∈ snippets ->
         relationshipHolds hashClassTableAt child parent
         \/ relationshipRecorded cl' child parent.
Proof.
  induction snippets as [|[childClassName parentClassName] next IH];
    intros h cl h' cl' trace; simpl.
  - intros [= <- <- <-]. split; [done|]. split; [done|].
    intros child parent Hin. by apply elem_of_nil in Hin.
  - pose proof (fun child parent =>
                  check_keeps_recorded hashClassTableAt h cl childClassName
                    parentClassName child parent) as Hkept.
    destruct (checkSnippetRelationship hashClassTableAt h cl childClassName
                parentClassName) as [[[h1 cl1] reasonCode] trace1] eqn:Hcheck.
    simpl in Hkept.
    destruct reasonCode; [|done..].
    apply checkSnippetRelationship_success in Hcheck as [-> Hthis].
    destruct (processSnippetNames hashClassTableAt h1 cl1 next)
      as [[[h2 cl2] reasonCode2] trace2] eqn:Hnext.
    intros [= <- <- -> <-].
    destruct (IH _ _ _ _ _ Hnext) as (-> & Hlater & Hrest).
    split; [done|]. split; [by auto|].
    intros child parent Hin. apply elem_of_cons in Hin as [[= -> ->]|Hin];
      [|by apply Hrest].
    destruct Hthis as [|Hpending]; [by left|right]. by apply Hlater.
Qed.

(** The loop over a cached buffer, when it returns [BCV_SUCCESS], has
    read every snippet. *)
Lemma processCachedSnippets_success hashClassTableAt buffer :
  forall remaining i h cl h' cl' trace,
    processCachedSnippets hashClassTableAt h cl buffer i remaining
    = Some (h', cl', BCV_SUCCESS, trace) ->
    exists names,
      readCachedSnippets buffer i remaining = Some names
      /\ processSnippetNames hashClassTableAt h cl names
         = (h', cl', BCV_SUCCESS, trace).
Proof.
  induction remaining as [|remaining IH]; intros i h cl h' cl' trace; simpl.
  - intros [= <- <- <-]. by exists [].
  - destruct (readCachedSnippet buffer i) as [[child parent]|]; [|done].
    simpl.
    destruct (checkSnippetRelationship hashClassTableAt h cl child parent)
      as [[[h1 cl1] reasonCode] trace1] eqn:Hcheck.
    destruct reasonCode; [|done..].
    destruct (processCachedSnippets hashClassTableAt h1 cl1 buffer (i + 1)
                remaining) as [[[[h2 cl2] reasonCode2] trace2]|] eqn:Hnext;
      [|done].
    simpl. intros [= <- <- -> <-].
    destruct (IH _ _ _ _ _ _ Hnext) as (rest & -> & Hrest).
    exists ((child, parent) :: rest). split; [done|]. simpl.
    by rewrite Hcheck, Hrest.
Qed.


(** X9: when [j9bcv_processClassRelationshipSnippets] returns
    [BCV_SUCCESS], nothing has been traced and every snippet has been
    dealt with: its relationship holds among the loaded classes, or it
    is pending in the table of the class loader.  This is so for the
    snippets of the snippet table, which is freed, and for the snippets
    that a cached buffer reads back as. *)
Theorem processed_snippets_are_checked_or_recorded hashClassTableAt h cl
    verifyData h' cl' verifyData' trace :
  (forall snippetEntries,
     classRelationshipSnippetsHashTable verifyData = Some snippetEntries ->
     j9bcv_processClassRelationshipSnippets hashClassTableAt h cl verifyData
       None = Some (h', cl', verifyData', BCV_SUCCESS, trace) ->
     trace = [] /\ classRelationshipSnippetsHashTable verifyData' = None
     /\ forall snippetEntry,
          snippetEntry ∈ snippetEntries ->
          relationshipHolds hashClassTableAt
            (snippetNames verifyData snippetEntry).1
            (snippetNames verifyData snippetEntry).2
          \/ relationshipRecorded cl'
               (snippetNames verifyData snippetEntry).1
               (snippetNames verifyData snippetEntry).2)
  /\ (forall buffer,
        j9bcv_processClassRelationshipSnippets hashClassTableAt h cl verifyData
          (Some buffer) = Some (h', cl', verifyData', BCV_SUCCESS, trace) ->
        trace = [] /\ verifyData' = verifyData
        /\ exists names,
             deserialize buffer = Some names
             /\ forall child parent,
                  (child, parent) ∈ names ->
                  relationshipHolds hashClassTableAt child parent
                  \/ relationshipRecorded cl' child parent).
Proof.
  split.
  - intros snippetEntries Htable. simpl. rewrite Htable.
    unfold processClassRelationshipSnippetsNoCachedData.
    destruct (processSnippetNames hashClassTableAt h cl
                (snippetNames verifyData <$> snippetEntries))
      as [[[h1 cl1] reasonCode] trace1] eqn:Hrun.
    intros [= <- <- <- -> <-].
    apply processSnippetNames_success in Hrun as (-> & _ & Hall).
    split; [done|]. split; [done|]. intros snippetEntry Hin. apply Hall.
    apply list_elem_of_fmap. by exists snippetEntry.
  - intros buffer. simpl.
    unfold processClassRelationshipSnippetsUsingCachedData, deserialize.
    destruct (readSnippetCount buffer) as [snippetCount|]; [|done]. simpl.
    destruct (processCachedSnippets hashClassTableAt h cl buffer 0
                (Z.to_nat snippetCount))
      as [[[[h1 cl1] reasonCode] trace1]|] eqn:Hrun; [|done].
    simpl. intros [= <- <- <- -> <-].
    apply processCachedSnippets_success in Hrun as (names & Hread & Hrun).
    apply processSnippetNames_success in Hrun as (-> & _ & Hall).
    split; [done|]. split; [done|]. by exists names.
Qed.

(** X10: a buffer that [j9bcv_storeClassRelationshipSnippetsToSharedCache]
    has filled for the snippet table is processed as the snippet table
    is: the same memory is used, the same class loader is left, the same
    code is returned and the same is traced, whatever classes are
    loaded, for names shorter than 65535 bytes and a buffer of less than
    2^31 bytes. *)
Theorem cached_snippets_process_like_the_table threshold hashClassTableAt h cl
    verifyData snippetEntries h0 h1 dataBuffer :
  classRelationshipSnippetsHashTable verifyData = Some snippetEntries ->
  namesShorter verifyData 65535 snippetEntries ->
  dataBufferSizeOf verifyData snippetEntries < 2 ^ 31 ->
  fillDataBuffer threshold verifyData h0 snippetEntries
  = Some (h1, dataBuffer, BCV_SUCCESS) ->
  exists h' cl' processResult trace,
    j9bcv_processClassRelationshipSnippets hashClassTableAt h cl verifyData None
    = Some (h', cl', setSnippetTable verifyData None, processResult, trace)
    /\ forall verifyData',
         j9bcv_processClassRelationshipSnippets hashClassTableAt h cl
           verifyData' (Some dataBuffer)
         = Some (h', cl', verifyData', processResult, trace).
Proof.
  intros Htable Hshort Hsmall Hfill.
  pose proof (serialized_snippets_read_back threshold verifyData h0
                snippetEntries Hshort Hsmall) as Houtcome.
  rewrite Hfill in Houtcome. destruct Houtcome as [Hread _].
  unfold deserialize in Hread.
  destruct (readSnippetCount dataBuffer) as [snippetCount|] eqn:Hcount;
    [|done].
  simpl in Hread.
  destruct (processSnippetNames hashClassTableAt h cl
              (snippetNames verifyData <$> snippetEntries))
    as [[[h' cl'] processResult] trace] eqn:Hrun.
  exists h', cl', processResult, trace. split.
  - simpl. rewrite Htable.
    unfold processClassRelationshipSnippetsNoCachedData. by rewrite Hrun.
  - intros verifyData'. simpl.
    unfold processClassRelationshipSnippetsUsingCachedData.
    rewrite Hcount. simpl.
    rewrite (processCached_deserialized hashClassTableAt _ _ _ _ _ _ Hread).
    simpl. by rewrite Hrun.
Qed.


End ProcessingProperties.

Lemma check_snippet_outcomes_witness :
  sampleCheck (sampleLoaded [sampleDerived; sampleBase]) [false] newClassLoader
    "Derived" "Base"
  = ([false], newClassLoader, BCV_SUCCESS, []).
Proof.
  apply (proj1 (check_snippet_outcomes sampleVM
                  (sampleLoaded [sampleDerived; sampleBase]) [false]
                  newClassLoader "Derived" "Base")).
  exists sampleBase. split; [vm_compute; reflexivity|]. right.
  exists sampleDerived. split; vm_compute; reflexivity.
Defined.

Lemma processed_snippets_are_checked_or_recorded_witness :
  (relationshipHolds (vm := sampleVM)
     (sampleLoaded [sampleDerived; sampleBase]) "Derived" "Base"
   \/ relationshipRecorded sampleLoaderAppSerializable "Derived" "Base")
  /\ (relationshipHolds (vm := sampleVM)
        (sampleLoaded [sampleDerived; sampleBase]) "App"
        "java/io/Serializable"
      \/ relationshipRecorded sampleLoaderAppSerializable "App"
           "java/io/Serializable").
Proof.
  pose proof (proj1 (processed_snippets_are_checked_or_recorded sampleVM
                       (sampleLoaded [sampleDerived; sampleBase]) []
                       newClassLoader
                       (sampleVerifyData (Some [mkSnippet 3 1; mkSnippet 0 2]))
                       [] sampleLoaderAppSerializable (sampleVerifyData None)
                       [])
                [mkSnippet 3 1; mkSnippet 0 2] eq_refl
                ltac:(vm_compute; reflexivity)) as (_ & _ & Hall).
  split.
  - apply (Hall (mkSnippet 3 1)). by apply elem_of_cons; left.
  - apply (Hall (mkSnippet 0 2)). apply elem_of_cons; right.
    by apply elem_of_cons; left.
Defined.

Lemma cached_snippets_process_like_the_table_witness :
  exists h' cl' processResult trace,
    sampleProcess (sampleLoaded sampleClasses) [] newClassLoader
      (sampleVerifyData (Some sampleSnippets)) None
    = Some (h', cl', sampleVerifyData None, processResult, trace)
    /\ forall verifyData',
         sampleProcess (sampleLoaded sampleClasses) [] newClassLoader
           verifyData' (Some (sampleBuffer 2))
         = Some (h', cl', verifyData', processResult, trace).
Proof.
  apply (cached_snippets_process_like_the_table sampleVM 2
           (sampleLoaded sampleClasses) [] newClassLoader
           (sampleVerifyData (Some sampleSnippets)) sampleSnippets [] []
           (sampleBuffer 2)).
  - reflexivity.
  - intros entry Hin.
    repeat (apply elem_of_cons in Hin as [->|Hin]; [vm_compute; done|]).
    by apply elem_of_nil in Hin.
  - vm_compute. reflexivity.
  - vm_compute. reflexivity.
Defined.


(** * Where the errors of a pass come from *)

(** A class loader with the table but without the pool got there by a
    failed allocation, unless it was so before. *)
Lemma record_pool_state h cl childClassName parentClassName :
  let recorded :=
    j9bcv_recordClassRelationship h cl childClassName parentClassName in
  classRelationshipsHashTable recorded.1.2 <> None ->
  classRelationshipsPool recorded.1.2 = false ->
  false ∈ h
  \/ (classRelationshipsHashTable cl <> None
      /\ classRelationshipsPool cl = false).
Proof.
  assert (forall h0 cl0,
    classRelationshipsPool
      (match findOrAddChildEntry h0 cl0 childClassName with
       | (h2, cl2, Some entry) =>
           recordParent h2 cl2 childClassName parentClassName entry
       | (h2, cl2, None) => (h2, cl2, false)
       end).1.2 = classRelationshipsPool cl0) as Hpool.
  { intros h0 cl0.
    destruct (findOrAddChildEntry h0 cl0 childClassName)
      as [[h2 cl2] [entry|]] eqn:Hentry;
      apply findOrAddChildEntry_cause in Hentry as (_ & _ & Hpool2);
      [|done].
    destruct (recordParent h2 cl2 childClassName parentClassName entry)
      as [[h3 cl3] ok] eqn:Hrecord.
    apply recordParent_cause in Hrecord as (_ & _ & Hpool3). simpl.
    by rewrite Hpool3. }
  unfold j9bcv_recordClassRelationship.
  destruct (classRelationshipsHashTable cl) as [table|] eqn:Htable.
  - cbn [negb Z.eqb]. rewrite Hpool. intros _ Hnull. by right.
  - unfold allocateClassRelationshipTableAndPool.
    destruct (allocate h) as [[|] h1] eqn:Hfirst;
      pose proof (allocate_failed _ _ _ Hfirst) as [Hfail1 Hh1].
    + destruct (allocate h1) as [[|] h2] eqn:Hsecond;
        pose proof (allocate_failed _ _ _ Hsecond) as [Hfail2 Hh2];
        cbn [negb Z.eqb].
      * rewrite Hpool. by intros _ [=].
      * intros _ _. left. by auto.
    + intros _ _. left. by auto.
Qed.

Section ErrorProperties.

Variable vm : J9JavaVM.

Implicit Types (hashClassTableAt : string -> option (J9Class vm)).
Implicit Types (childClass parentClass : J9Class vm).

(** A check leaves memory and class loader alone or is a record. *)
Lemma checkSnippetRelationship_cases hashClassTableAt h cl childClassName
    parentClassName h1 cl1 reasonCode trace :
  checkSnippetRelationship hashClassTableAt h cl childClassName parentClassName
  = (h1, cl1, reasonCode, trace) ->
  match reasonCode with
  | BCV_SUCCESS => trace = []
  | BCV_ERR_INTERNAL_ERROR =>
      (h1, cl1) = (h, cl)
      /\ trace
         = [Trc_RTV_validateClassRelationships_InvalidRelationship
              parentClassName]
      /\ exists parentClass childClass,
           hashClassTableAt parentClassName = Some parentClass
           /\ hashClassTableAt childClassName = Some childClass
           /\ parentAccepted parentClass childClass = false
  | BCV_ERR_INSUFFICIENT_MEMORY =>
      trace = []
      /\ (hashClassTableAt parentClassName = None
          \/ hashClassTableAt childClassName = None)
      /\ j9bcv_recordClassRelationship h cl childClassName parentClassName
         = (h1, cl1, false)
  end
  /\ ((h1, cl1) = (h, cl)
      \/ (h1, cl1)
         = (j9bcv_recordClassRelationship h cl childClassName
              parentClassName).1).
Proof.
  unfold checkSnippetRelationship, parentAccepted.
  destruct (hashClassTableAt parentClassName) as [parentClass|] eqn:Hparent.
  - destruct (J9ROMCLASS_IS_INTERFACE parentClass) eqn:Hinterface.
    { intros [= <- <- <- <-]. by auto. }
    destruct (hashClassTableAt childClassName) as [childClass|] eqn:Hchild.
    + destruct (isSameOrSuperClassOf parentClass childClass) eqn:Hsuper;
        intros [= <- <- <- <-]; [by auto|].
      split; [|by auto]. split; [done|]. split; [done|].
      exists parentClass, childClass. by rewrite Hinterface, Hsuper.
    + destruct (j9bcv_recordClassRelationship h cl childClassName
                  parentClassName) as [[h2 cl2] [|]];
        intros [= <- <- <- <-]; simpl; by auto.
  - destruct (j9bcv_recordClassRelationship h cl childClassName
                parentClassName) as [[h2 cl2] [|]];
      intros [= <- <- <- <-]; simpl; by auto.
Qed.

(** What a check hands on: a failed allocation in the memory it leaves
    was in the memory it got, and a class loader it leaves without a
    pool was so before or came from a failed allocation. *)
Lemma checkSnippetRelationship_state hashClassTableAt h cl childClassName
    parentClassName h1 cl1 reasonCode trace :
  checkSnippetRelationship hashClassTableAt h cl childClassName parentClassName
  = (h1, cl1, reasonCode, trace) ->
  (false ∈ h1 -> false ∈ h)
  /\ (classRelationshipsHashTable cl1 <> None ->
      classRelationshipsPool cl1 = false ->
      false ∈ h
      \/ (classRelationshipsHashTable cl <> None
          /\ classRelationshipsPool cl = false)).
Proof.
  intros Hcheck.
  apply checkSnippetRelationship_cases in Hcheck as [_ [[= -> ->]|Hrecord]];
    [by auto|].
  pose proof (record_pool_state h cl childClassName parentClassName) as Hpool.
  destruct (j9bcv_recordClassRelationship h cl childClassName parentClassName)
    as [[h2 cl2] ok] eqn:Hrun.
  simpl in Hrecord, Hpool. injection Hrecord as -> ->.
  apply record_cause in Hrun as [_ Hheap]. by auto.
Qed.

(** A pass over names that ends in an error has got through the names
    before one of them, and the check of that one gave the error. *)
Lemma processSnippetNames_failure hashClassTableAt snippets :
  forall h cl h' cl' reasonCode trace,
    processSnippetNames hashClassTableAt h cl snippets
    = (h', cl', reasonCode, trace) ->
    reasonCode <> BCV_SUCCESS ->
    exists before childClassName parentClassName after h1 cl1 checked,
      snippets = before ++ (childClassName, parentClassName) :: after
      /\ (false ∈ h1 -> false ∈ h)
      /\ (classRelationshipsHashTable cl1 <> None ->
          classRelationshipsPool cl1 = false ->
          false ∈ h
          \/ (classRelationshipsHashTable cl <> None
              /\ classRelationshipsPool cl = false))
      /\ checkSnippetRelationship hashClassTableAt h1 cl1 childClassName
           parentClassName = (h', cl', reasonCode, checked)
      /\ trace
         = checked
             ++ [Trc_RTV_processClassRelationshipSnippets_ErrorWhileProcessing
                   childClassName parentClassName].
Proof.
  induction snippets as [|[childClassName parentClassName] next IH];
    intros h cl h' cl' reasonCode trace; simpl.
  - by intros [= <- <- <- <-].
  - destruct (checkSnippetRelationship hashClassTableAt h cl childClassName
                parentClassName) as [[[h1 cl1] reasonCode1] trace1] eqn:Hcheck.
    assert (reasonCode1 <> BCV_SUCCESS ->
            (h1, cl1, reasonCode1,
             trace1
               ++ [Trc_RTV_processClassRelationshipSnippets_ErrorWhileProcessing
                     childClassName parentClassName])
            = (h', cl', reasonCode, trace) ->
            exists before childClassName0 parentClassName0 after h2 cl2 checked,
              (childClassName, parentClassName) :: next
              = before ++ (childClassName0, parentClassName0) :: after
              /\ (false ∈ h2 -> false ∈ h)
              /\ (classRelationshipsHashTable cl2 <> None ->
                  classRelationshipsPool cl2 = false ->
                  false ∈ h
                  \/ (classRelationshipsHashTable cl <> None
                      /\ classRelationshipsPool cl = false))
              /\ checkSnippetRelationship hashClassTableAt h2 cl2
                   childClassName0 parentClassName0
                 = (h', cl', reasonCode, checked)
              /\ trace
                 = checked ++
               [Trc_RTV_processClassRelationshipSnippets_ErrorWhileProcessing
                  childClassName0 parentClassName0]) as Hhere.
    { intros _ [= <- <- <- <-].
      exists [], childClassName, parentClassName, next, h, cl, trace1.
      split; [done|]. split; [done|]. split; [by auto|done]. }
    destruct reasonCode1; [|by intros Hrun _; apply Hhere..].
    pose proof (checkSnippetRelationship_cases _ _ _ _ _ _ _ _ _ Hcheck)
      as [-> _].
    apply checkSnippetRelationship_state in Hcheck as [Hheap Hpool].
    destruct (processSnippetNames hashClassTableAt h1 cl1 next)
      as [[[h2 cl2] reasonCode2] trace2] eqn:Hnext.
    intros [= <- <- <- <-] Hfailed.
    destruct (IH _ _ _ _ _ _ Hnext Hfailed)
      as (before & child & parent & after & h3 & cl3 & checked & -> & Hheap3
          & Hpool3 & Hcheck3 & ->).
    exists ((childClassName, parentClassName) :: before), child, parent, after,
      h3, cl3, checked.
    split; [done|]. split; [by auto|]. split; [|done].
    intros Htable Hnull. destruct (Hpool3 Htable Hnull) as [|[? ?]]; by auto.
Qed.

(** The loop over a cached buffer is the loop over the names of the
    snippets it has read, which are the first of the buffer. *)
Lemma processCachedSnippets_read hashClassTableAt buffer :
  forall remaining i h cl result,
    processCachedSnippets hashClassTableAt h cl buffer i remaining
    = Some result ->
    exists names,
      (length names <= remaining)%nat
      /\ (forall (k : nat) pair,
            names !! k = Some pair ->
            readCachedSnippet buffer (i + Z.of_nat k) = Some pair)
      /\ processSnippetNames hashClassTableAt h cl names = result.
Proof.
  induction remaining as [|remaining IH]; intros i h cl result; simpl.
  - intros [= <-]. exists []. split; [done|]. split; [|done].
    intros k pair Hk. by rewrite lookup_nil in Hk.
  - destruct (readCachedSnippet buffer i) as [[child parent]|] eqn:Hfirst;
      [|done].
    simpl.
    destruct (checkSnippetRelationship hashClassTableAt h cl child parent)
      as [[[h1 cl1] reasonCode] trace1] eqn:Hcheck.
    assert (forall names,
              names = [(child, parent)] ->
              (length names <= S remaining)%nat
              /\ forall (k : nat) pair,
                   names !! k = Some pair ->
                   readCachedSnippet buffer (i + Z.of_nat k) = Some pair)
      as Hone.
    { intros names ->. split; [simpl; lia|]. intros [|k] pair; [|done].
      intros [= <-]. by rewrite Z.add_0_r. }
    destruct reasonCode.
    + destruct (processCachedSnippets hashClassTableAt h1 cl1 buffer (i + 1)
                  remaining) as [[[[h2 cl2] reasonCode2] trace2]|] eqn:Hnext;
        [|done].
      simpl. intros [= <-].
      destruct (IH _ _ _ _ Hnext) as (rest & Hlength & Hread & Hrest).
      exists ((child, parent) :: rest). split; [simpl; lia|]. split.
      * intros [|k] pair; simpl.
        -- intros [= <-]. by rewrite Z.add_0_r.
        -- intros Hk. rewrite <- (Hread k pair Hk). f_equal. lia.
      * simpl. by rewrite Hcheck, Hrest.
    + intros [= <-]. exists [(child, parent)].
      destruct (Hone _ eq_refl) as [? ?]. split; [done|]. split; [done|].
      simpl. by rewrite Hcheck.
    + intros [= <-]. exists [(child, parent)].
      destruct (Hone _ eq_refl) as [? ?]. split; [done|]. split; [done|].
      simpl. by rewrite Hcheck.
Qed.

(** The names that a pass goes through are snippets it was given. *)
Lemma process_names hashClassTableAt h cl verifyData
    snippetsDataDescriptorAddress h' cl' verifyData' processResult trace :
  j9bcv_processClassRelationshipSnippets hashClassTableAt h cl verifyData
    snippetsDataDescriptorAddress
  = Some (h', cl', verifyData', processResult, trace) ->
  exists names,
    processSnippetNames hashClassTableAt h cl names
    = (h', cl', processResult, trace)
    /\ forall childClassName parentClassName,
         (childClassName, parentClassName) ∈ names ->
         snippetGiven verifyData snippetsDataDescriptorAddress childClassName
           parentClassName.
Proof.
  destruct snippetsDataDescriptorAddress as [buffer|]; simpl.
  - unfold processClassRelationshipSnippetsUsingCachedData.
    destruct (readSnippetCount buffer) as [snippetCount|] eqn:Hcount; [|done].
    simpl.
    destruct (processCachedSnippets hashClassTableAt h cl buffer 0
                (Z.to_nat snippetCount))
      as [[[[h1 cl1] reasonCode] trace1]|] eqn:Hrun; [|done].
    simpl. intros [= <- <- <- <- <-].
    apply processCachedSnippets_read in Hrun
      as (names & Hlength & Hread & Hrun).
    exists names. split; [done|]. intros child parent Hin.
    apply list_elem_of_lookup in Hin as [k Hk].
    pose proof (lookup_lt_Some _ _ _ Hk) as Hbound.
    exists snippetCount, (Z.of_nat k). split; [done|]. split; [lia|].
    rewrite <- (Hread k _ Hk). f_equal.
  - unfold snippetTable.
    destruct (classRelationshipSnippetsHashTable verifyData)
      as [snippetEntries|].
    + unfold processClassRelationshipSnippetsNoCachedData.
      destruct (processSnippetNames hashClassTableAt h cl
                  (snippetNames verifyData <$> snippetEntries))
        as [[[h1 cl1] reasonCode] trace1] eqn:Hrun.
      intros [= <- <- <- <- <-]. eexists. split; [exact Hrun|].
      intros child parent Hin.
      apply list_elem_of_fmap in Hin as (snippetEntry & Hnames & Hin).
      by exists snippetEntry.
    + intros [= <- <- <- <- <-]. exists []. split; [done|].
      intros child parent Hin. by apply elem_of_nil in Hin.
Qed.

(** X20: the errors of [j9bcv_processClassRelationshipSnippets] have a
    cause among the snippets that the pass was given.  When it returns
    [BCV_ERR_INTERNAL_ERROR], both classes of one snippet are loaded
    and the parent is neither an interface nor the same as or a
    superclass of the child, and the two trace points name the pair.
    When it returns [BCV_ERR_INSUFFICIENT_MEMORY], one class of a
    snippet is not loaded and the trace point names the pair, and an
    allocation has failed or the class loader had the table but not the
    pool when the pass began. *)
Theorem processing_errors_have_a_cause hashClassTableAt h cl verifyData
    snippetsDataDescriptorAddress h' cl' verifyData' processResult trace :
  j9bcv_processClassRelationshipSnippets hashClassTableAt h cl verifyData
    snippetsDataDescriptorAddress
  = Some (h', cl', verifyData', processResult, trace) ->
  (processResult = BCV_ERR_INTERNAL_ERROR ->
   exists childClassName parentClassName parentClass childClass,
     snippetGiven verifyData snippetsDataDescriptorAddress childClassName
       parentClassName
     /\ hashClassTableAt parentClassName = Some parentClass
     /\ hashClassTableAt childClassName = Some childClass
     /\ parentAccepted parentClass childClass = false
     /\ trace = violationTrace childClassName parentClassName)
  /\ (processResult = BCV_ERR_INSUFFICIENT_MEMORY ->
      (false ∈ h
       \/ (classRelationshipsHashTable cl <> None
           /\ classRelationshipsPool cl = false))
      /\ exists childClassName parentClassName,
           snippetGiven verifyData snippetsDataDescriptorAddress childClassName
             parentClassName
           /\ (hashClassTableAt parentClassName = None
               \/ hashClassTableAt childClassName = None)
           /\ trace
              = [Trc_RTV_processClassRelationshipSnippets_ErrorWhileProcessing
                   childClassName parentClassName]).
Proof.
  intros Hprocess.
  apply process_names in Hprocess as (names & Hrun & Hgiven).
  split; intros ->.
  - apply processSnippetNames_failure in Hrun
      as (before & child & parent & after & h1 & cl1 & checked & -> & _ & _
          & Hcheck & ->); [|done].
    apply checkSnippetRelationship_cases in Hcheck
      as [(_ & -> & parentClass & childClass & Hparent & Hchild & Hnot) _].
    exists child, parent, parentClass, childClass.
    split; [|done]. apply Hgiven, elem_of_app. right.
    by apply elem_of_cons; left.
  - apply processSnippetNames_failure in Hrun
      as (before & child & parent & after & h1 & cl1 & checked & -> & Hheap
          & Hpool & Hcheck & ->); [|done].
    apply checkSnippetRelationship_cases in Hcheck
      as [(-> & Hunloaded & Hrecord) _].
    split.
    + apply record_cause in Hrecord as [Hcause _].
      destruct (Hcause eq_refl) as [|[Htable Hnull]]; [by auto|].
      by apply Hpool.
    + exists child, parent. split; [|done]. apply Hgiven, elem_of_app. right.
      by apply elem_of_cons; left.
Qed.

End ErrorProperties.

Lemma processing_errors_have_a_cause_witness :
  exists childClassName parentClassName parentClass childClass,
    snippetGiven (sampleVerifyData (Some sampleSnippets)) None childClassName
      parentClassName
    /\ sampleLoaded sampleClasses parentClassName = Some parentClass
    /\ sampleLoaded sampleClasses childClassName = Some childClass
    /\ parentAccepted (vm := sampleVM) parentClass childClass = false
    /\ violationTrace "App" "Base"
       = violationTrace childClassName parentClassName.
Proof.
  apply (proj1 (processing_errors_have_a_cause sampleVM
                  (sampleLoaded sampleClasses) [] newClassLoader
                  (sampleVerifyData (Some sampleSnippets)) None []
                  newClassLoader (sampleVerifyData None)
                  BCV_ERR_INTERNAL_ERROR (violationTrace "App" "Base")
                  ltac:(vm_compute; reflexivity))).
  reflexivity.
Defined.

(** * Further properties of the data buffer *)

Lemma serialized_snippets_filled_witness :
  exists h' dataBuffer,
    fillDataBuffer 0 (sampleVerifyData (Some sampleSnippets)) [] sampleSnippets
    = Some (h', dataBuffer, BCV_SUCCESS)
    /\ deserialize dataBuffer
       = Some (snippetNames (sampleVerifyData (Some sampleSnippets))
                 <$> sampleSnippets).
Proof.
  apply (serialized_snippets_filled 0 (sampleVerifyData (Some sampleSnippets))
           [] sampleSnippets).
  - intros entry Hin.
    repeat (apply elem_of_cons in Hin as [->|Hin]; [vm_compute; done|]).
    by apply elem_of_nil in Hin.
  - vm_compute. reflexivity.
  - apply not_elem_of_nil.
Defined.

Lemma name_mapping_unobservable_witness :
  deserialize (sampleBuffer 0) = deserialize (sampleBuffer 5).
Proof.
  apply (name_mapping_unobservable 0 5
           (sampleVerifyData (Some sampleSnippets)) [] [] sampleSnippets [] []
           (sampleBuffer 0) (sampleBuffer 5)).
  - intros entry Hin.
    repeat (apply elem_of_cons in Hin as [->|Hin]; [vm_compute; done|]).
    by apply elem_of_nil in Hin.
  - vm_compute. reflexivity.
  - vm_compute. reflexivity.
  - vm_compute. reflexivity.
Defined.

(** ** Storing to the shared classes cache *)

(** X14: [j9bcv_storeClassRelationshipSnippetsToSharedCache] for names
    shorter than 65535 bytes and a buffer of less than 2^31 bytes.
    Without snippets it returns [BCV_SUCCESS] and touches neither the
    memory nor the cache.  With snippets, a key that cannot be allocated
    gives [BCV_ERR_INTERNAL_ERROR]; whenever the result is not
    [BCV_SUCCESS] the cache is as it was and an allocation has failed
    or the cache has refused the data; no result comes back (an
    assertion trips, or the cleanup of [storeToDataBuffer] walks a
    [NULL] table) only after a failed allocation; so with memory
    granted and a cache that accepts,
    the result is [BCV_SUCCESS]; and on [BCV_SUCCESS] the cache has
    got one buffer, which reads back as the names of the snippets in
    the order of the table. *)
Theorem store_fails_only_without_memory_or_cache threshold h verifyData
    cacheAvailable cache :
  namesShorter verifyData 65535 (snippetTable verifyData) ->
  dataBufferSizeOf verifyData (snippetTable verifyData) < 2 ^ 31 ->
  let stored :=
    j9bcv_storeClassRelationshipSnippetsToSharedCache threshold h verifyData
      cacheAvailable cache in
  (snippetCountOf verifyData = O -> stored = Some (h, cache, BCV_SUCCESS))
  /\ (snippetCountOf verifyData <> O -> (allocate h).1 = false ->
      stored = Some ((allocate h).2, cache, BCV_ERR_INTERNAL_ERROR))
  /\ (forall h' cache' storeResult,
        stored = Some (h', cache', storeResult) ->
        storeResult <> BCV_SUCCESS ->
        cache' = cache /\ (false ∈ h \/ cacheAvailable = false))
  /\ (stored = None -> false ∈ h)
  /\ (false ∉ h -> cacheAvailable = true ->
      exists h' cache', stored = Some (h', cache', BCV_SUCCESS))
  /\ (forall h' cache',
        stored = Some (h', cache', BCV_SUCCESS) ->
        snippetCountOf verifyData <> O ->
        exists key dataBuffer,
          cache' = <[key := dataBuffer]> cache
          /\ deserialize dataBuffer
             = Some (snippetNames verifyData <$> snippetTable verifyData)).
Proof.
  unfold snippetTable, snippetCountOf,
    j9bcv_storeClassRelationshipSnippetsToSharedCache,
    generateClassRelationshipSnippetsKey.
  destruct (classRelationshipSnippetsHashTable verifyData)
    as [[|snippetEntry next]|]; cbn [default length];
    intros Hshort Hsmall;
    [by repeat split; intros; simplify_eq; eauto| |
     by repeat split; intros; simplify_eq; eauto].
  set (snippetEntries := snippetEntry :: next) in *.
  destruct (allocate h) as [[|] h1] eqn:Hkey;
    pose proof (allocate_failed _ _ _ Hkey) as [Hfail Hh1]; cbn [fst snd].
  2:{ split; [done|]. split; [done|].
      split; [intros h' cache' storeResult [= <- <- <-] _; by auto|].
      split; [done|].
      split; [intros Hgranted; exfalso; by auto|done]. }
  pose proof (serialized_snippets_read_back threshold verifyData h1
                snippetEntries Hshort Hsmall) as Houtcome.
  destruct (fillDataBuffer threshold verifyData h1 snippetEntries)
    as [[[h2 dataBuffer] [| |]]|]; cbn [serializeOutcome] in Houtcome;
    cbn [mbind option_bind]; [|done| |].
  - destruct Houtcome as [Hread Hh2]. unfold storeSharedData.
    destruct cacheAvailable.
    + split; [done|]. split; [done|].
      split; [by intros h' cache' storeResult [= <- <- <-]|].
      split; [done|]. split; [by eauto|].
      intros h' cache' [= <- <-] _. by eauto.
    + split; [done|]. split; [done|].
      split; [intros h' cache' storeResult [= <- <- <-] _; by auto|].
      split; [done|]. split; [done|]. by intros h' cache' [=].
  - split; [done|]. split; [done|].
    split; [intros h' cache' storeResult [= <- <- <-] _; by auto|].
    split; [done|].
    split; [intros Hgranted; exfalso; by auto|by intros h' cache' [=]].
  - split; [done|]. split; [done|]. split; [done|].
    split; [by auto|]. split; [intros Hgranted; exfalso; by auto|done].
Qed.

Lemma store_fails_only_without_memory_or_cache_witness :
  exists h' cache',
    j9bcv_storeClassRelationshipSnippetsToSharedCache 2 []
      (sampleVerifyData (Some sampleSnippets)) true ∅
    = Some (h', cache', BCV_SUCCESS).
Proof.
  apply (store_fails_only_without_memory_or_cache 2 []
           (sampleVerifyData (Some sampleSnippets)) true ∅).
  - intros entry Hin.
    repeat (apply elem_of_cons in Hin as [->|Hin]; [vm_compute; done|]).
    by apply elem_of_nil in Hin.
  - vm_compute. reflexivity.
  - apply not_elem_of_nil.
  - reflexivity.
Defined.

(** ** One class name in the buffer *)

(** [setCurrentAndNextUTF8s] stays within the buffer exactly when the
    buffer has room at the next address. *)
Lemma class_name_room verifyData buffer nextUTF8Address classNameIndex :
  is_Some (setCurrentAndNextUTF8s verifyData buffer nextUTF8Address
             classNameIndex)
  <-> 0 <= nextUTF8Address
      /\ nextUTF8Address
         + Z.of_nat (String.length (classNameList verifyData classNameIndex))
         + 3 <= Z.of_nat (length buffer).
Proof.
  unfold setCurrentAndNextUTF8s.
  set (className := classNameList verifyData classNameIndex).
  set (data := encodeLE 2 (Z.of_nat (String.length className))
                 ++ String.list_byte_of_string className ++ [Byte.x00]).
  assert (length data = (2 + String.length className + 1)%nat) as Hdata.
  { unfold data. rewrite !length_app, length_encodeLE,
      length_list_byte_of_string. simpl. lia. }
  split.
  - intros [result Hresult].
    destruct (storeBytes buffer nextUTF8Address data) as [buffer'|]
      eqn:Hstore; [|done].
    apply storeBytes_inv in Hstore as (Hlow & Hhigh & _).
    rewrite Hdata in Hhigh. lia.
  - intros [Hlow Hhigh]. rewrite storeBytes_Some; [done|lia|].
    rewrite Hdata. lia.
Qed.

(** X15: [setCurrentAndNextUTF8s] stays within the buffer exactly when
    the buffer has room for the length, the name and the closing 0 at
    the next address.  It then returns that address and the size, the
    length of the name plus 3; the buffer keeps its size and all its
    bytes outside of what was written; the length that is read back is
    the length of the name modulo 2^16; a name shorter than 2^16 bytes
    reads back as it is; and the byte after the name is 0. *)
Theorem class_name_utf8_is_read_back verifyData buffer nextUTF8Address
    classNameIndex :
  let className := classNameList verifyData classNameIndex in
  let classNameLength := Z.of_nat (String.length className) in
  (is_Some (setCurrentAndNextUTF8s verifyData buffer nextUTF8Address
              classNameIndex)
   <-> 0 <= nextUTF8Address
       /\ nextUTF8Address + classNameLength + 3 <= Z.of_nat (length buffer))
  /\ forall buffer' utf8Address utf8AddressSize,
       setCurrentAndNextUTF8s verifyData buffer nextUTF8Address classNameIndex
       = Some (buffer', utf8Address, utf8AddressSize) ->
       utf8Address = nextUTF8Address
       /\ utf8AddressSize = classNameLength + 3
       /\ length buffer' = length buffer
       /\ J9UTF8_LENGTH buffer' utf8Address = Some (classNameLength mod 2 ^ 16)
       /\ (classNameLength < 2 ^ 16 ->
           readClassName buffer' utf8Address = Some className)
       /\ loadBytes buffer' (utf8Address + 2 + classNameLength) 1
          = Some [Byte.x00]
       /\ forall j : nat,
            Z.of_nat j < nextUTF8Address
            \/ nextUTF8Address + classNameLength + 3 <= Z.of_nat j ->
            buffer' !! j = buffer !! j.
Proof.
  intros className classNameLength.
  split; [apply class_name_room|].
  unfold setCurrentAndNextUTF8s. fold className. fold classNameLength.
  set (data := encodeLE 2 classNameLength
                 ++ String.list_byte_of_string className ++ [Byte.x00]).
  assert (length data = (2 + String.length className + 1)%nat) as Hdata.
  { unfold data. rewrite !length_app, length_encodeLE,
      length_list_byte_of_string. simpl. lia. }
  intros buffer' utf8Address utf8AddressSize.
    destruct (storeBytes buffer nextUTF8Address data) as [stored|] eqn:Hstore;
      [|done].
    cbn [mbind option_bind]. intros [= <- <- <-].
    pose proof (storeBytes_inv _ _ _ _ Hstore) as (Hlow & Hhigh & _).
    rewrite Hdata in Hhigh.
    assert (loadBytes stored nextUTF8Address 2
            = Some (encodeLE 2 classNameLength)) as Hlength.
    { replace nextUTF8Address with (nextUTF8Address + Z.of_nat 0) at 1 by lia.
      rewrite (loadBytes_stored _ _ _ _ 0 2 Hstore) by lia.
      unfold data. simpl. reflexivity. }
    split; [done|]. split; [lia|].
    split; [by eapply storeBytes_length|].
    split.
    { unfold J9UTF8_LENGTH. rewrite Hlength.
      cbn [fmap option_fmap option_map]. f_equal. apply decodeLE_encodeLE. }
    split.
    { intros Hshort. apply (holdsClassName_read _ 0 (Z.of_nat (length stored))).
      split; [lia|]. split.
      - rewrite (storeBytes_length _ _ _ _ Hstore).
        unfold classNameLength in *. lia.
      - eapply J9UTF8_DATA_intro; [exact Hlength| |].
        + rewrite length_list_byte_of_string. apply decodeLE_encodeLE_small.
          change (256 ^ Z.of_nat 2) with (2 ^ 16).
          unfold classNameLength in *. lia.
        + rewrite length_list_byte_of_string.
          change 2 with (Z.of_nat 2) at 1.
          rewrite (loadBytes_stored _ _ _ _ 2 (String.length className) Hstore)
            by lia.
          f_equal. unfold data. simpl.
          rewrite drop_0, take_app_length'; [done|].
          symmetry. apply length_list_byte_of_string. }
    split.
    { replace (nextUTF8Address + 2 + classNameLength)
        with (nextUTF8Address + Z.of_nat (2 + String.length className))
        by (unfold classNameLength; lia).
      rewrite (loadBytes_stored _ _ _ _ (2 + String.length className) 1 Hstore)
        by lia.
      f_equal. unfold data. cbn [encodeLE app Nat.add drop].
      rewrite drop_app_length'
        by (symmetry; apply length_list_byte_of_string).
      reflexivity. }
    intros j Hj. rewrite (storeBytes_lookup _ _ _ _ j Hstore).
    rewrite decide_False; [done|]. rewrite Hdata.
    unfold classNameLength in Hj. lia.
Qed.

Lemma class_name_utf8_is_read_back_witness :
  match setCurrentAndNextUTF8s (sampleVerifyData None) (replicate 8 Byte.x00)
          1 1 with
  | Some (buffer', utf8Address, utf8AddressSize) =>
      utf8AddressSize = 7
      /\ readClassName buffer' utf8Address = Some "Base"
  | None => False
  end.
Proof.
  destruct (setCurrentAndNextUTF8s (sampleVerifyData None)
              (replicate 8 Byte.x00) 1 1)
    as [[[buffer' utf8Address] utf8AddressSize]|] eqn:Hset.
  - destruct (proj2 (class_name_utf8_is_read_back (sampleVerifyData None)
                       (replicate 8 Byte.x00) 1 1)
                buffer' utf8Address utf8AddressSize Hset)
      as (_ & Hsize & _ & _ & Hread & _).
    split; [exact Hsize|]. apply Hread. vm_compute. reflexivity.
  - vm_compute in Hset. discriminate Hset.
Defined.

(** ** The size of the names *)

Lemma namesSize_Permutation verifyData snippetEntries reordered :
  reordered ≡ₚ snippetEntries ->
  namesSize verifyData reordered = namesSize verifyData snippetEntries.
Proof.
  induction 1 as [|entry before after _ IH|first second rest|? ? ? _ IH1 _ IH2];
    simpl; [done|by rewrite IH|lia|by rewrite IH1].
Qed.

(** X16: for a table of snippets whose names are shorter than 65535
    bytes, [getTotalUTF8Size] is the sum, over the snippets, of the
    lengths of both names plus 3 for each: every use of a name counts,
    also a name that several snippets share, and the order of the table
    does not matter. *)
Theorem total_utf8_size_counts_every_use verifyData snippetEntries :
  namesShorter verifyData 65535 snippetEntries ->
  namesSize verifyData snippetEntries < 2 ^ 64 ->
  getTotalUTF8Size verifyData snippetEntries 0
  = namesSize verifyData snippetEntries
  /\ forall reordered,
       reordered ≡ₚ snippetEntries ->
       getTotalUTF8Size verifyData reordered 0
       = getTotalUTF8Size verifyData snippetEntries 0.
Proof.
  intros Hshort Hsmall.
  assert (getTotalUTF8Size verifyData snippetEntries 0
          = namesSize verifyData snippetEntries) as Hsize
    by (rewrite getTotalUTF8Size_namesSize; [lia|done|lia|lia]).
  split; [done|]. intros reordered Hreordered. rewrite Hsize.
  pose proof (namesSize_Permutation verifyData _ _ Hreordered) as Hsame.
  rewrite getTotalUTF8Size_namesSize; [lia| |lia|lia].
  intros entry Hin. apply Hshort. by rewrite <- Hreordered.
Qed.

Lemma total_utf8_size_counts_every_use_witness :
  getTotalUTF8Size (sampleVerifyData (Some sampleSnippets)) sampleSnippets 0
  = 59.
Proof.
  rewrite (proj1 (total_utf8_size_counts_every_use
                    (sampleVerifyData (Some sampleSnippets)) sampleSnippets
                    ltac:(intros entry Hin;
                          repeat (apply elem_of_cons in Hin as [->|Hin];
                                  [vm_compute; done|]);
                          by apply elem_of_nil in Hin)
                    ltac:(vm_compute; reflexivity))).
  vm_compute. reflexivity.
Defined.

(** * Further properties of the name mappings *)

(** ** The array of names *)

Lemma scanClassNamesArray_range classNamesArray classNameIndex :
  forall remaining start i found,
    scanClassNamesArray classNamesArray remaining start classNameIndex
    = Some (i, found) ->
    (start <= i <= start + remaining)%nat
    /\ (forall j, (start <= j < i)%nat ->
                  exists entry, classNamesArray !! j = Some (Some entry))
    /\ (found = None ->
        i = (start + remaining)%nat \/ classNamesArray !! i = Some None).
Proof.
  induction remaining as [|remaining IH]; intros start i found; simpl.
  - intros [= <- <-]. split; [lia|]. split; [intros j; lia|]. intros _.
    left. lia.
  - destruct (classNamesArray !! start) as [[[index address]|]|] eqn:Hslot;
      [| |done].
    + destruct (classNameIndex =? index)%N.
      * intros [= <- <-]. split; [lia|]. split; [intros j; lia|done].
      * intros Hscan. destruct (IH _ _ _ Hscan) as (Hrange & Htaken & Hfree).
        split; [lia|]. split.
        -- intros j Hj. destruct (decide (j = start)) as [->|Hne];
             [by eauto|]. apply Htaken. lia.
        -- intros Hnone. destruct (Hfree Hnone) as [->|Hslot']; [left; lia|].
           by right.
    + intros [= <- <-]. split; [lia|]. split; [intros j; lia|]. by right.
Qed.

Lemma scanClassNamesArray_inserted classNamesArray classNameIndex address :
  forall remaining start i,
    scanClassNamesArray classNamesArray remaining start classNameIndex
    = Some (i, None) ->
    (i < start + remaining)%nat -> (i < length classNamesArray)%nat ->
    scanClassNamesArray
      (<[i := Some (classNameIndex, address)]> classNamesArray) remaining start
      classNameIndex
    = Some (i, Some address).
Proof.
  induction remaining as [|remaining IH]; intros start i; simpl.
  - intros [= <-]. lia.
  - destruct (classNamesArray !! start) as [[[index address0]|]|] eqn:Hslot;
      [| |done].
    + destruct (classNameIndex =? index)%N eqn:Hindex; [done|].
      intros Hscan Hi Hlength.
      pose proof (scanClassNamesArray_range _ _ _ _ _ _ Hscan) as [Hrange _].
      rewrite list_lookup_insert_ne by lia. rewrite Hslot, Hindex.
      apply IH; [done|lia|done].
    + intros [= <-] _ Hlength. rewrite list_lookup_insert_eq by done.
      by rewrite N.eqb_refl.
Qed.

(** X17: a lookup in the array of names that gives an address, made
    while a slot among the first [totalNumberOfIndices] is free, is
    stable: the same lookup made again gives the same address and
    changes neither the memory nor the buffer nor the array.  The first
    lookup either found the index and changed nothing, or it wrote the
    name at the next address and put the index with that address into
    a free slot. *)
Theorem array_lookup_is_stable verifyData st classNamesArray
    totalNumberOfIndices classNameIndex st' classNamesArray' address :
  (exists free,
     (free < totalNumberOfIndices)%nat
     /\ classNamesArray !! free = Some None) ->
  getUTF8AddressFromArray verifyData st classNamesArray totalNumberOfIndices
    classNameIndex = Some (st', classNamesArray', Some address) ->
  getUTF8AddressFromArray verifyData st' classNamesArray' totalNumberOfIndices
    classNameIndex = Some (st', classNamesArray', Some address)
  /\ ((st' = st /\ classNamesArray' = classNamesArray)
      \/ exists i,
           classNamesArray !! i = Some None
           /\ classNamesArray'
              = <[i := Some (classNameIndex, address)]> classNamesArray
           /\ address = nextUTF8Address st
           /\ nextUTF8Address st'
              = address
                + Z.of_nat (String.length
                              (classNameList verifyData classNameIndex))
                + 3).
Proof.
  intros (free & Hfree & Hslot). unfold getUTF8AddressFromArray.
  destruct (scanClassNamesArray classNamesArray totalNumberOfIndices 0
              classNameIndex) as [[i [found|]]|] eqn:Hscan; [| |done];
    cbn [mbind option_bind].
  - intros [= <- <- <-]. rewrite Hscan. cbn [mbind option_bind].
    split; [done|by left].
  - destruct (allocate (storeHeap st)) as [[|] h1]; [|done].
    unfold setCurrentAndNextUTF8s.
    destruct (storeBytes (storeBuffer st) (nextUTF8Address st) _)
      as [buffer'|]; [|done].
    cbn [mbind option_bind].
    destruct (Nat.ltb_spec i (length classNamesArray)) as [Hlength|]; [|done].
    intros [= <- <- <-].
    pose proof (scanClassNamesArray_range _ _ _ _ _ _ Hscan)
      as (Hrange & Htaken & Hstop).
    assert (i <= free)%nat as Hfirst.
    { destruct (decide (i <= free)%nat) as [|Hlater]; [done|].
      destruct (Htaken free ltac:(lia)) as [entry Hentry]. congruence. }
    rewrite (scanClassNamesArray_inserted _ _ _ _ _ _ Hscan)
      by (done || lia).
    cbn [mbind option_bind]. split; [done|]. right. exists i.
    split; [destruct (Hstop eq_refl) as [Hend|Hnull]; [exfalso; lia|done]|].
    split; [done|]. split; [done|]. simpl. lia.
Qed.

Lemma array_lookup_is_stable_witness :
  match sampleArrayLookup with
  | Some (st', classNamesArray', Some address) =>
      getUTF8AddressFromArray (sampleVerifyData None) st' classNamesArray' 4 1
      = Some (st', classNamesArray', Some address)
  | _ => False
  end.
Proof.
  destruct sampleArrayLookup as [[[st' classNamesArray'] [address|]]|]
    eqn:Hfirst.
  - refine (proj1 (array_lookup_is_stable (sampleVerifyData None)
                     (mkStoreState [] (replicate 16 Byte.x00) 8)
                     (replicate 4 None) 4 1 st' classNamesArray' address
                     _ Hfirst)).
    exists O. split; [lia|reflexivity].
  - vm_compute in Hfirst. discriminate Hfirst.
  - vm_compute in Hfirst. discriminate Hfirst.
Defined.

(** ** The hash table of names *)

(** X18: a lookup in the hash table of names for a name of which the
    buffer holds a [J9UTF8] already, known to the table, gives the
    address of a [J9UTF8] of that name that the table knows, and leaves
    the memory, the buffer, the next address and the table as they
    were: what it wrote at the next address is cleared again.  This is
    so when the name is shorter than 2^16 bytes, the buffer has room
    for it at the next address and the bytes there are 0. *)
Theorem hashtable_lookup_shares_equal_names verifyData st classNamesHashTable
    classNameIndex lo utf8 known :
  let className := classNameList verifyData classNameIndex in
  let classNameLength := Z.of_nat (String.length className) in
  0 <= lo <= nextUTF8Address st ->
  nextUTF8Address st + classNameLength + 3
  <= Z.of_nat (length (storeBuffer st)) ->
  classNameLength < 2 ^ 16 ->
  clearBytes (storeBuffer st) (nextUTF8Address st)
    (nextUTF8Address st + classNameLength + 3) ->
  mappingHolds (classNameList verifyData) (storeBuffer st) lo
    (nextUTF8Address st) O O
    (J9RELATIONSHIP_SNIPPET_USE_HASHTABLE classNamesHashTable) ->
  (utf8, known) ∈ classNamesHashTable ->
  holdsClassName (storeBuffer st) lo (nextUTF8Address st) known className ->
  exists address,
    getUTF8AddressFromHashTable verifyData st classNamesHashTable
      classNameIndex = Some (st, classNamesHashTable, Some address)
    /\ address ∈ classNamesHashTable.*2
    /\ holdsClassName (storeBuffer st) lo (nextUTF8Address st) address
         className.
Proof.
  intros className classNameLength Hlo Hroom Hshort Hclear Htable Hknown
    Hname.
  unfold getUTF8AddressFromHashTable.
  destruct (setCurrentAndNextUTF8s_spec verifyData (storeBuffer st)
              (nextUTF8Address st) classNameIndex lo Hlo Hroom Hshort)
    as (buffer' & -> & Hstore & Hholds).
  cbn [mbind option_bind]. fold className in Hholds, Hstore |- *.
  fold classNameLength in Hholds, Hstore |- *.
  assert (sameBytes (storeBuffer st) buffer' (nextUTF8Address st) lo
            (nextUTF8Address st)) as Hsame
    by (eapply storeBytes_sameBytes; [done|lia..]).
  pose proof (storeBytes_length _ _ _ _ Hstore) as Hlength.
  assert (forall entryUTF8 entryAddress name,
            (entryUTF8, entryAddress) ∈ classNamesHashTable ->
            holdsClassName (storeBuffer st) lo (nextUTF8Address st)
              entryAddress name ->
            holdsClassName buffer' lo (nextUTF8Address st) entryUTF8 name)
    as Hentries.
  { intros entryUTF8 entryAddress name Hin Hentry.
    destruct (Htable _ _ Hin) as [-> _].
    eapply (holdsClassName_sameBytes (storeBuffer st) buffer'
              (nextUTF8Address st) lo (nextUTF8Address st)
              (nextUTF8Address st)); [lia|lia|lia|done|done]. }
  destruct (List.find _ classNamesHashTable) as [[found address]|] eqn:Hfind.
  2:{ exfalso.
      pose proof (List.find_none _ _ Hfind (utf8, known)
                    ltac:(by apply list_elem_of_In)) as Hdiffer.
      simpl in Hdiffer.
      destruct (Hentries _ _ _ Hknown Hname) as (_ & _ & Hleft).
      destruct Hholds as (_ & _ & Hright).
      unfold relationshipClassNameHashEqualFn in Hdiffer.
      rewrite Hleft, Hright in Hdiffer.
      by rewrite bool_decide_eq_false in Hdiffer. }
  apply List.find_some in Hfind as [Hin Hequal]. simpl in Hequal.
  apply list_elem_of_In in Hin.
  destruct (Htable _ _ Hin) as [Hself [index Hentry]].
  pose proof (relationshipClassNameHashEqualFn_holds _ _ _ _ _ _ _ _ _
                (Hentries _ _ _ Hin Hentry) Hholds Hequal) as Hsamename.
  set (size := classNameLength + 1 + 2).
  assert (is_Some (storeBytes buffer' (nextUTF8Address st)
                     (replicate (Z.to_nat size) Byte.x00)))
    as [buffer'' Hcleared].
  { rewrite storeBytes_Some; [done|lia|].
    rewrite length_replicate, Hlength. unfold size. lia. }
  rewrite Hcleared. cbn [mbind option_bind snd].
  assert (buffer'' = storeBuffer st) as ->.
  { apply list_eq. intros j.
    rewrite (storeBytes_lookup _ _ _ _ j Hcleared), length_replicate.
    case_decide as Hj.
    - rewrite lookup_replicate_2 by lia. symmetry. apply Hclear.
      unfold size in Hj. lia.
    - rewrite (storeBytes_lookup _ _ _ _ j Hstore).
      rewrite decide_False; [done|].
      rewrite !length_app, length_encodeLE, length_list_byte_of_string.
      cbn [length]. unfold size, classNameLength, className in *. lia. }
  exists address. split; [by destruct st|].
  split; [apply list_elem_of_fmap; by exists (found, address)|].
  by rewrite <- Hsamename.
Qed.

Lemma hashtable_lookup_shares_equal_names_witness :
  exists address,
    getUTF8AddressFromHashTable (sampleVerifyData None) sampleNamedState
      [(8, 8)] 1
    = Some (sampleNamedState, [(8, 8)], Some address)
    /\ address ∈ [(8, 8)].*2
    /\ holdsClassName (storeBuffer sampleNamedState) 8
         (nextUTF8Address sampleNamedState) address "Base".
Proof.
  assert (holdsClassName (storeBuffer sampleNamedState) 8
            (nextUTF8Address sampleNamedState) 8 "Base") as Hbase
    by (split; [|split]; vm_compute; done).
  apply (hashtable_lookup_shares_equal_names (sampleVerifyData None)
           sampleNamedState [(8, 8)] 1 8 8 8).
  - vm_compute. split; discriminate.
  - vm_compute. discriminate.
  - vm_compute. reflexivity.
  - intros j Hj. change (15 <= Z.of_nat j < 22) in Hj.
    assert (j = 15 \/ j = 16 \/ j = 17 \/ j = 18 \/ j = 19 \/ j = 20
            \/ j = 21)%nat as Hcases by lia.
    repeat (destruct Hcases as [->|Hcases]; [vm_compute; reflexivity|]).
    subst j. vm_compute. reflexivity.
  - intros entryUTF8 entryAddress Hin.
    apply list_elem_of_singleton in Hin as [= -> ->]. split; [done|].
    by exists 1%N.
  - by apply list_elem_of_singleton.
  - exact Hbase.
Defined.

(** ** A name mapping that cannot be allocated *)

(** X19: what [storeToDataBuffer] makes of a failed allocation for its
    name mapping, for a table of two or more snippets.  With the array
    (a count up to the threshold), a failed allocation of the first
    array entry gives [BCV_ERR_INSUFFICIENT_MEMORY] with the buffer
    untouched.  With the hash table (a count above the threshold) no
    failed allocation comes back as a result: a failed [hashTableNew]
    takes the function to its cleanup, which starts a walk of the
    [NULL] table, and a failed [hashTableAdd] of the first name, which
    has been written at the next address by then, trips the
    assertion. *)
Theorem name_mapping_allocation_failure threshold verifyData h dataBuffer
    snippetEntry next dataBufferSnippetStart dataBufferUTF8Start :
  let snippetEntries := snippetEntry :: next in
  let classNameLength :=
    Z.of_nat (String.length
                (classNameList verifyData (childClassNameIndex snippetEntry)))
  in
  next <> [] ->
  0 <= dataBufferUTF8Start ->
  dataBufferUTF8Start + classNameLength + 3 <= Z.of_nat (length dataBuffer) ->
  ((length snippetEntries <= threshold)%nat ->
   storeToDataBuffer threshold verifyData (false :: h) dataBuffer snippetEntries
     dataBufferSnippetStart dataBufferUTF8Start (length snippetEntries)
   = Some (h, dataBuffer, BCV_ERR_INSUFFICIENT_MEMORY))
  /\ ((threshold < length snippetEntries)%nat ->
      storeToDataBuffer threshold verifyData (false :: h) dataBuffer
        snippetEntries dataBufferSnippetStart dataBufferUTF8Start
        (length snippetEntries)
      = None
      /\ is_Some (setCurrentAndNextUTF8s verifyData dataBuffer
                    dataBufferUTF8Start (childClassNameIndex snippetEntry))
      /\ storeToDataBuffer threshold verifyData (true :: false :: h) dataBuffer
           snippetEntries dataBufferSnippetStart dataBufferUTF8Start
           (length snippetEntries)
         = None).
Proof.
  intros snippetEntries classNameLength Hmore Hlow Hhigh.
  assert ((length snippetEntries =? 1)%nat = false) as Hcount.
  { apply Nat.eqb_neq. destruct next; [done|]. simpl. lia. }
  unfold storeToDataBuffer. rewrite Hcount. cbn [negb].
  split.
  - intros Harray.
    destruct (Nat.ltb_spec threshold (length snippetEntries)); [lia|].
    unfold snippetEntries at 1. cbn [storeSnippetEntries lookupUTF8Address].
    unfold getUTF8AddressFromArray.
    destruct threshold as [|threshold']; [simpl in Harray; lia|].
    cbn [length Nat.mul Nat.add replicate scanClassNamesArray lookup
         list_lookup mbind option_bind storeHeap allocate].
    reflexivity.
  - intros Htable.
    destruct (Nat.ltb_spec threshold (length snippetEntries)); [|lia].
    split; [reflexivity|].
    destruct (proj2 (class_name_room verifyData dataBuffer dataBufferUTF8Start
                       (childClassNameIndex snippetEntry)) (conj Hlow Hhigh))
      as [[[buffer' utf8Address] utf8AddressSize] Hwritten].
    split; [by eauto|].
    cbn [allocate]. unfold snippetEntries.
    cbn [storeSnippetEntries lookupUTF8Address].
    unfold getUTF8AddressFromHashTable.
    cbn [storeBuffer nextUTF8Address storeHeap]. rewrite Hwritten.
    reflexivity.
Qed.

Lemma name_mapping_allocation_failure_witness :
  (storeToDataBuffer 0 (sampleVerifyData None) [false]
     (replicate 32 Byte.x00) [mkSnippet 0 1; mkSnippet 3 1] 8 24 2
   = None
   /\ is_Some (setCurrentAndNextUTF8s (sampleVerifyData None)
                 (replicate 32 Byte.x00) 24 0)
   /\ storeToDataBuffer 0 (sampleVerifyData None) [true; false]
        (replicate 32 Byte.x00) [mkSnippet 0 1; mkSnippet 3 1] 8 24 2
      = None)
  /\ storeToDataBuffer 2 (sampleVerifyData None) [false]
       (replicate 32 Byte.x00) [mkSnippet 0 1; mkSnippet 3 1] 8 24 2
     = Some ([], replicate 32 Byte.x00, BCV_ERR_INSUFFICIENT_MEMORY).
Proof.
  split.
  - apply (proj2 (name_mapping_allocation_failure 0 (sampleVerifyData None) []
                    (replicate 32 Byte.x00) (mkSnippet 0 1) [mkSnippet 3 1]
                    8 24 ltac:(discriminate) ltac:(lia)
                    ltac:(vm_compute; discriminate))).
    simpl. lia.
  - apply (proj1 (name_mapping_allocation_failure 2 (sampleVerifyData None) []
                    (replicate 32 Byte.x00) (mkSnippet 0 1) [mkSnippet 3 1]
                    8 24 ltac:(discriminate) ltac:(lia)
                    ltac:(vm_compute; discriminate))).
    simpl. lia.
Defined.

(** * Which class a validation fails with, and the way of a snippet *)

Section LifecycleProperties.

Variable vm : J9JavaVM.

Implicit Types (hashClassTableAt : string -> option (J9Class vm)).
Implicit Types (childClass parentClass : J9Class vm).

(** A loop that stops with a class has met a loaded parent that is not
    accepted, or a failed allocation for a parent that is not loaded. *)
Lemma validateParentNodes_failed hashClassTableAt h table nodes childClass
    h' table' failedClass :
  validateParentNodes hashClassTableAt h table nodes childClass
  = (h', table', Some failedClass) ->
  (exists node,
     node ∈ nodes /\ hashClassTableAt node = Some failedClass
     /\ parentAccepted failedClass childClass = false)
  \/ (failedClass = childClass /\ false ∈ h
      /\ exists node, node ∈ nodes /\ hashClassTableAt node = None).
Proof.
  revert h table. induction nodes as [|node next IH]; intros h table; simpl;
    [done|].
  assert (forall h0 table0,
            (false ∈ h0 -> false ∈ h) ->
            validateParentNodes hashClassTableAt h0 table0 next childClass
            = (h', table', Some failedClass) ->
            (exists node0,
               node0 ∈ node :: next /\ hashClassTableAt node0 = Some failedClass
               /\ parentAccepted failedClass childClass = false)
            \/ (failedClass = childClass /\ false ∈ h
                /\ exists node0,
                     node0 ∈ node :: next /\ hashClassTableAt node0 = None))
    as Hnext.
  { intros h0 table0 Hheap Hrun.
    destruct (IH _ _ Hrun) as [(node0 & Hin & ? & ?)|(? & ? & node0 & Hin & ?)];
      [left|right; split; [done|]; split; [by auto|]];
      exists node0; (split; [by apply elem_of_cons; right|done]). }
  destruct (hashClassTableAt node) as [parentClass|] eqn:Hloaded.
  - destruct (J9ROMCLASS_IS_INTERFACE parentClass) eqn:Hinterface;
      [by apply Hnext|].
    destruct (isSameOrSuperClassOf parentClass childClass) eqn:Hsuper;
      [by apply Hnext|].
    intros [= <- <- <-]. left. exists node.
    split; [by apply elem_of_cons; left|]. split; [done|].
    unfold parentAccepted. by rewrite Hinterface, Hsuper.
  - assert (failedClass = childClass -> false ∈ h ->
            (exists node0,
               node0 ∈ node :: next /\ hashClassTableAt node0 = Some failedClass
               /\ parentAccepted failedClass childClass = false)
            \/ (failedClass = childClass /\ false ∈ h
                /\ exists node0,
                     node0 ∈ node :: next /\ hashClassTableAt node0 = None))
      as Hhere.
    { intros -> Hheap. right. split; [done|]. split; [done|]. exists node.
      split; [by apply elem_of_cons; left|done]. }
    destruct (table !! node) as [parentClassEntry|]; [by apply Hnext|].
    destruct (allocate h) as [[|] h1] eqn:Hfirst;
      pose proof (allocate_failed _ _ _ Hfirst) as [Hfail1 Hh1].
    + destruct (allocate h1) as [[|] h2] eqn:Hsecond;
        pose proof (allocate_failed _ _ _ Hsecond) as [Hfail2 Hh2].
      * apply Hnext. by auto.
      * intros [= <- <- <-]. apply Hhere; by auto.
    + intros [= <- <- <-]. apply Hhere; by auto.
Qed.

(** X21: the class that [j9bcv_validateClassRelationships] returns when
    it fails.  The validated class has an entry, and the class returned
    is the validated class itself when its entry says that it must be
    an interface and it is not one; or java/lang/Throwable when the
    entry has that flag and Throwable is neither the same as nor a
    superclass of the validated class; or a loaded class, under the
    name of one of the parent nodes, that is neither an interface nor
    the same as or a superclass of the validated class; or the
    validated class itself after a failed allocation for a parent node
    that is not loaded. *)
Theorem validation_failure_names_the_offender hashClassTableAt h cl
    childClassName childClass h' cl' failedClass :
  j9bcv_validateClassRelationships hashClassTableAt h cl childClassName
    childClass = (h', cl', Some failedClass) ->
  exists entry,
    findClassRelationship cl childClassName = Some entry
    /\ ((failedClass = childClass /\ mustBeInterface entry = true
         /\ J9ROMCLASS_IS_INTERFACE childClass = false)
        \/ (failedClass = J9VMJAVALANGTHROWABLE_OR_NULL vm
            /\ parentIsThrowable entry = true
            /\ isSameOrSuperClassOf (J9VMJAVALANGTHROWABLE_OR_NULL vm)
                 childClass = false)
        \/ (exists node,
              node ∈ root entry /\ hashClassTableAt node = Some failedClass
              /\ parentAccepted failedClass childClass = false)
        \/ (failedClass = childClass /\ false ∈ h
            /\ exists node,
                 node ∈ root entry /\ hashClassTableAt node = None)).
Proof.
  unfold j9bcv_validateClassRelationships, findClassRelationship.
  destruct (classRelationshipsHashTable cl) as [table|]; [|done].
  destruct (table !! childClassName) as [entry|]; [|done].
  fold (mustBeInterface entry). fold (parentIsThrowable entry).
  intros Hrun. exists entry. split; [done|]. revert Hrun.
  destruct (mustBeInterface entry) eqn:Hmust;
    destruct (J9ROMCLASS_IS_INTERFACE childClass) eqn:Hinterface;
    cbn [andb negb]; try (intros [= <- <- <-]; by auto).
  all: destruct (parentIsThrowable entry) eqn:Hflag;
    destruct (isSameOrSuperClassOf (J9VMJAVALANGTHROWABLE_OR_NULL vm)
                childClass) eqn:Hsuper;
    cbn [andb negb]; try (intros [= <- <- <-]; by auto).
  all: destruct (validateParentNodes hashClassTableAt h table (root entry)
                   childClass) as [[h1 table1] [failed|]] eqn:Hnodes;
    [|done]; intros [= <- <- <-];
    apply validateParentNodes_failed in Hnodes as [?|?]; by auto.
Qed.

(** X22: every snippet that [j9bcv_recordClassRelationshipSnippet] has
    recorded with [BCV_SUCCESS] is dealt with by a pass of
    [j9bcv_processClassRelationshipSnippets] over the snippet table that
    returns [BCV_SUCCESS]: the relationship of its two names holds among
    the loaded classes, or it is pending in the table of the class
    loader afterwards. *)
Theorem recorded_snippets_are_processed hashClassTableAt h0 verifyData calls
    h cl h' cl' verifyData' trace :
  j9bcv_processClassRelationshipSnippets hashClassTableAt h cl
    (recordSnippets h0 verifyData calls).1.2 None
  = Some (h', cl', verifyData', BCV_SUCCESS, trace) ->
  forall call,
    call ∈ recordedSnippets calls (recordSnippets h0 verifyData calls).2 ->
    relationshipHolds hashClassTableAt (snippetNames verifyData call).1
      (snippetNames verifyData call).2
    \/ relationshipRecorded cl' (snippetNames verifyData call).1
         (snippetNames verifyData call).2.
Proof.
  intros Hprocess call Hcall.
  assert (call ∈ snippetTable (recordSnippets h0 verifyData calls).1.2)
    as Hin by (apply recordSnippets_elements; by right).
  pose proof (recordSnippets_classNameList calls h0 verifyData) as Hnames.
  revert Hprocess Hin. simpl. unfold snippetTable.
  destruct (classRelationshipSnippetsHashTable
              (recordSnippets h0 verifyData calls).1.2) as [snippetEntries|];
    [|by intros _ ?%elem_of_nil].
  unfold processClassRelationshipSnippetsNoCachedData. simpl.
  destruct (processSnippetNames hashClassTableAt h cl
              (snippetNames (recordSnippets h0 verifyData calls).1.2
                 <$> snippetEntries))
    as [[[h1 cl1] reasonCode] trace1] eqn:Hrun.
  intros [= <- <- <- -> <-] Hin.
  apply processSnippetNames_success in Hrun as (_ & _ & Hall).
  apply Hall. apply list_elem_of_fmap. exists call. split; [|done].
  unfold snippetNames. by rewrite Hnames.
Qed.

End LifecycleProperties.

Lemma validation_failure_names_the_offender_witness :
  exists entry,
    findClassRelationship sampleLoaderAppBase "App" = Some entry
    /\ ((sampleBase = sampleApp /\ mustBeInterface entry = true
         /\ sampleIsInterface sampleApp = false)
        \/ (sampleBase = sampleThrowable /\ parentIsThrowable entry = true
            /\ sampleIsSameOrSuperClassOf sampleThrowable sampleApp = false)
        \/ (exists node,
              node ∈ root entry
              /\ sampleLoaded sampleClasses node = Some sampleBase
              /\ parentAccepted (vm := sampleVM) sampleBase sampleApp = false)
        \/ (sampleBase = sampleApp /\ false ∈ []
            /\ exists node,
                 node ∈ root entry /\ sampleLoaded sampleClasses node = None)).
Proof.
  apply (validation_failure_names_the_offender sampleVM
           (sampleLoaded sampleClasses) [] sampleLoaderAppBase "App" sampleApp
           [] sampleLoaderAppBase sampleBase).
  vm_compute. reflexivity.
Defined.

Lemma recorded_snippets_are_processed_witness :
  relationshipHolds (vm := sampleVM) (sampleLoaded [sampleDerived; sampleBase])
    "Derived" "Base"
  \/ relationshipRecorded sampleLoaderAppSerializable "Derived" "Base".
Proof.
  apply (recorded_snippets_are_processed sampleVM
           (sampleLoaded [sampleDerived; sampleBase]) [] (sampleVerifyData None)
           [mkSnippet 3 1; mkSnippet 0 2; mkSnippet 3 1] [] newClassLoader []
           sampleLoaderAppSerializable (sampleVerifyData None) []
           ltac:(vm_compute; reflexivity) (mkSnippet 3 1)).
  vm_compute. by apply elem_of_cons; left.
Defined.
